(** * Discussion REST API: request handling over the comment service

    A shallow embedding of [lms/djangoapps/discussion/rest_api/api.py].
    The comment service, the course store, the serializers, the action
    forms and the permission helpers are collaborators of the module; they
    are gathered in a [World] record that every operation reads.  Effects
    that leave the module (saves, signals, votes, tracking events) are
    logged as a list of [event]s next to the result or the exception. *)

From Stdlib Require Import ZArith Lia Bool Ascii String.
From stdpp Require Import base decidable option list strings gmap pretty sorting.

Open Scope string_scope.
Open Scope list_scope.
Open Scope Z_scope.

(** ** Python values *)

Module Py.

(** The values that travel in request data and serialized payloads. *)
Inductive pyval :=
| VNone
| VBool (b : bool)
| VInt (z : Z)
| VStr (s : string)
| VUsers (u : gmap string string).

#[global] Instance pyval_eq_dec : EqDecision pyval.
Proof. solve_decision. Defined.

(** [bool(v)] *)
Definition truthy (v : pyval) : bool :=
  match v with
  | VNone => false
  | VBool b => b
  | VInt z => negb (z =? 0)
  | VStr s => negb (String.eqb s "")
  | VUsers u => negb (bool_decide (u = ∅))
  end.

(** [a == b]; a bool compares as the integer it is. *)
Definition eqb (a b : pyval) : bool :=
  match a, b with
  | VNone, VNone => true
  | VBool x, VBool y => Bool.eqb x y
  | VBool x, VInt z | VInt z, VBool x => (if x then 1 else 0) =? z
  | VInt x, VInt y => x =? y
  | VStr x, VStr y => String.eqb x y
  | VUsers x, VUsers y => bool_decide (x = y)
  | _, _ => false
  end.

(** [x in l] for a list (or the keys of a dict) of strings. *)
Definition str_in (x : string) (l : list string) : bool :=
  existsb (String.eqb x) l.

(** [d.get(k)] on a dict kept as an association list. *)
Fixpoint get {V : Type} (d : list (string * V)) (k : string) : option V :=
  match d with
  | [] => None
  | (k', v) :: d' => if String.eqb k k' then Some v else get d' k
  end.

Definition keys {V : Type} (d : list (string * V)) : list string := map fst d.

(** [d[k] = v]: the value of a present key is replaced where the key
    stands, a new key goes last. *)
Fixpoint dict_set {V : Type} (d : list (string * V)) (k : string) (v : V)
  : list (string * V) :=
  match d with
  | [] => [(k, v)]
  | (k', v') :: d' =>
      if String.eqb k k' then (k', v) :: d' else (k', v') :: dict_set d' k v
  end.

(** [dict(items)] *)
Definition dict_of_items {V : Type} (items : list (string * V)) : list (string * V) :=
  fold_left (fun d kv => dict_set d (fst kv) (snd kv)) items [].

(** [sep.join(l)] *)
Fixpoint join (sep : string) (l : list string) : string :=
  match l with
  | [] => ""
  | [x] => x
  | x :: l' => (x ++ sep ++ join sep l')%string
  end.

(** [s.split(",")]: always at least one piece. *)
Fixpoint split_comma_aux (s : string) (cur : string) : list string :=
  match s with
  | EmptyString => [cur]
  | String c s' =>
      if Ascii.eqb c ","%char then cur :: split_comma_aux s' ""
      else split_comma_aux s' (cur ++ String c "")%string
  end.

Definition split_comma (s : string) : list string := split_comma_aux s "".

(** Index normalisation of a slice bound: negative counts from the end,
    and the result is clamped to [0, len]. *)
Definition clamp (len i : Z) : Z :=
  if i <? 0 then Z.max (i + len) 0 else Z.min i len.

(** [l[start:stop]] *)
Definition slice {A : Type} (l : list A) (start stop : Z) : list A :=
  let len := Z.of_nat (length l) in
  let a := clamp len start in
  let b := clamp len stop in
  take (Z.to_nat (b - a)) (drop (Z.to_nat a) l).

(** Insertion after the elements that are not greater: the sort is
    stable, as [sorted] is. *)
Fixpoint insert_by {A : Type} (key : A → string) (x : A) (l : list A) : list A :=
  match l with
  | [] => [x]
  | y :: l' =>
      if String.ltb (key x) (key y) then x :: y :: l' else y :: insert_by key x l'
  end.

(** [sorted(l, key=key)] for string keys. *)
Definition sorted_by {A : Type} (key : A → string) (l : list A) : list A :=
  fold_left (fun acc x => insert_by key x acc) l [].

(** [str(z)] *)
Definition str_of_int (z : Z) : string := pretty z.

End Py.

Import Py.

(** ** Exceptions *)

Inductive exn :=
| CourseNotFoundError (msg : string)
| DiscussionDisabledError (msg : string)
| ThreadNotFoundError (msg : string)
| CommentNotFoundError (msg : string)
| DiscussionNotFoundError (msg : string)
| PageNotFoundError (msg : string)
| PermissionDenied (msg : string)
| ValidationError (errors : list (string * list string))
| ValueError (msg : string)
| DiscussionBlackOutException
| CommentClientRequestError
| KeyError (key : string)
| IndexError
| TypeError
| ZeroDivisionError.

(** ** Effects

    What the module does to the outside: calls that change the comment
    service, signals and tracking events.  They are logged in order. *)

Inductive signal :=
| comment_created | comment_deleted | comment_edited | comment_voted
| thread_created | thread_deleted | thread_edited | thread_voted.

Inductive DiscussionEntity := thread | comment.

Record User := { user_pk : Z; user_username : string }.

Record Request := { request_user : User }.

Inductive event :=
| SerializerSave (entity : DiscussionEntity) (instance_id : string)
    (data : list (string * pyval))
| SignalSent (s : signal) (user : User) (post : string)
| Follow (user : User) (content_id : string)
| Unfollow (user : User) (content_id : string)
| FlagAbuse (user : User) (content_id : string)
| UnFlagAbuse (user : User) (content_id : string)
| Vote (user : User) (content_id : string) (value : string)
| Unvote (user : User) (content_id : string)
| TrackVotedEvent (content_id : string) (vote_value : string) (undo_vote : bool)
| MarkRead (user : User) (content_id : string)
| Pin (user : User) (thread_id : string)
| UnPin (user : User) (thread_id : string)
| Delete (content_id : string)
| TrackCommentCreatedEvent (comment_id : string) (commentable_id : string)
    (followed : bool).

(** A computation logs events and ends in an exception or a value.  The
    events logged before an exception stay logged, as the calls made
    before a [raise] stay made. *)
Definition M (A : Type) : Type := (list event * (exn + A))%type.

Definition ret {A : Type} (a : A) : M A := ([], inr a).

Definition raise {A : Type} (e : exn) : M A := ([], inl e).

Definition emit (ev : event) : M unit := ([ev], inr tt).

Definition bind {A B : Type} (m : M A) (f : A → M B) : M B :=
  match m with
  | (l, inl e) => (l, inl e)
  | (l, inr a) => let '(l', r) := f a in (l ++ l', r)
  end.

#[global] Instance M_ret : MRet M := @ret.
#[global] Instance M_bind : MBind M := fun A B f m => bind m f.

(** [try: m except CommentClientRequestError: raise e] *)
Definition except_request_error {A : Type} (m : M A) (e : exn) : M A :=
  match m with
  | (l, inl CommentClientRequestError) => (l, inl e)
  | _ => m
  end.

(** A [for] loop that threads its state and stops at the first exception. *)
Fixpoint for_each {A S : Type} (body : S → A → M S) (s : S) (l : list A) : M S :=
  match l with
  | [] => ret s
  | x :: l' => s' ← body s x; for_each body s' l'
  end.

Definition events {A : Type} (m : M A) : list event := fst m.
Definition outcome {A : Type} (m : M A) : exn + A := snd m.

(** ** Data model *)

(** A thread or a comment as the comment service returns it; a comment
    is a response when it hangs under a thread.  [cc_type] is ['thread']
    or ['comment']. *)
#[warnings="-register-all"] Inductive cc_content := CcContent {
  cc_type : string;
  cc_id : string;
  cc_course_id : string;
  cc_group_id : option Z;
  cc_commentable_id : string;
  cc_thread_type : string;
  cc_closed : bool;
  cc_read : bool;
  cc_user_id : string;
  cc_thread_id : string;
  cc_children : list cc_content;
  cc_endorsed_responses : list cc_content;
  cc_non_endorsed_responses : list cc_content;
  cc_non_endorsed_resp_total : Z;
  cc_resp_total : Z
}.

(** What a search of the comment service returns. *)
Record paginated_results := {
  pr_collection : list cc_content;
  pr_page : Z;
  pr_num_pages : Z;
  pr_thread_count : Z;
  pr_corrected_text : option string
}.

Record TopicEntry := { entry_id : string; entry_sort_key : option string }.

Record XBlock := {
  discussion_id : string;
  discussion_category : string;
  discussion_target : string;
  sort_key : option string
}.

Record Course := {
  course_id : string;
  discussion_topics : list (string * TopicEntry)
}.

Record CourseDiscussionSettings := {
  settings_course_id : string;
  divided_discussions : list string;
  always_divide_inline_discussions : bool
}.

Record AccountSettings := { account_username : string; profile_image : string }.

(** The bound action form: its declared fields, its errors and its
    cleaned data. *)
Record ActionsForm := {
  form_fields : list string;
  form_errors : list (string * list string);
  cleaned_data : list (string * pyval)
}.

Definition is_valid (errors : list (string * list string)) : bool :=
  match errors with [] => true | _ => false end.

(** The serializer context. *)
Record context := {
  ctx_course : Course;
  ctx_request : Request;
  ctx_thread : option cc_content;
  is_requester_privileged : bool;
  cc_requester : User
}.

Abbreviation api_dict := (gmap string pyval).
Abbreviation request_data := (list (string * pyval)).

(** ** The collaborators of the module

    Everything [api.py] imports and calls: the comment service client, the
    course store, forum roles and cohorts, the user table, the serializers
    and forms, the permission helpers and the URL builder.  [None] from a
    retrieve is the client's [CommentClientRequestError]; [None] from
    [get_course_with_access] is its [Http404] or [CourseAccessRedirect];
    [None] from [User_objects_get] is [User.DoesNotExist]. *)
Record World := {
  Thread_retrieve : pyval → gmap string pyval → option cc_content;
  Comment_retrieve : string → option cc_content;
  Thread_search : gmap string pyval → paginated_results;
  subscribed_threads : User → gmap string pyval → paginated_results;
  get_course_commentable_counts : string → list (string * list (string * Z));
  get_course_with_access : User → string → option Course;
  discussion_tab_enabled : Course → User → bool;
  get_accessible_discussion_xblocks : Course → User → list XBlock;
  discussion_open_for_user : Course → User → bool;
  get_user_role_names : User → string → list string;
  CourseDiscussionSettings_get : string → CourseDiscussionSettings;
  is_commentable_divided : string → string → CourseDiscussionSettings → bool;
  get_group_id_for_user : User → CourseDiscussionSettings → option Z;
  User_objects_get : string → option User;
  get_account_settings : Request → list string → list AccountSettings;
  ThreadSerializer_data : context → cc_content → api_dict;
  CommentSerializer_data : context → cc_content → api_dict;
  ThreadSerializer_errors :
    context → option cc_content → request_data → list (string * list string);
  CommentSerializer_errors :
    context → option cc_content → request_data → list (string * list string);
  ThreadSerializer_save : context → option cc_content → request_data → cc_content;
  CommentSerializer_save : context → option cc_content → request_data → cc_content;
  ThreadActionsForm : request_data → ActionsForm;
  CommentActionsForm : request_data → ActionsForm;
  get_editable_fields : cc_content → context → list string;
  get_initializable_comment_fields : context → list string;
  can_delete : cc_content → context → bool;
  build_absolute_uri : Request → string → list (string * pyval) → string
}.

Definition FORUM_ROLE_ADMINISTRATOR : string := "Administrator".
Definition FORUM_ROLE_MODERATOR : string := "Moderator".
Definition FORUM_ROLE_COMMUNITY_TA : string := "Community TA".

(** Modelled from the spec: [get_context] of [serializers.py], which is
    not among the sources.  The context carries the course, the request,
    the thread when there is one, the comment-service user of the
    requester, and the privilege classification: administrator, moderator
    and community-TA roles count as privileged (the test [get_course]
    applies to the same role names). *)
Definition get_context (w : World) (course : Course) (request : Request)
    (thread : option cc_content) : context :=
  let user_roles := get_user_role_names w (request_user request) (course_id course) in
  {| ctx_course := course;
     ctx_request := request;
     ctx_thread := thread;
     is_requester_privileged :=
       existsb (fun role => str_in role user_roles)
         [FORUM_ROLE_ADMINISTRATOR; FORUM_ROLE_MODERATOR; FORUM_ROLE_COMMUNITY_TA];
     cc_requester := request_user request |}.

Section Api.

Variable w : World.

(** [_get_course] *)
Definition _get_course (course_key : string) (user : User) : M Course :=
  match get_course_with_access w user course_key with
  | None => raise (CourseNotFoundError "Course not found.")
  | Some course =>
      if negb (discussion_tab_enabled w course user)
      then raise (DiscussionDisabledError "Discussion is disabled for the course.")
      else ret course
  end.

(** [cc_thread["group_id"]] as a condition. *)
Definition group_id_truthy (g : option Z) : bool :=
  match g with
  | None => false
  | Some z => negb (z =? 0)
  end.

(** [d.setdefault]-like step of [_get_thread_and_context]:
    [if k not in d: d[k] = v]. *)
Definition default_kwarg (k : string) (v : pyval) (d : gmap string pyval)
  : gmap string pyval :=
  match d !! k with
  | Some _ => d
  | None => <[k := v]> d
  end.

(** [_get_thread_and_context] *)
Definition _get_thread_and_context (request : Request) (thread_id : pyval)
    (retrieve_kwargs : option (gmap string pyval)) : M (cc_content * context) :=
  let retrieve_kwargs := default ∅ retrieve_kwargs in
  except_request_error
    (let retrieve_kwargs := default_kwarg "with_responses" (VBool false) retrieve_kwargs in
     let retrieve_kwargs := default_kwarg "mark_as_read" (VBool false) retrieve_kwargs in
     match Thread_retrieve w thread_id retrieve_kwargs with
     | None => raise CommentClientRequestError
     | Some cc_thread =>
         let course_key := cc_course_id cc_thread in
         course ← _get_course course_key (request_user request);
         let context := get_context w course request (Some cc_thread) in
         let course_discussion_settings := CourseDiscussionSettings_get w course_key in
         if negb (is_requester_privileged context)
            && group_id_truthy (cc_group_id cc_thread)
            && is_commentable_divided w (course_id course)
                 (cc_commentable_id cc_thread) course_discussion_settings
         then
           let requester_group_id :=
             get_group_id_for_user w (request_user request) course_discussion_settings in
           match requester_group_id with
           | Some g =>
               if negb (bool_decide (cc_group_id cc_thread = Some g))
               then raise (ThreadNotFoundError "Thread not found.")
               else ret (cc_thread, context)
           | None => ret (cc_thread, context)
           end
         else ret (cc_thread, context)
     end)
    (ThreadNotFoundError "Thread not found.").

(** [_get_comment_and_context] *)
Definition _get_comment_and_context (request : Request) (comment_id : string)
  : M (cc_content * context) :=
  except_request_error
    (match Comment_retrieve w comment_id with
     | None => raise CommentClientRequestError
     | Some cc_comment =>
         tc ← _get_thread_and_context request (VStr (cc_thread_id cc_comment)) None;
         ret (cc_comment, snd tc)
     end)
    (CommentNotFoundError "Comment not found.").

(** [get_thread_list_url] *)
Definition get_thread_list_url (request : Request) (course_key : string)
    (topic_id_list : option (list string)) (following : bool) : string :=
  let path := "thread-list" in
  let query_list :=
    [("course_id", VStr course_key)]
    ++ map (fun topic_id => ("topic_id", VStr topic_id)) (default [] topic_id_list)
    ++ (if following then [("following", VBool following)] else []) in
  build_absolute_uri w request path query_list.


(** ** Topics *)

(** [DiscussionTopic]; [DiscussionTopic_init] is its [__init__]. *)
#[warnings="-register-all"] Inductive DiscussionTopic := MkDiscussionTopic {
  topic_id : option string;
  topic_name : string;
  topic_thread_list_url : string;
  topic_children : list DiscussionTopic;
  topic_thread_counts : option (list (string * Z))
}.

Definition DiscussionTopic_init (topic_id : option string) (name : string)
    (thread_list_url : string) (children : option (list DiscussionTopic))
    (thread_counts : option (list (string * Z))) : DiscussionTopic :=
  let no_children := match children with None | Some [] => true | _ => false end in
  let no_counts := match thread_counts with None | Some [] => true | _ => false end in
  MkDiscussionTopic topic_id name thread_list_url (default [] children)
    (if no_children && no_counts
     then Some [("discussion", 0); ("question", 0)]
     else thread_counts).

(** Modelled from the spec: [DiscussionTopicSerializer] of
    [serializers.py], which is not among the sources.  A serialized
    topic has the topic's id, name, thread-list link, child topics and
    per-type thread counts, so it is kept as the topic itself. *)
Definition DiscussionTopicSerializer_data (t : DiscussionTopic) : DiscussionTopic := t.

(** [topic_ids] as a condition: neither [None] nor empty. *)
Definition topic_ids_truthy (topic_ids : option (gset string)) : bool :=
  match topic_ids with
  | None => false
  | Some s => negb (bool_decide (s = ∅))
  end.

(** [x in topic_ids] (only evaluated when [topic_ids] is truthy). *)
Definition in_topic_ids (x : string) (topic_ids : option (gset string)) : bool :=
  match topic_ids with
  | None => false
  | Some s => bool_decide (x ∈ s)
  end.

(** [xblock.sort_key or xblock.discussion_target] *)
Definition get_xblock_sort_key (xblock : XBlock) : string :=
  match sort_key xblock with
  | Some k => if String.eqb k "" then discussion_target xblock else k
  | None => discussion_target xblock
  end.

(** [xblocks_by_category[category].append(xblock)] on the defaultdict. *)
Fixpoint append_to_category (d : list (string * list XBlock)) (xblock : XBlock)
  : list (string * list XBlock) :=
  match d with
  | [] => [(discussion_category xblock, [xblock])]
  | (c, xs) :: d' =>
      if String.eqb (discussion_category xblock) c
      then (c, xs ++ [xblock]) :: d'
      else (c, xs) :: append_to_category d' xblock
  end.

Definition get_sorted_xblocks (xblocks_by_category : list (string * list XBlock))
    (category : string) : list XBlock :=
  sorted_by get_xblock_sort_key (default [] (get xblocks_by_category category)).

(** The loop over the xblocks of a category in [get_courseware_topics]:
    the child topics and the requested ids found so far. *)
Definition add_xblock_topic (request : Request) (course_key : string)
    (topic_ids : option (gset string))
    (thread_counts : list (string * list (string * Z)))
    (inner : list DiscussionTopic * gset string) (xblock : XBlock)
  : list DiscussionTopic * gset string :=
  let '(children, existing_topic_ids) := inner in
  if negb (topic_ids_truthy topic_ids)
     || in_topic_ids (discussion_id xblock) topic_ids
  then
    let discussion_topic :=
      DiscussionTopic_init
        (Some (discussion_id xblock))
        (discussion_target xblock)
        (get_thread_list_url request course_key (Some [discussion_id xblock]) false)
        None
        (get thread_counts (discussion_id xblock)) in
    (children ++ [discussion_topic],
     if topic_ids_truthy topic_ids && in_topic_ids (discussion_id xblock) topic_ids
     then existing_topic_ids ∪ {[discussion_id xblock]}
     else existing_topic_ids)
  else inner.

(** The loop over the sorted categories in [get_courseware_topics]. *)
Definition add_category_topic (request : Request) (course_key : string)
    (topic_ids : option (gset string))
    (thread_counts : list (string * list (string * Z)))
    (xblocks_by_category : list (string * list XBlock))
    (acc : list DiscussionTopic * gset string) (category : string)
  : list DiscussionTopic * gset string :=
  let '(courseware_topics, existing_topic_ids) := acc in
  let '(children, existing_topic_ids) :=
    fold_left (add_xblock_topic request course_key topic_ids thread_counts)
      (get_sorted_xblocks xblocks_by_category category)
      ([], existing_topic_ids) in
  if negb (topic_ids_truthy topic_ids)
     || match children with [] => false | _ => true end
  then
    let discussion_topic :=
      DiscussionTopic_init None category
        (get_thread_list_url request course_key
           (Some (map discussion_id (get_sorted_xblocks xblocks_by_category category)))
           false)
        (Some children) None in
    (courseware_topics ++ [DiscussionTopicSerializer_data discussion_topic],
     existing_topic_ids)
  else (courseware_topics, existing_topic_ids).

(** [get_courseware_topics] *)
Definition get_courseware_topics (request : Request) (course_key : string)
    (course : Course) (topic_ids : option (gset string))
    (thread_counts : list (string * list (string * Z)))
  : list DiscussionTopic * gset string :=
  let discussion_xblocks :=
    get_accessible_discussion_xblocks w course (request_user request) in
  let xblocks_by_category := fold_left append_to_category discussion_xblocks [] in
  fold_left
    (add_category_topic request course_key topic_ids thread_counts xblocks_by_category)
    (sorted_by id (keys xblocks_by_category))
    ([], ∅).

(** The loop over the sorted topics in [get_non_courseware_topics]. *)
Definition add_non_courseware_topic (request : Request) (course_key : string)
    (topic_ids : option (gset string))
    (thread_counts : list (string * list (string * Z)))
    (acc : list DiscussionTopic * gset string) (item : string * TopicEntry)
  : list DiscussionTopic * gset string :=
  let '(non_courseware_topics, existing_topic_ids) := acc in
  let '(name, entry) := item in
  if negb (topic_ids_truthy topic_ids) || in_topic_ids (entry_id entry) topic_ids
  then
    let discussion_topic :=
      DiscussionTopic_init (Some (entry_id entry)) name
        (get_thread_list_url request course_key (Some [entry_id entry]) false)
        None
        (get thread_counts (entry_id entry)) in
    (non_courseware_topics ++ [DiscussionTopicSerializer_data discussion_topic],
     if topic_ids_truthy topic_ids && in_topic_ids (entry_id entry) topic_ids
     then existing_topic_ids ∪ {[entry_id entry]}
     else existing_topic_ids)
  else acc.

(** [get_non_courseware_topics] *)
Definition get_non_courseware_topics (request : Request) (course_key : string)
    (course : Course) (topic_ids : option (gset string))
    (thread_counts : list (string * list (string * Z)))
  : list DiscussionTopic * gset string :=
  let sorted_topics :=
    sorted_by (fun item : string * TopicEntry =>
                 default (fst item) (entry_sort_key (snd item)))
      (discussion_topics course) in
  fold_left (add_non_courseware_topic request course_key topic_ids thread_counts)
    sorted_topics ([], ∅).

Record CourseTopics := {
  courseware_topics : list DiscussionTopic;
  non_courseware_topics : list DiscussionTopic
}.

(** The message of [get_course_topics]' [DiscussionNotFoundError]. *)
Definition discussion_not_found_message (ids : list string) : string :=
  ("Discussion not found for '" ++ join ", " ids ++ "'.")%string.

(** [get_course_topics] *)
Definition get_course_topics (request : Request) (course_key : string)
    (topic_ids : option (gset string)) : M CourseTopics :=
  course ← _get_course course_key (request_user request);
  let thread_counts := get_course_commentable_counts w (course_id course) in
  let '(courseware_topics, existing_courseware_topic_ids) :=
    get_courseware_topics request course_key course topic_ids thread_counts in
  let '(non_courseware_topics, existing_non_courseware_topic_ids) :=
    get_non_courseware_topics request course_key course topic_ids thread_counts in
  let not_found_topic_ids :=
    default ∅ topic_ids
      ∖ (existing_courseware_topic_ids ∪ existing_non_courseware_topic_ids) in
  if topic_ids_truthy topic_ids && negb (bool_decide (not_found_topic_ids = ∅))
  then raise (DiscussionNotFoundError
                (discussion_not_found_message (elements not_found_topic_ids)))
  else ret {| courseware_topics := courseware_topics;
              non_courseware_topics := non_courseware_topics |}.

(** ** Serialization of threads and comments *)

(** [d[k]] on a payload. *)
Definition getitem (d : api_dict) (k : string) : M pyval :=
  match d !! k with
  | Some v => ret v
  | None => raise (KeyError k)
  end.

(** [_get_user_profile_dict]: the profiles of the account API, keyed by
    username. *)
Definition _get_user_profile_dict (request : Request) (usernames : string)
  : list (string * AccountSettings) :=
  let username_list :=
    if negb (String.eqb usernames "") then split_comma usernames else [] in
  let user_profile_details := get_account_settings w request username_list in
  dict_of_items (map (fun user => (account_username user, user)) user_profile_details).

(** [_user_profile]: [{'profile': {'image': user_profile['profile_image']}}],
    kept as the image it wraps. *)
Definition _user_profile (user_profile : AccountSettings) : string :=
  profile_image user_profile.

(** [username_profile_dict[name]] *)
Definition profile_of (username_profile_dict : list (string * AccountSettings))
    (name : pyval) : M AccountSettings :=
  match name with
  | VStr s =>
      match get username_profile_dict s with
      | Some p => ret p
      | None => raise (KeyError s)
      end
  | _ => raise (KeyError "")
  end.

(** The name a dict of users is keyed by. *)
Definition user_key (name : pyval) : string :=
  match name with VStr s => s | _ => "" end.

(** [_get_users] *)
Definition _get_users (discussion_entity_type : DiscussionEntity)
    (discussion_entity : api_dict)
    (username_profile_dict : list (string * AccountSettings))
  : M (gmap string string) :=
  let users : gmap string string := ∅ in
  author ← getitem discussion_entity "author";
  users ← (if truthy author
           then p ← profile_of username_profile_dict author;
                ret (<[user_key author := _user_profile p]> users)
           else ret users);
  match discussion_entity_type with
  | comment =>
      endorsed ← getitem discussion_entity "endorsed";
      if truthy endorsed
      then
        endorsed_by ← getitem discussion_entity "endorsed_by";
        if truthy endorsed_by
        then p ← profile_of username_profile_dict endorsed_by;
             ret (<[user_key endorsed_by := _user_profile p]> users)
        else ret users
      else ret users
  | thread => ret users
  end.

(** [','.join(usernames)]; a name that is not a string is a [TypeError]. *)
Fixpoint join_usernames (usernames : list pyval) : M (list string) :=
  match usernames with
  | [] => ret []
  | VStr s :: rest => l ← join_usernames rest; ret (s :: l)
  | _ :: _ => raise TypeError
  end.

(** [_add_additional_response_fields] *)
Definition _add_additional_response_fields (request : Request)
    (serialized_discussion_entities : list api_dict) (usernames : list pyval)
    (discussion_entity_type : DiscussionEntity) (include_profile_image : bool)
  : M (list api_dict) :=
  if include_profile_image
  then
    names ← join_usernames usernames;
    let username_profile_dict := _get_user_profile_dict request (join "," names) in
    mapM (fun discussion_entity =>
            users ← _get_users discussion_entity_type discussion_entity
                      username_profile_dict;
            ret (<["users" := VUsers users]> discussion_entity))
         serialized_discussion_entities
  else ret serialized_discussion_entities.

(** [_include_profile_image] *)
Definition _include_profile_image (requested_fields : option (list string)) : bool :=
  match requested_fields with
  | None | Some [] => false
  | Some fields => str_in "profile_image" fields
  end.

(** [x not in usernames] *)
Definition not_in_usernames (x : pyval) (usernames : list pyval) : bool :=
  negb (existsb (Py.eqb x) usernames).

(** The body of the loop of [_serialize_discussion_entities] that collects
    the names of authors and endorsers. *)
Definition collect_usernames (serialized_entity : api_dict)
    (usernames : list pyval) : M (list pyval) :=
  author ← getitem serialized_entity "author";
  let usernames :=
    if truthy author && not_in_usernames author usernames
    then usernames ++ [author] else usernames in
  match serialized_entity !! "endorsed", serialized_entity !! "endorsed_by" with
  | Some endorsed, Some endorsed_by =>
      if truthy endorsed && truthy endorsed_by
         && not_in_usernames endorsed_by usernames
      then ret (usernames ++ [endorsed_by])
      else ret usernames
  | _, _ => ret usernames
  end.

(** [_serialize_discussion_entities] *)
Definition _serialize_discussion_entities (request : Request) (context : context)
    (discussion_entities : list cc_content) (requested_fields : option (list string))
    (discussion_entity_type : DiscussionEntity) : M (list api_dict) :=
  let include_profile_image := _include_profile_image requested_fields in
  acc ← for_each
    (fun (acc : list api_dict * list pyval) entity =>
       let '(results, usernames) := acc in
       let serialized_entity :=
         match discussion_entity_type with
         | thread => ThreadSerializer_data w context entity
         | comment => CommentSerializer_data w context entity
         end in
       let results := results ++ [serialized_entity] in
       if include_profile_image
       then usernames ← collect_usernames serialized_entity usernames;
            ret (results, usernames)
       else ret (results, usernames))
    ([], []) discussion_entities;
  let '(results, usernames) := acc in
  _add_additional_response_fields request results usernames discussion_entity_type
    include_profile_image.

(** ** Listings *)

(** What a listing hands to the view: the page data and the numbers the
    paginator was built with. *)
Inductive response_data :=
| ThreadListData (results : list api_dict) (text_search_rewrite : option string)
| CommentListData (results : list api_dict).

Record PaginatedResponse := {
  pagination_page : Z;
  pagination_num_pages : Z;
  pagination_count : Z;
  pagination_data : response_data
}.

(** Modelled from the spec: [DiscussionAPIPagination] of [pagination.py],
    which is not among the sources.
    [DiscussionAPIPagination(request, page_num, num_pages, result_count)
    .get_paginated_response(data)] is the paginated result carrying the
    data with the page number, the number of pages and the count. *)
Definition get_paginated_response (request : Request) (page_num num_pages : Z)
    (result_count : Z) (data : response_data) : PaginatedResponse :=
  {| pagination_page := page_num;
     pagination_num_pages := num_pages;
     pagination_count := result_count;
     pagination_data := data |}.

Definition results_of (r : PaginatedResponse) : list api_dict :=
  match pagination_data r with
  | ThreadListData results _ => results
  | CommentListData results => results
  end.

(** An optional argument as the value it is passed on as. *)
Definition of_option {A : Type} (f : A → pyval) (o : option A) : pyval :=
  match o with
  | None => VNone
  | Some a => f a
  end.

Definition list_truthy {A : Type} (o : option (list A)) : bool :=
  match o with None | Some [] => false | Some _ => true end.

Definition str_truthy (o : option string) : bool :=
  match o with None => false | Some s => negb (String.eqb s "") end.

Definition bool_truthy (o : option bool) : bool := default false o.

Definition cc_map : list (string * string) :=
  [("last_activity_at", "activity"); ("comment_count", "comments"); ("vote_count", "votes")].

Definition order_by_message (order_by : string) : string :=
  ("Invalid value. '" ++ order_by
   ++ "' must be 'last_activity_at', 'comment_count', or 'vote_count'")%string.

Definition order_direction_message (order_direction : string) : string :=
  ("Invalid value. '" ++ order_direction ++ "' must be 'desc'")%string.

Definition page_not_found : exn :=
  PageNotFoundError "Page not found (No results on this page).".

(** [sum(1 for param in [topic_id_list, text_search, following] if param)] *)
Definition exclusive_param_count (topic_id_list : option (list string))
    (text_search : option string) (following : option bool) : Z :=
  (if list_truthy topic_id_list then 1 else 0)
  + (if str_truthy text_search then 1 else 0)
  + (if bool_truthy following then 1 else 0).

(** The [author_id] of [get_thread_list]: [Some None] without an author
    filter, [Some (Some id)] for a user that exists, and [None] when
    [User.objects.get] raises [User.DoesNotExist]. *)
Definition author_lookup (author : option string) : option (option Z) :=
  if str_truthy author
  then match User_objects_get w (default "" author) with
       | Some u => Some (Some (user_pk u))
       | None => None
       end
  else Some None.

(** The query of [get_thread_list]: the [query_params] dict and the
    [view] filter put into it. *)
Definition thread_list_query_params (request : Request) (context : context)
    (course : Course) (page page_size : Z) (text_search : option string)
    (order_by : string) (author_id : option Z) (flagged : option bool)
    (thread_type : option string) (count_flagged : option bool)
    (view : option string) : gmap string pyval :=
  let query_params : gmap string pyval :=
    <["count_flagged" := of_option VBool count_flagged]>
    (<["thread_type" := of_option VStr thread_type]>
    (<["flagged" := of_option VBool flagged]>
    (<["author_id" := of_option VInt author_id]>
    (<["sort_key" := of_option VStr (get cc_map order_by)]>
    (<["text" := of_option VStr text_search]>
    (<["per_page" := VInt page_size]>
    (<["page" := VInt page]>
    (<["group_id" :=
         if is_requester_privileged context then VNone
         else of_option VInt
                (get_group_id_for_user w (request_user request)
                   (CourseDiscussionSettings_get w (course_id course)))]>
    (<["user_id" := VStr (str_of_int (user_pk (request_user request)))]>
     ∅))))))))) in
  match view with
  | Some v =>
      if negb (String.eqb v "")
      then
        if str_in v ["unread"; "unanswered"]
        then <[v := VStr "true"]> query_params
        else (* the ValidationError is built and not raised *) query_params
      else query_params
  | None => query_params
  end.

(** The service call of [get_thread_list]: the threads the requester
    follows, or a search of the course. *)
Definition thread_list_search (context : context) (course : Course)
    (query_params : gmap string pyval) (topic_id_list : option (list string))
    (text_search : option string) (following : option bool) : paginated_results :=
  if bool_truthy following
  then subscribed_threads w (cc_requester context) query_params
  else
    let query_params := <["course_id" := VStr (course_id course)]> query_params in
    let query_params :=
      <["commentable_ids" :=
          if list_truthy topic_id_list
          then VStr (join "," (default [] topic_id_list))
          else VNone]> query_params in
    let query_params := <["text" := of_option VStr text_search]> query_params in
    Thread_search w query_params.

(** [get_thread_list] *)
Definition get_thread_list (request : Request) (course_key : string)
    (page page_size : Z) (topic_id_list : option (list string))
    (text_search : option string) (following : option bool)
    (author : option string) (thread_type : option string)
    (flagged : option bool) (view : option string) (order_by : string)
    (order_direction : string) (requested_fields : option (list string))
    (count_flagged : option bool) : M PaginatedResponse :=
  if 1 <? exclusive_param_count topic_id_list text_search following
  then raise (ValueError "More than one mutually exclusive param passed to get_thread_list")
  else
  if negb (str_in order_by (keys cc_map))
  then raise (ValidationError [("order_by", [order_by_message order_by])])
  else
  if negb (String.eqb order_direction "desc")
  then raise (ValidationError
                [("order_direction", [order_direction_message order_direction])])
  else
  course ← _get_course course_key (request_user request);
  let context := get_context w course request None in
  match author_lookup author with
  | None =>
      (* Raising an error for a missing user leaks the presence of a
         username, so just return an empty response. *)
      ret (get_paginated_response request 0 1 0 (ThreadListData [] None))
  | Some author_id =>
      if bool_truthy count_flagged && negb (is_requester_privileged context)
      then raise (PermissionDenied
             "`count_flagged` can only be set by users with moderator access or higher.")
      else
      let query_params :=
        thread_list_query_params request context course page page_size text_search
          order_by author_id flagged thread_type count_flagged view in
      let paginated_results :=
        thread_list_search context course query_params topic_id_list text_search
          following in
      if negb (pr_page paginated_results =? page)
      then raise page_not_found
      else
      results ← _serialize_discussion_entities request context
                  (pr_collection paginated_results) requested_fields thread;
      ret (get_paginated_response request
             (pr_page paginated_results)
             (pr_num_pages paginated_results)
             (pr_thread_count paginated_results)
             (ThreadListData results (pr_corrected_text paginated_results)))
  end.

(** [(total + page_size - 1) // page_size if total else 1] *)
Definition num_pages_of (total page_size : Z) : M Z :=
  if negb (total =? 0)
  then
    if page_size =? 0 then raise ZeroDivisionError
    else ret ((total + page_size - 1) / page_size)
  else ret 1.

Definition endorsed_required : exn :=
  ValidationError [("endorsed", ["This field is required for question threads."])].

Definition endorsed_forbidden : exn :=
  ValidationError
    [("endorsed", ["This field may not be specified for discussion threads."])].

(** The [retrieve_kwargs] of [get_comment_list]. *)
Definition comment_list_kwargs (request : Request) (response_skip page_size : Z)
  : gmap string pyval :=
  <["response_limit" := VInt page_size]>
  (<["response_skip" := VInt response_skip]>
  (<["user_id" := VInt (user_pk (request_user request))]>
  (<["recursive" := VBool false]>
  (<["with_responses" := VBool true]> ∅)))).

(** The responses [get_comment_list] pages over and their total: the
    branch on the thread type and on [endorsed]. *)
Definition select_responses (cc_thread : cc_content) (endorsed : option bool)
    (response_skip page_size : Z) : M (list cc_content * Z) :=
  if String.eqb (cc_thread_type cc_thread) "question"
  then
    match endorsed with
    | None => raise endorsed_required
    | Some true =>
        (* CS does not apply resp_skip and resp_limit to endorsed
           responses of a question post *)
        ret (slice (cc_endorsed_responses cc_thread)
               response_skip (response_skip + page_size),
             Z.of_nat (length (cc_endorsed_responses cc_thread)))
    | Some false =>
        ret (cc_non_endorsed_responses cc_thread,
             cc_non_endorsed_resp_total cc_thread)
    end
  else
    match endorsed with
    | Some _ => raise endorsed_forbidden
    | None => ret (cc_children cc_thread, cc_resp_total cc_thread)
    end.

(** [get_comment_list] *)
Definition get_comment_list (request : Request) (thread_id : string)
    (endorsed : option bool) (page page_size : Z)
    (requested_fields : option (list string)) : M PaginatedResponse :=
  let response_skip := page_size * (page - 1) in
  tc ← _get_thread_and_context request (VStr thread_id)
         (Some (comment_list_kwargs request response_skip page_size));
  let '(cc_thread, context) := tc in
  (* Responses to discussion threads cannot be separated by endorsed, but
     responses to question threads must be separated by endorsed *)
  rt ← select_responses cc_thread endorsed response_skip page_size;
  let '(responses, resp_total) := rt in
  if match responses with [] => true | _ => false end && negb (page =? 1)
  then raise page_not_found
  else
  num_pages ← num_pages_of resp_total page_size;
  results ← _serialize_discussion_entities request context responses
              requested_fields comment;
  ret (get_paginated_response request page num_pages resp_total
         (CommentListData results)).

(** [get_thread] *)
Definition get_thread (request : Request) (thread_id : string)
    (requested_fields : option (list string)) : M api_dict :=
  tc ← _get_thread_and_context request (VStr thread_id)
         (Some (<["user_id" := VStr (str_of_int (user_pk (request_user request)))]>
               (<["with_responses" := VBool true]> ∅)));
  let '(cc_thread, context) := tc in
  results ← _serialize_discussion_entities request context [cc_thread]
              requested_fields thread;
  match results with
  | r :: _ => ret r
  | [] => raise IndexError
  end.

(** The first response with the given id: the [for ... break] loop of
    [get_response_comments]. *)
Fixpoint find_response_comments (thread_responses : list cc_content)
    (comment_id : string) : list cc_content :=
  match thread_responses with
  | [] => []
  | response :: rest =>
      if String.eqb (cc_id response) comment_id
      then cc_children response
      else find_response_comments rest comment_id
  end.

(** The [retrieve_kwargs] of [get_response_comments]. *)
Definition response_comments_kwargs : gmap string pyval :=
  <["recursive" := VBool true]> (<["with_responses" := VBool true]> ∅).

(** The responses of a thread: endorsed then non-endorsed ones for a
    question, the children otherwise. *)
Definition thread_responses (cc_thread : cc_content) : list cc_content :=
  if String.eqb (cc_thread_type cc_thread) "question"
  then cc_endorsed_responses cc_thread ++ cc_non_endorsed_responses cc_thread
  else cc_children cc_thread.

(** [get_response_comments] *)
Definition get_response_comments (request : Request) (comment_id : string)
    (page page_size : Z) (requested_fields : option (list string))
  : M PaginatedResponse :=
  except_request_error
    (match Comment_retrieve w comment_id with
     | None => raise CommentClientRequestError
     | Some cc_comment =>
         tc ← _get_thread_and_context request (VStr (cc_thread_id cc_comment))
                (Some response_comments_kwargs);
         let '(cc_thread, context) := tc in
         let response_comments :=
           find_response_comments (thread_responses cc_thread) comment_id in
         let response_skip := page_size * (page - 1) in
         let paged_response_comments :=
           slice response_comments response_skip (response_skip + page_size) in
         if match paged_response_comments with [] => true | _ => false end
            && negb (page =? 1)
         then raise page_not_found
         else
         results ← _serialize_discussion_entities request context
                     paged_response_comments requested_fields comment;
         let comments_count := Z.of_nat (length response_comments) in
         num_pages ← num_pages_of comments_count page_size;
         ret (get_paginated_response request page num_pages comments_count
                (CommentListData results))
     end)
    (CommentNotFoundError "Comment not found").

(** ** Field checks *)

(** [_check_fields] *)
Definition _check_fields (allowed_fields : list string) (data : request_data)
    (message : string) : M unit :=
  let non_allowed_fields :=
    dict_of_items
      (map (fun field => (field, [message]))
         (filter (fun field => negb (str_in field allowed_fields)) (keys data))) in
  match non_allowed_fields with
  | [] => ret tt
  | _ => raise (ValidationError non_allowed_fields)
  end.

(** [_check_initializable_comment_fields] *)
Definition _check_initializable_comment_fields (data : request_data)
    (context : context) : M unit :=
  _check_fields (get_initializable_comment_fields w context) data
    "This field is not initializable.".

(** [_check_editable_fields] *)
Definition _check_editable_fields (cc_content : cc_content) (data : request_data)
    (context : context) : M unit :=
  _check_fields (get_editable_fields w cc_content context) data
    "This field is not editable.".

(** ** Extra actions *)

(** [_handle_following_field] *)
Definition _handle_following_field (form_value : pyval) (user : User)
    (cc_content : cc_content) : M unit :=
  if truthy form_value
  then emit (Follow user (cc_id cc_content))
  else emit (Unfollow user (cc_id cc_content)).

(** [_handle_abuse_flagged_field] *)
Definition _handle_abuse_flagged_field (form_value : pyval) (user : User)
    (cc_content : cc_content) : M unit :=
  if truthy form_value
  then emit (FlagAbuse user (cc_id cc_content))
  else emit (UnFlagAbuse user (cc_id cc_content)).

(** [api_content["vote_count"] += delta] *)
Definition add_to_vote_count (api_content : api_dict) (delta : Z) : M api_dict :=
  vote_count ← getitem api_content "vote_count";
  match vote_count with
  | VInt n => ret (<["vote_count" := VInt (n + delta)]> api_content)
  | VBool b => ret (<["vote_count" := VInt ((if b then 1 else 0) + delta)]> api_content)
  | _ => raise TypeError
  end.

(** [_handle_voted_field] *)
Definition _handle_voted_field (form_value : pyval) (cc_content : cc_content)
    (api_content : api_dict) (request : Request) (context : context)
  : M api_dict :=
  let signal :=
    if String.eqb (cc_type cc_content) "thread" then thread_voted else comment_voted in
  emit (SignalSent signal (request_user (ctx_request context)) (cc_id cc_content));;
  api_content ←
    (if truthy form_value
     then emit (Vote (cc_requester context) (cc_id cc_content) "up");;
          add_to_vote_count api_content 1
     else emit (Unvote (cc_requester context) (cc_id cc_content));;
          add_to_vote_count api_content (-1));
  emit (TrackVotedEvent (cc_id cc_content) "up"
          (if truthy form_value then false else true));;
  ret api_content.

(** [_handle_read_field] *)
Definition _handle_read_field (api_content : api_dict) (form_value : pyval)
    (user : User) (cc_content : cc_content) : M api_dict :=
  if truthy form_value && negb (cc_read cc_content)
  then emit (MarkRead user (cc_id cc_content));;
       (* When a thread is marked as read, all of its responses and
          comments are also marked as read. *)
       ret (<["unread_comment_count" := VInt 0]> api_content)
  else ret api_content.

(** [_handle_pinned_field] *)
Definition _handle_pinned_field (pin_thread : pyval) (cc_content : cc_content)
    (user : User) : M unit :=
  if truthy pin_thread
  then emit (Pin user (cc_id cc_content))
  else emit (UnPin user (cc_id cc_content)).

(** One turn of the loop of [_do_extra_actions], on one item of the
    cleaned data of the form. *)
Definition extra_action (cc_content : cc_content) (request_fields : list string)
    (context : context) (request : Request) (api_content : api_dict)
    (item : string * pyval) : M api_dict :=
  let '(field, form_value) := item in
  if str_in field request_fields
  then
    current ← getitem api_content field;
    if negb (Py.eqb form_value current)
    then
      let api_content := <[field := form_value]> api_content in
      if String.eqb field "following"
      then _handle_following_field form_value (cc_requester context) cc_content;;
           ret api_content
      else if String.eqb field "abuse_flagged"
      then _handle_abuse_flagged_field form_value (cc_requester context) cc_content;;
           ret api_content
      else if String.eqb field "voted"
      then _handle_voted_field form_value cc_content api_content request context
      else if String.eqb field "read"
      then _handle_read_field api_content form_value (cc_requester context) cc_content
      else if String.eqb field "pinned"
      then _handle_pinned_field form_value cc_content (cc_requester context);;
           ret api_content
      else raise (ValidationError [(field, ["Invalid Key"])])
    else ret api_content
  else ret api_content.

(** [_do_extra_actions]; the payload it updates in place is returned. *)
Definition _do_extra_actions (api_content : api_dict) (cc_content : cc_content)
    (request_fields : list string) (actions_form : ActionsForm) (context : context)
    (request : Request) : M api_dict :=
  for_each (extra_action cc_content request_fields context request)
    api_content (cleaned_data actions_form).

(** ** Creation, update and deletion *)

(** [dict(list(serializer.errors.items()) + list(actions_form.errors.items()))] *)
Definition all_errors (serializer_errors : list (string * list string))
    (actions_form : ActionsForm) : list (string * list string) :=
  dict_of_items (serializer_errors ++ form_errors actions_form).

(** [set(update_data) - set(actions_form.fields)] as a condition. *)
Definition has_core_field (update_data : request_data) (actions_form : ActionsForm)
  : bool :=
  existsb (fun field => negb (str_in field (form_fields actions_form)))
    (keys update_data).

(** [create_comment] *)
Definition create_comment (request : Request) (comment_data : request_data)
  : M api_dict :=
  let thread_id := default VNone (get comment_data "thread_id") in
  if negb (truthy thread_id)
  then raise (ValidationError [("thread_id", ["This field is required."])])
  else
  tc ← _get_thread_and_context request thread_id None;
  let '(cc_thread, context) := tc in
  let course := ctx_course context in
  if negb (discussion_open_for_user w course (request_user request))
  then raise DiscussionBlackOutException
  else
  (* if a thread is closed; no new comments could be made to it *)
  if cc_closed cc_thread
  then raise (PermissionDenied "")
  else
  _check_initializable_comment_fields comment_data context;;
  let serializer_errors := CommentSerializer_errors w context None comment_data in
  let actions_form := CommentActionsForm w comment_data in
  if negb (is_valid serializer_errors && is_valid (form_errors actions_form))
  then raise (ValidationError (all_errors serializer_errors actions_form))
  else
  let cc_comment := CommentSerializer_save w context None comment_data in
  emit (SerializerSave comment (cc_id cc_comment) comment_data);;
  emit (SignalSent comment_created (request_user request) (cc_id cc_comment));;
  let api_comment := CommentSerializer_data w context cc_comment in
  api_comment ← _do_extra_actions api_comment cc_comment (keys comment_data)
                  actions_form context request;
  emit (TrackCommentCreatedEvent (cc_id cc_comment) (cc_commentable_id cc_thread) false);;
  ret api_comment.

(** [update_thread] *)
Definition update_thread (request : Request) (thread_id : string)
    (update_data : request_data) : M api_dict :=
  tc ← _get_thread_and_context request (VStr thread_id)
         (Some (<["with_responses" := VBool true]> ∅));
  let '(cc_thread, context) := tc in
  _check_editable_fields cc_thread update_data context;;
  let serializer_errors :=
    ThreadSerializer_errors w context (Some cc_thread) update_data in
  let actions_form := ThreadActionsForm w update_data in
  if negb (is_valid serializer_errors && is_valid (form_errors actions_form))
  then raise (ValidationError (all_errors serializer_errors actions_form))
  else
  (* Only save thread object if some of the edited fields are in the
     thread data, not extra actions *)
  cc_thread ←
    (if has_core_field update_data actions_form
     then
       let saved := ThreadSerializer_save w context (Some cc_thread) update_data in
       emit (SerializerSave thread (cc_id saved) update_data);;
       (* signal to update Teams when a user edits a thread *)
       emit (SignalSent thread_edited (request_user request) (cc_id saved));;
       ret saved
     else ret cc_thread);
  let api_thread := ThreadSerializer_data w context cc_thread in
  api_thread ← _do_extra_actions api_thread cc_thread (keys update_data)
                 actions_form context request;
  (* always return read as True (and therefore unread_comment_count=0) as
     reasonably accurate shortcut, rather than adding additional
     processing. *)
  let api_thread := <["read" := VBool true]> api_thread in
  let api_thread := <["unread_comment_count" := VInt 0]> api_thread in
  ret api_thread.

(** [update_comment] *)
Definition update_comment (request : Request) (comment_id : string)
    (update_data : request_data) : M api_dict :=
  cc ← _get_comment_and_context request comment_id;
  let '(cc_comment, context) := cc in
  _check_editable_fields cc_comment update_data context;;
  let serializer_errors :=
    CommentSerializer_errors w context (Some cc_comment) update_data in
  let actions_form := CommentActionsForm w update_data in
  if negb (is_valid serializer_errors && is_valid (form_errors actions_form))
  then raise (ValidationError (all_errors serializer_errors actions_form))
  else
  (* Only save comment object if some of the edited fields are in the
     comment data, not extra actions *)
  cc_comment ←
    (if has_core_field update_data actions_form
     then
       let saved := CommentSerializer_save w context (Some cc_comment) update_data in
       emit (SerializerSave comment (cc_id saved) update_data);;
       emit (SignalSent comment_edited (request_user request) (cc_id saved));;
       ret saved
     else ret cc_comment);
  let api_comment := CommentSerializer_data w context cc_comment in
  api_comment ← _do_extra_actions api_comment cc_comment (keys update_data)
                  actions_form context request;
  ret api_comment.

(** [delete_thread] *)
Definition delete_thread (request : Request) (thread_id : string) : M unit :=
  tc ← _get_thread_and_context request (VStr thread_id) None;
  let '(cc_thread, context) := tc in
  if can_delete w cc_thread context
  then emit (Delete (cc_id cc_thread));;
       emit (SignalSent thread_deleted (request_user request) (cc_id cc_thread))
  else raise (PermissionDenied "").

(** [delete_comment] *)
Definition delete_comment (request : Request) (comment_id : string) : M unit :=
  cc ← _get_comment_and_context request comment_id;
  let '(cc_comment, context) := cc in
  if can_delete w cc_comment context
  then emit (Delete (cc_id cc_comment));;
       emit (SignalSent comment_deleted (request_user request) (cc_id cc_comment))
  else raise (PermissionDenied "").

End Api.

(** ** A small course

    One course with a freestanding topic [t1] and a courseware topic [t2]
    under the category [Week 1]; [t2] is divided by cohort.  Alice is a
    learner in cohort 1, Carol a learner in cohort 2 and Bob a moderator
    in cohort 2.  The forms
    and the serializers are the simplest ones that fit the API. *)

Module Demo.

Definition alice : User := {| user_pk := 1; user_username := "alice" |}.
Definition bob : User := {| user_pk := 2; user_username := "bob" |}.
Definition carol : User := {| user_pk := 3; user_username := "carol" |}.

Definition as_alice : Request := {| request_user := alice |}.
Definition as_bob : Request := {| request_user := bob |}.
Definition as_carol : Request := {| request_user := carol |}.

Definition demo_key : string := "course-v1:edX+DemoX+Demo".

Definition demo_course : Course :=
  {| course_id := demo_key;
     discussion_topics := [("General", {| entry_id := "t1"; entry_sort_key := None |})] |}.

Definition demo_settings : CourseDiscussionSettings :=
  {| settings_course_id := demo_key;
     divided_discussions := ["t2"];
     always_divide_inline_discussions := false |}.

Definition a_comment (id thread_id author : string) (children : list cc_content)
  : cc_content :=
  CcContent "comment" id demo_key None "" "" false false author thread_id
    children [] [] 0 0.

(** A discussion thread of cohort 1 in the divided topic, with one
    response that has two comments. *)
Definition th1 : cc_content :=
  CcContent "thread" "th1" demo_key (Some 1) "t2" "discussion" false false "1" ""
    [a_comment "c1" "th1" "1"
       [a_comment "c2" "th1" "3" []; a_comment "c3" "th1" "1" []]]
    [] [] 0 1.

(** A question thread open to all, with one endorsed response. *)
Definition th2 : cc_content :=
  CcContent "thread" "th2" demo_key None "t1" "question" false false "3" ""
    [] [a_comment "c4" "th2" "1" []] [] 0 0.

(** A discussion thread without responses. *)
Definition th3 : cc_content :=
  CcContent "thread" "th3" demo_key None "t1" "discussion" false true "1" ""
    [] [] [] 0 0.

Definition threads : list (string * cc_content) :=
  [("th1", th1); ("th2", th2); ("th3", th3)].

Definition comments : list (string * cc_content) :=
  [("c1", a_comment "c1" "th1" "1"
            [a_comment "c2" "th1" "3" []; a_comment "c3" "th1" "1" []]);
   ("c4", a_comment "c4" "th2" "1" []);
   ("c5", a_comment "c5" "th3" "1" [])].

Definition username_of (user_id : string) : string :=
  default "" (get [("1", "alice"); ("2", "bob"); ("3", "carol")] user_id).

Definition thread_payload (t : cc_content) : api_dict :=
  <["author" := VStr (username_of (cc_user_id t))]>
  (<["vote_count" := VInt 4]>
  (<["voted" := VBool false]>
  (<["following" := VBool false]>
  (<["abuse_flagged" := VBool false]>
  (<["pinned" := VBool false]>
  (<["read" := VBool (cc_read t)]>
  (<["unread_comment_count" := VInt 2]> ∅))))))).

Definition comment_payload (c : cc_content) : api_dict :=
  <["author" := VStr (username_of (cc_user_id c))]>
  (<["vote_count" := VInt 0]>
  (<["voted" := VBool false]>
  (<["abuse_flagged" := VBool false]>
  (<["endorsed" := VBool false]>
  (<["endorsed_by" := VNone]> ∅))))).

(** Modelled from the spec: the action forms of [forms.py], which is not
    among the sources.  The actions are following, abuse-flagged, voted,
    read and pinned on a thread, voted and abuse-flagged on a comment; a
    field that is not sent is cleaned to false. *)
Definition actions_form (fields : list string) (data : request_data) : ActionsForm :=
  {| form_fields := fields;
     form_errors := [];
     cleaned_data :=
       map (fun field => (field, VBool (truthy (default VNone (get data field)))))
         fields |}.

Definition thread_action_fields : list string :=
  ["following"; "abuse_flagged"; "voted"; "read"; "pinned"].

Definition comment_action_fields : list string := ["abuse_flagged"; "voted"].

Definition world : World :=
  {| Thread_retrieve := fun id _ =>
       match id with VStr s => get threads s | _ => None end;
     Comment_retrieve := get comments;
     Thread_search := fun query =>
       {| pr_collection :=
            match query !! "page" with Some (VInt 1) => [th3] | _ => [] end;
          pr_page := 1; pr_num_pages := 1; pr_thread_count := 1;
          pr_corrected_text := None |};
     subscribed_threads := fun _ _ =>
       {| pr_collection := []; pr_page := 1; pr_num_pages := 1;
          pr_thread_count := 0; pr_corrected_text := None |};
     get_course_commentable_counts := fun _ =>
       [("t1", [("discussion", 2); ("question", 1)])];
     get_course_with_access := fun _ key =>
       if String.eqb key demo_key then Some demo_course else None;
     discussion_tab_enabled := fun _ _ => true;
     get_accessible_discussion_xblocks := fun _ _ =>
       [{| discussion_id := "t2"; discussion_category := "Week 1";
           discussion_target := "Intro"; sort_key := None |}];
     discussion_open_for_user := fun _ _ => true;
     get_user_role_names := fun user _ =>
       if user_pk user =? 2 then ["Moderator"; "Student"] else ["Student"];
     CourseDiscussionSettings_get := fun _ => demo_settings;
     is_commentable_divided := fun _ commentable settings =>
       str_in commentable (divided_discussions settings);
     get_group_id_for_user := fun user _ =>
       if user_pk user =? 1 then Some 1 else Some 2;
     User_objects_get := fun name =>
       get [("alice", alice); ("bob", bob); ("carol", carol)] name;
     get_account_settings := fun _ names =>
       map (fun name => {| account_username := name;
                           profile_image := ("/images/" ++ name)%string |}) names;
     ThreadSerializer_data := fun _ t => thread_payload t;
     CommentSerializer_data := fun _ c => comment_payload c;
     ThreadSerializer_errors := fun _ _ _ => [];
     CommentSerializer_errors := fun _ _ _ => [];
     ThreadSerializer_save := fun _ instance _ => default th3 instance;
     CommentSerializer_save := fun _ instance data =>
       default (a_comment "c9" "th3" "1" []) instance;
     ThreadActionsForm := actions_form thread_action_fields;
     CommentActionsForm := actions_form comment_action_fields;
     get_editable_fields := fun content _ =>
       if String.eqb (cc_type content) "thread"
       then ["title"; "raw_body"; "following"; "abuse_flagged"; "voted"; "read"; "pinned"]
       else ["raw_body"; "abuse_flagged"; "voted"];
     get_initializable_comment_fields := fun _ =>
       ["thread_id"; "parent_id"; "raw_body"; "abuse_flagged"; "voted"];
     can_delete := fun content context =>
       is_requester_privileged context
       || String.eqb (cc_user_id content)
            (str_of_int (user_pk (cc_requester context)));
     build_absolute_uri := fun _ path query =>
       ("http://testserver/" ++ path ++ "?"
        ++ join "&" (map (fun kv => (fst kv ++ "=" ++ user_key (snd kv))%string) query))%string
  |}.

End Demo.

(** ** Variants of the small course *)

Module Scenario.

(** The world [w] with another answer to two questions about a course:
    whether its discussion tab is enabled, and whether the requester may
    post now. *)
Definition with_course_state (w : World)
    (tab_enabled open_for_user : Course → User → bool) : World :=
  {| Thread_retrieve := Thread_retrieve w;
     Comment_retrieve := Comment_retrieve w;
     Thread_search := Thread_search w;
     subscribed_threads := subscribed_threads w;
     get_course_commentable_counts := get_course_commentable_counts w;
     get_course_with_access := get_course_with_access w;
     discussion_tab_enabled := tab_enabled;
     get_accessible_discussion_xblocks := get_accessible_discussion_xblocks w;
     discussion_open_for_user := open_for_user;
     get_user_role_names := get_user_role_names w;
     CourseDiscussionSettings_get := CourseDiscussionSettings_get w;
     is_commentable_divided := is_commentable_divided w;
     get_group_id_for_user := get_group_id_for_user w;
     User_objects_get := User_objects_get w;
     get_account_settings := get_account_settings w;
     ThreadSerializer_data := ThreadSerializer_data w;
     CommentSerializer_data := CommentSerializer_data w;
     ThreadSerializer_errors := ThreadSerializer_errors w;
     CommentSerializer_errors := CommentSerializer_errors w;
     ThreadSerializer_save := ThreadSerializer_save w;
     CommentSerializer_save := CommentSerializer_save w;
     ThreadActionsForm := ThreadActionsForm w;
     CommentActionsForm := CommentActionsForm w;
     get_editable_fields := get_editable_fields w;
     get_initializable_comment_fields := get_initializable_comment_fields w;
     can_delete := can_delete w;
     build_absolute_uri := build_absolute_uri w |}.

(** The small course with its discussion tab disabled. *)
Definition disabled : World :=
  with_course_state Demo.world (fun _ _ => false) (fun _ _ => true).

(** The small course during a blackout: only Bob, the moderator, may
    post. *)
Definition blackout : World :=
  with_course_state Demo.world (fun _ _ => true)
    (fun _ user => user_pk user =? 2).

End Scenario.

(** ** Creating a thread *)

(** What [create_thread] asks of the outside beyond the [World]: the
    fields the requester may set on a new thread, the parsing of a course
    key ([None] when [CourseKey.from_string] raises InvalidKeyError), and
    [is_commentable_divided] on whatever the data holds as [topic_id]. *)
Record ThreadCreation := {
  get_initializable_thread_fields : context → list string;
  CourseKey_from_string : pyval → option string;
  is_commentable_divided_for :
    string → option pyval → CourseDiscussionSettings → bool
}.

(** The log of [create_thread]: the events the other operations log too,
    and its own tracking event. *)
Inductive thread_event :=
| Logged (ev : event)
| TrackThreadCreatedEvent (thread_id : string) (followed : pyval).

Section CreateThread.

Variable w : World.
Variable tc : ThreadCreation.

(** [_check_initializable_thread_fields] *)
Definition _check_initializable_thread_fields (data : request_data)
    (context : context) : M unit :=
  _check_fields (get_initializable_thread_fields tc context) data
    "This field is not initializable.".

(** [create_thread].  Its last two lines, the call of
    [track_thread_created_event] and [return api_thread], are the [match]
    at the end: the tracking event is logged after everything else, and
    only when nothing before it has raised. *)
Definition create_thread (request : Request) (thread_data : request_data)
  : list thread_event * (exn + api_dict) :=
  let created : M (api_dict * (cc_content * pyval)) :=
    let course_id := default VNone (get thread_data "course_id") in
    let user := request_user request in
    if negb (truthy course_id)
    then raise (ValidationError [("course_id", ["This field is required."])])
    else
    match CourseKey_from_string tc course_id with
    | None => raise (ValidationError [("course_id", ["Invalid value."])])
    | Some course_key =>
        course ← _get_course w course_key user;
        if negb (discussion_open_for_user w course user)
        then raise DiscussionBlackOutException
        else
        let context := get_context w course request None in
        _check_initializable_thread_fields thread_data context;;
        let discussion_settings := CourseDiscussionSettings_get w course_key in
        let thread_data :=
          if negb (str_in "group_id" (keys thread_data))
             && is_commentable_divided_for tc course_key (get thread_data "topic_id")
                  discussion_settings
          then dict_set thread_data "group_id"
                 (of_option VInt (get_group_id_for_user w user discussion_settings))
          else thread_data in
        let serializer_errors := ThreadSerializer_errors w context None thread_data in
        let actions_form := ThreadActionsForm w thread_data in
        if negb (is_valid serializer_errors && is_valid (form_errors actions_form))
        then raise (ValidationError (all_errors serializer_errors actions_form))
        else
        let cc_thread := ThreadSerializer_save w context None thread_data in
        emit (SerializerSave thread (cc_id cc_thread) thread_data);;
        emit (SignalSent thread_created user (cc_id cc_thread));;
        let api_thread := ThreadSerializer_data w context cc_thread in
        api_thread ← _do_extra_actions api_thread cc_thread (keys thread_data)
                       actions_form context request;
        followed ← match get (cleaned_data actions_form) "following" with
                   | Some v => ret v
                   | None => raise (KeyError "following")
                   end;
        ret (api_thread, (cc_thread, followed))
    end in
  match created with
  | (l, inl e) => (Logged <$> l, inl e)
  | (l, inr (api_thread, (cc_thread, followed))) =>
      ((Logged <$> l) ++ [TrackThreadCreatedEvent (cc_id cc_thread) followed],
       inr api_thread)
  end.

End CreateThread.

Module ThreadScenario.

(** Thread creation in the small course: [group_id] may be set by a
    privileged requester only, a course key starts with [course-v1:],
    and a topic is divided as the [World] says. *)
Definition creation : ThreadCreation :=
  {| get_initializable_thread_fields := fun context =>
       ["course_id"; "topic_id"; "type"; "title"; "raw_body"; "following";
        "abuse_flagged"; "voted"; "read"]
       ++ (if is_requester_privileged context then ["group_id"] else []);
     CourseKey_from_string := fun v =>
       match v with
       | VStr s => if String.prefix "course-v1:" s then Some s else None
       | _ => None
       end;
     is_commentable_divided_for := fun course_key topic settings =>
       match topic with
       | Some (VStr s) => is_commentable_divided Demo.world course_key s settings
       | _ => false
       end |}.

(** Carol starts a thread in the divided topic, and follows it. *)
Definition carol_thread : request_data :=
  [("course_id", VStr Demo.demo_key); ("topic_id", VStr "t2");
   ("type", VStr "discussion"); ("title", VStr "Hello");
   ("raw_body", VStr "Hello, cohort."); ("following", VBool true)].

End ThreadScenario.

(** ** Vocabulary of the properties *)

(** The thread [thread_id] is stored in the comment service under course
    [course_key], restricted to group [group] and filed under
    [commentable]: whatever the retrieval options, the service returns a
    thread with these attributes. *)
Definition stored_thread (w : World) (thread_id : string) (course_key : string)
    (group : Z) (commentable : string) : Prop :=
  ∀ kwargs, ∃ t,
    Thread_retrieve w (VStr thread_id) kwargs = Some t
    ∧ cc_course_id t = course_key
    ∧ cc_group_id t = Some group
    ∧ cc_commentable_id t = commentable.

(** The privilege classification the serializer context carries for a
    requester in a course. *)
Definition requester_is_privileged (w : World) (course : Course) (request : Request)
  : bool :=
  is_requester_privileged (get_context w course request None).

Definition thread_not_found {A : Type} : M A :=
  raise (ThreadNotFoundError "Thread not found.").

(** The exceptions a computation can end in, and the events it can log. *)
Definition raises_only {A : Type} (P : exn → Prop) (m : M A) : Prop :=
  ∀ e, outcome m = inl e → P e.

Definition emits_only {A : Type} (Q : event → Prop) (m : M A) : Prop :=
  Forall Q (events m).

(** A failed lookup in a payload, or a name that is not a string. *)
Definition is_lookup_error (e : exn) : Prop :=
  match e with
  | KeyError _ | TypeError => True
  | _ => False
  end.

(** A thread-list request that passes every check that comes before the
    query is sent: at most one of the exclusive filters, a known ordering,
    an accessible course with discussions enabled, an author filter that
    resolves to [author_id], and [count_flagged] only for the privileged. *)
Definition thread_list_accepted (w : World) (request : Request) (course_key : string)
    (topic_id_list : option (list string)) (text_search : option string)
    (following : option bool) (author : option string) (order_by : string)
    (order_direction : string) (count_flagged : option bool)
    (course : Course) (author_id : option Z) : Prop :=
  exclusive_param_count topic_id_list text_search following ≤ 1
  ∧ str_in order_by (keys cc_map) = true
  ∧ order_direction = "desc"
  ∧ _get_course w course_key (request_user request) = ret course
  ∧ author_lookup w author = Some author_id
  ∧ (bool_truthy count_flagged = true → requester_is_privileged w course request = true).

(** What the comment service answers to the query of a thread-list
    request. *)
Definition thread_list_found (w : World) (request : Request) (course : Course)
    (page page_size : Z) (topic_id_list : option (list string))
    (text_search : option string) (following : option bool)
    (author_id : option Z) (thread_type : option string) (flagged : option bool)
    (view : option string) (order_by : string) (count_flagged : option bool)
  : paginated_results :=
  let context := get_context w course request None in
  thread_list_search w context course
    (thread_list_query_params w request context course page page_size text_search
       order_by author_id flagged thread_type count_flagged view)
    topic_id_list text_search following.

(** The empty page of a listing of comments. *)
Definition empty_comment_page (request : Request) : PaginatedResponse :=
  get_paginated_response request 1 1 0 (CommentListData []).

(** The page a thread listing answers with when the author filter names
    nobody. *)
Definition empty_thread_page (request : Request) : PaginatedResponse :=
  get_paginated_response request 0 1 0 (ThreadListData [] None).

(** An exception that is not a ValidationError about the field [field]. *)
Definition not_about (field : string) (e : exn) : Prop :=
  ∀ errors, e = ValidationError errors → get errors field = None.

(** The ceiling of [a / b]. *)
Definition ceil_div (a b : Z) : Z := - ((- a) / b).

(** What a vote (or its withdrawal) on a thread or a comment sends out:
    the voted signal, the call to the comment service and the tracking
    event. *)
Definition voted_events (cc : cc_content) (ctx : context) (up : bool) : list event :=
  [SignalSent (if String.eqb (cc_type cc) "thread" then thread_voted else comment_voted)
     (request_user (ctx_request ctx)) (cc_id cc);
   if up then Vote (cc_requester ctx) (cc_id cc) "up"
   else Unvote (cc_requester ctx) (cc_id cc);
   TrackVotedEvent (cc_id cc) "up" (negb up)].






(** The ids of the courseware-linked topics the requester can see, and of
    the freestanding topics of the course. *)
Definition courseware_topic_ids (w : World) (course : Course) (user : User)
  : list string :=
  map discussion_id (get_accessible_discussion_xblocks w course user).

Definition freestanding_topic_ids (course : Course) : list string :=
  map (λ item : string * TopicEntry, entry_id (snd item)) (discussion_topics course).

(** The string [i] occurs in [message]. *)
Definition occurs_in (i message : string) : Prop :=
  ∃ before after, message = (before ++ i ++ after)%string.

(** The [retrieve_kwargs] the comment service receives from
    [_get_thread_and_context]: the caller's, with [with_responses] and
    [mark_as_read] set to False when absent. *)
Definition kwargs_sent (retrieve_kwargs : option (gmap string pyval))
  : gmap string pyval :=
  default_kwarg "mark_as_read" (VBool false)
    (default_kwarg "with_responses" (VBool false) (default ∅ retrieve_kwargs)).

(** The cohort check of [_get_thread_and_context] applies: the requester
    is not privileged and is assigned to a group, the thread is restricted
    to another group, and its commentable is divided. *)
Definition outside_cohort (w : World) (request : Request) (course : Course)
    (t : cc_content) : Prop :=
  requester_is_privileged w course request = false
  ∧ group_id_truthy (cc_group_id t) = true
  ∧ is_commentable_divided w (course_id course) (cc_commentable_id t)
      (CourseDiscussionSettings_get w (cc_course_id t)) = true
  ∧ ∃ g, get_group_id_for_user w (request_user request)
           (CourseDiscussionSettings_get w (cc_course_id t)) = Some g
         ∧ cc_group_id t ≠ Some g.

(** A computation that is an exception or a value, without any event. *)
Definition silent {A : Type} (m : M A) : Prop := events m = [].

(** The fields of [data] that are not among the allowed ones. *)
Definition offending (allowed : list string) (data : request_data) (k : string)
  : bool :=
  str_in k (keys data) && negb (str_in k allowed).

(** The call to the comment service that the action [field] makes for the
    value [v]: follow or unfollow, flag or unflag, pin or unpin. *)
Definition toggle_call (field : string) (v : bool) (user : User) (cc : cc_content)
  : event :=
  if String.eqb field "following"
  then (if v then Follow user (cc_id cc) else Unfollow user (cc_id cc))
  else if String.eqb field "abuse_flagged"
  then (if v then FlagAbuse user (cc_id cc) else UnFlagAbuse user (cc_id cc))
  else (if v then Pin user (cc_id cc) else UnPin user (cc_id cc)).

(** A mark-as-read call is only made for content that is not read yet. *)
Definition read_call_only_if_unread (cc : cc_content) (ev : event) : Prop :=
  match ev with
  | MarkRead _ _ => cc_read cc = false
  | _ => True
  end.

(** A username that survives [','.join] followed by [split(",")]: it is
    not empty and has no comma. *)
Fixpoint no_comma (s : string) : bool :=
  match s with
  | EmptyString => true
  | String c s' => negb (Ascii.eqb c ","%char) && no_comma s'
  end.

Definition plain_username (s : string) : bool :=
  negb (String.eqb s "") && no_comma s.

(** The profiles of the account API for a list of usernames, keyed by
    username. *)
Definition profiles_of (w : World) (request : Request) (names : list string)
  : list (string * AccountSettings) :=
  dict_of_items
    (map (λ user, (account_username user, user)) (get_account_settings w request names)).

(** The serializer of a kind of entity. *)
Definition serialized (w : World) (kind : DiscussionEntity) (ctx : context)
    (entity : cc_content) : api_dict :=
  match kind with
  | thread => ThreadSerializer_data w ctx entity
  | comment => CommentSerializer_data w ctx entity
  end.

(** The comments of page [page] when pages hold [page_size] comments. *)
Definition page_of {A : Type} (l : list A) (page page_size : Z) : list A :=
  take (Z.to_nat page_size) (drop (Z.to_nat (page_size * (page - 1))) l).

(** The ids of the topics of a list. *)
Definition listed_ids (topics : list DiscussionTopic) : list string :=
  omap topic_id topics.

(** The ids a topic listing shows under its courseware categories. *)
Definition listed_courseware_ids (categories : list DiscussionTopic) : list string :=
  categories ≫= λ category, listed_ids (topic_children category).

(** The filter of a topic listing lets an id through: there is no
    filter, or the id is among the requested ones. *)
Definition passes_filter (topic_ids : option (gset string)) (i : string) : bool :=
  negb (topic_ids_truthy topic_ids) || in_topic_ids i topic_ids.

(** [a < b] on strings, the comparison [sorted] uses. *)
Definition str_lt (a b : string) : Prop := String.ltb a b = true.

(** The events of a thread creation. *)
Definition thread_events {A : Type} (r : list thread_event * (exn + A))
  : list thread_event := fst r.

(** The pages of [l] when pages hold [page_size] items: page 1, page 2,
    and so on up to the last page counted. *)
Definition pages_of {A : Type} (l : list A) (page_size : Z) : list (list A) :=
  map (λ i : nat, page_of l (Z.of_nat i + 1) page_size)
    (seq 0 (Z.to_nat (ceil_div (Z.of_nat (length l)) page_size))).

#[local] Set Warnings "-clear-no-such-hyp".

(** ** The model on concrete inputs *)

Example slice_page : slice [1; 2; 3; 4; 5] 2 4 = [3; 4].
Proof. reflexivity. Qed.

Example slice_past_end : slice [1; 2; 3] 2 10 = [3].
Proof. reflexivity. Qed.

Example slice_negative_start : slice [1; 2; 3] (-2) 0 = [] ∧ slice [1; 2; 3] (-2) 3 = [2; 3].
Proof. split; reflexivity. Qed.

Example sorted_is_stable :
  sorted_by fst [("b", 1); ("a", 2); ("b", 3); ("a", 4)]
  = [("a", 2); ("a", 4); ("b", 1); ("b", 3)].
Proof. reflexivity. Qed.

Example split_then_join :
  split_comma "alice,bob" = ["alice"; "bob"] ∧ join "," ["alice"; "bob"] = "alice,bob".
Proof. split; reflexivity. Qed.

Example dict_keeps_last_value :
  dict_of_items [("a", 1); ("b", 2); ("a", 3)] = [("a", 3); ("b", 2)].
Proof. reflexivity. Qed.

(** The example of the specification: [t1] is freestanding, [t2] is under
    [Week 1], and asking for [t1] and [t3] names [t3] only. *)
Example topics_t1_t3 :
  get_course_topics Demo.world Demo.as_alice Demo.demo_key (Some {["t1"; "t3"]})
  = raise (DiscussionNotFoundError "Discussion not found for 't3'.").
Proof. vm_compute. reflexivity. Qed.

Example topics_t1 :
  match outcome (get_course_topics Demo.world Demo.as_alice Demo.demo_key
                   (Some {["t1"]})) with
  | inr topics =>
      courseware_topics topics = []
      ∧ map topic_id (non_courseware_topics topics) = [Some "t1"]
  | inl _ => False
  end.
Proof. vm_compute. split; reflexivity. Qed.

(** An update with a core field and two actions: the save and the edit
    signal come first, then the actions in the order of the form. *)
Example update_with_actions :
  events (update_thread Demo.world Demo.as_alice "th1"
            [("title", VStr "New"); ("voted", VBool true); ("following", VBool true)])
  = [SerializerSave thread "th1"
       [("title", VStr "New"); ("voted", VBool true); ("following", VBool true)];
     SignalSent thread_edited Demo.alice "th1";
     Follow Demo.alice "th1";
     SignalSent thread_voted Demo.alice "th1";
     Vote Demo.alice "th1" "up";
     TrackVotedEvent "th1" "up" false].
Proof. vm_compute. reflexivity. Qed.

Example vote_payload :
  match outcome (update_thread Demo.world Demo.as_alice "th1" [("voted", VBool true)]) with
  | inr payload =>
      payload !! "vote_count" = Some (VInt 5) ∧ payload !! "voted" = Some (VBool true)
  | inl _ => False
  end.
Proof. vm_compute. split; reflexivity. Qed.

Example delete_needs_permission :
  delete_thread Demo.world Demo.as_carol "th3" = raise (PermissionDenied "")
  ∧ events (delete_thread Demo.world Demo.as_bob "th3")
    = [Delete "th3"; SignalSent thread_deleted Demo.bob "th3"].
Proof. split; reflexivity. Qed.

(** ** Laws of the effect monad *)

Lemma bind_ret_l {A B : Type} (a : A) (f : A → M B) : (ret a ≫= f) = f a.
Proof.
  unfold mbind, M_bind, bind, ret. simpl. destruct (f a) as [l r]. reflexivity.
Qed.

Lemma bind_ret_r {A : Type} (m : M A) : (m ≫= ret) = m.
Proof.
  destruct m as [l [e | a]]; [reflexivity |].
  unfold mbind, M_bind, bind, ret. by rewrite app_nil_r.
Qed.

Lemma events_bind {A B : Type} (m : M A) (f : A → M B) :
  events (m ≫= f)
  = events m ++ match outcome m with inr a => events (f a) | inl _ => [] end.
Proof.
  destruct m as [l [e | a]]; unfold mbind, M_bind, bind, events, outcome; simpl.
  - by rewrite app_nil_r.
  - by destruct (f a).
Qed.

Lemma outcome_bind {A B : Type} (m : M A) (f : A → M B) :
  outcome (m ≫= f)
  = match outcome m with inr a => outcome (f a) | inl e => inl e end.
Proof.
  destruct m as [l [e | a]]; unfold mbind, M_bind, bind, outcome; simpl.
  - reflexivity.
  - by destruct (f a).
Qed.

Section Footprint.

Context (P : exn → Prop) (Q : event → Prop).

Lemma raises_only_ret {A : Type} (a : A) : raises_only P (ret a).
Proof. intros e He. discriminate He. Qed.

Lemma raises_only_raise {A : Type} (e : exn) : P e → raises_only P (@raise A e).
Proof. intros HP e' He'. injection He' as <-. exact HP. Qed.

Lemma raises_only_bind {A B : Type} (m : M A) (f : A → M B) :
  raises_only P m → (∀ a, raises_only P (f a)) → raises_only P (m ≫= f).
Proof.
  intros Hm Hf e. rewrite outcome_bind.
  destruct (outcome m) as [e' | a] eqn:Hout.
  - intros [= <-]. by apply Hm.
  - apply Hf.
Qed.

Lemma emits_only_ret {A : Type} (a : A) : emits_only Q (ret a).
Proof. constructor. Qed.

Lemma emits_only_raise {A : Type} (e : exn) : emits_only Q (@raise A e).
Proof. constructor. Qed.

Lemma emits_only_emit (ev : event) : Q ev → emits_only Q (emit ev).
Proof. intros HQ. by constructor. Qed.

Lemma emits_only_bind {A B : Type} (m : M A) (f : A → M B) :
  emits_only Q m → (∀ a, emits_only Q (f a)) → emits_only Q (m ≫= f).
Proof.
  intros Hm Hf. unfold emits_only. rewrite events_bind. apply Forall_app. split.
  - exact Hm.
  - destruct (outcome m); [constructor | apply Hf].
Qed.

Lemma raises_only_for_each {A S : Type} (body : S → A → M S) (s : S) (l : list A) :
  (∀ s x, raises_only P (body s x)) → raises_only P (for_each body s l).
Proof.
  intros Hbody. revert s.
  induction l as [| x l IH]; intros s; simpl.
  - apply raises_only_ret.
  - apply raises_only_bind; [apply Hbody | apply IH].
Qed.

Lemma emits_only_for_each {A S : Type} (body : S → A → M S) (s : S) (l : list A) :
  (∀ s x, emits_only Q (body s x)) → emits_only Q (for_each body s l).
Proof.
  intros Hbody. revert s.
  induction l as [| x l IH]; intros s; simpl.
  - apply emits_only_ret.
  - apply emits_only_bind; [apply Hbody | apply IH].
Qed.

Lemma raises_only_mapM {A B : Type} (f : A → M B) (l : list A) :
  (∀ x, raises_only P (f x)) → raises_only P (mapM f l).
Proof.
  intros Hf. induction l as [| x l IH]; simpl.
  - apply raises_only_ret.
  - apply raises_only_bind; [apply Hf |]. intros b.
    apply raises_only_bind; [apply IH |]. intros bs. apply raises_only_ret.
Qed.

End Footprint.

(** ** Access to a thread *)

Lemma privilege_ignores_thread (w : World) (course : Course) (request : Request)
    (t : option cc_content) :
  is_requester_privileged (get_context w course request t)
  = requester_is_privileged w course request.
Proof. reflexivity. Qed.

(** The outcome of [_get_thread_and_context] on a thread of another
    cohort: privilege alone decides. *)
Lemma get_thread_and_context_divided (w : World) (request : Request)
    (thread_id : string) (course_key : string) (group : Z) (commentable : string)
    (course : Course) (g : Z) (kwargs : option (gmap string pyval)) :
  stored_thread w thread_id course_key group commentable →
  _get_course w course_key (request_user request) = ret course →
  group ≠ 0 →
  is_commentable_divided w (course_id course) commentable
    (CourseDiscussionSettings_get w course_key) = true →
  get_group_id_for_user w (request_user request)
    (CourseDiscussionSettings_get w course_key) = Some g →
  group ≠ g →
  if requester_is_privileged w course request
  then ∃ t, _get_thread_and_context w request (VStr thread_id) kwargs
            = ret (t, get_context w course request (Some t))
  else _get_thread_and_context w request (VStr thread_id) kwargs = thread_not_found.
Proof.
  intros Hstored Hcourse Hgroup Hdivided Hg Hne.
  unfold _get_thread_and_context.
  destruct (Hstored
              (default_kwarg "mark_as_read" (VBool false)
                 (default_kwarg "with_responses" (VBool false) (default ∅ kwargs))))
    as (t & Hret & Hk & Hgt & Hc).
  cbv zeta. rewrite Hret, Hk, Hcourse, bind_ret_l, Hgt, Hc, Hdivided, Hg.
  rewrite privilege_ignores_thread.
  destruct (requester_is_privileged w course request) eqn:Hpriv; simpl.
  - exists t. reflexivity.
  - assert ((group =? 0) = false) as -> by lia. simpl.
    rewrite bool_decide_eq_false_2 by congruence. reflexivity.
Qed.

(** C1. A thread restricted to a group, in a divided commentable of an
    accessible course, is hidden from a requester assigned to another
    group unless the requester is privileged: for a non-privileged
    requester the retrieval itself and thread detail, comment listing,
    comment creation, thread update and thread deletion all fail with
    ThreadNotFound, before any effect; for a privileged requester the
    retrieval returns the thread and its context. *)
Theorem divided_thread_hidden_outside_cohort (w : World) (request : Request)
    (thread_id : string) (course_key : string) (group : Z) (commentable : string)
    (course : Course) (g : Z) :
  stored_thread w thread_id course_key group commentable →
  _get_course w course_key (request_user request) = ret course →
  group ≠ 0 →
  is_commentable_divided w (course_id course) commentable
    (CourseDiscussionSettings_get w course_key) = true →
  get_group_id_for_user w (request_user request)
    (CourseDiscussionSettings_get w course_key) = Some g →
  group ≠ g →
  (requester_is_privileged w course request = false →
     (∀ kwargs, _get_thread_and_context w request (VStr thread_id) kwargs
                = thread_not_found)
     ∧ (∀ requested_fields,
          get_thread w request thread_id requested_fields = thread_not_found)
     ∧ (∀ endorsed page page_size requested_fields,
          get_comment_list w request thread_id endorsed page page_size requested_fields
          = thread_not_found)
     ∧ (∀ comment_data,
          get comment_data "thread_id" = Some (VStr thread_id) →
          thread_id ≠ "" →
          create_comment w request comment_data = thread_not_found)
     ∧ (∀ update_data,
          update_thread w request thread_id update_data = thread_not_found)
     ∧ delete_thread w request thread_id = thread_not_found)
  ∧ (requester_is_privileged w course request = true →
     ∀ kwargs, ∃ t,
       _get_thread_and_context w request (VStr thread_id) kwargs
       = ret (t, get_context w course request (Some t))).
Proof.
  intros Hstored Hcourse Hgroup Hdivided Hg Hne.
  pose proof (get_thread_and_context_divided w request thread_id course_key group
                commentable course g) as Hdecide.
  split; intros Hpriv.
  - assert (∀ kwargs, _get_thread_and_context w request (VStr thread_id) kwargs
                      = thread_not_found) as Hhidden.
    { intros kwargs. specialize (Hdecide kwargs Hstored Hcourse Hgroup Hdivided Hg Hne).
      rewrite Hpriv in Hdecide. exact Hdecide. }
    repeat split.
    + exact Hhidden.
    + intros requested_fields. unfold get_thread. rewrite Hhidden. reflexivity.
    + intros endorsed page page_size requested_fields. unfold get_comment_list.
      cbv zeta. rewrite Hhidden. reflexivity.
    + intros comment_data Hid Hnonempty. unfold create_comment. rewrite Hid. simpl.
      assert (String.eqb thread_id "" = false) as ->
        by (apply String.eqb_neq; exact Hnonempty).
      simpl. rewrite Hhidden. reflexivity.
    + intros update_data. unfold update_thread. rewrite Hhidden. reflexivity.
    + unfold delete_thread. rewrite Hhidden. reflexivity.
  - intros kwargs. specialize (Hdecide kwargs Hstored Hcourse Hgroup Hdivided Hg Hne).
    rewrite Hpriv in Hdecide. exact Hdecide.
Qed.

(** Carol, of cohort 2, asks for the thread of cohort 1; Bob, a moderator
    of cohort 2, retrieves it. *)
Lemma divided_thread_hidden_outside_cohort_witness :
  get_thread Demo.world Demo.as_carol "th1" None = thread_not_found
  ∧ ∃ t, _get_thread_and_context Demo.world Demo.as_bob (VStr "th1") None
         = ret (t, get_context Demo.world Demo.demo_course Demo.as_bob (Some t)).
Proof.
  split.
  - apply (divided_thread_hidden_outside_cohort Demo.world Demo.as_carol "th1"
             Demo.demo_key 1 "t2" Demo.demo_course 2).
    + intros kwargs. exists Demo.th1. repeat split; reflexivity.
    + reflexivity.
    + lia.
    + reflexivity.
    + reflexivity.
    + lia.
    + reflexivity.
  - apply (divided_thread_hidden_outside_cohort Demo.world Demo.as_bob "th1"
             Demo.demo_key 1 "t2" Demo.demo_course 2).
    + intros kwargs. exists Demo.th1. repeat split; reflexivity.
    + reflexivity.
    + lia.
    + reflexivity.
    + reflexivity.
    + lia.
    + reflexivity.
Defined.


(** ** What serialization can raise *)

Ltac footprint :=
  repeat first
    [ apply raises_only_ret | apply emits_only_ret | apply emits_only_raise
    | apply raises_only_raise; done
    | apply raises_only_bind; [| intros ?] | apply emits_only_bind; [| intros ?]
    | match goal with
      | |- context [match ?x with _ => _ end] => destruct x
      end ].

Lemma getitem_raises (d : api_dict) (k : string) :
  raises_only is_lookup_error (getitem d k).
Proof. unfold getitem. footprint. Qed.

Lemma profile_of_raises (d : list (string * AccountSettings)) (name : pyval) :
  raises_only is_lookup_error (profile_of d name).
Proof. unfold profile_of. footprint. Qed.

Lemma get_users_raises (kind : DiscussionEntity) (entity : api_dict)
    (d : list (string * AccountSettings)) :
  raises_only is_lookup_error (_get_users kind entity d).
Proof.
  unfold _get_users.
  apply raises_only_bind; [apply getitem_raises | intros author].
  apply raises_only_bind.
  { destruct (truthy author); [| apply raises_only_ret].
    apply raises_only_bind; [apply profile_of_raises | intros p; apply raises_only_ret]. }
  intros users. destruct kind; [apply raises_only_ret |].
  apply raises_only_bind; [apply getitem_raises | intros endorsed].
  destruct (truthy endorsed); [| apply raises_only_ret].
  apply raises_only_bind; [apply getitem_raises | intros endorsed_by].
  destruct (truthy endorsed_by); [| apply raises_only_ret].
  apply raises_only_bind; [apply profile_of_raises | intros p; apply raises_only_ret].
Qed.

Lemma join_usernames_raises (usernames : list pyval) :
  raises_only is_lookup_error (join_usernames usernames).
Proof.
  induction usernames as [| [| | | s |] rest IH]; simpl;
    try (apply raises_only_raise; exact I).
  - apply raises_only_ret.
  - apply raises_only_bind; [exact IH | intros l; apply raises_only_ret].
Qed.

Lemma collect_usernames_raises (entity : api_dict) (usernames : list pyval) :
  raises_only is_lookup_error (collect_usernames entity usernames).
Proof.
  unfold collect_usernames.
  apply raises_only_bind; [apply getitem_raises | intros author].
  cbv zeta. footprint.
Qed.

Lemma serialize_raises (w : World) (request : Request) (ctx : context)
    (entities : list cc_content) (requested_fields : option (list string))
    (kind : DiscussionEntity) :
  raises_only is_lookup_error
    (_serialize_discussion_entities w request ctx entities requested_fields kind).
Proof.
  unfold _serialize_discussion_entities. cbv zeta.
  apply raises_only_bind.
  - apply raises_only_for_each. intros [results usernames] entity.
    destruct (_include_profile_image requested_fields); [| apply raises_only_ret].
    apply raises_only_bind; [apply collect_usernames_raises |].
    intros names. apply raises_only_ret.
  - intros [results usernames]. unfold _add_additional_response_fields.
    destruct (_include_profile_image requested_fields); [| apply raises_only_ret].
    apply raises_only_bind; [apply join_usernames_raises | intros names].
    apply raises_only_mapM. intros entity.
    apply raises_only_bind; [apply get_users_raises | intros users].
    apply raises_only_ret.
Qed.

Lemma serialize_nil (w : World) (request : Request) (ctx : context)
    (requested_fields : option (list string)) (kind : DiscussionEntity) :
  _serialize_discussion_entities w request ctx [] requested_fields kind = ret [].
Proof.
  unfold _serialize_discussion_entities, _add_additional_response_fields.
  destruct (_include_profile_image requested_fields); reflexivity.
Qed.

Lemma num_pages_of_raises (total page_size : Z) :
  raises_only (λ e, e = ZeroDivisionError) (num_pages_of total page_size).
Proof. unfold num_pages_of. footprint. Qed.

(** ** The [endorsed] argument of the comment listing *)

Lemma select_responses_accepts (t : cc_content) (endorsed : option bool)
    (response_skip page_size : Z) :
  (cc_thread_type t = "question" → endorsed ≠ None) →
  (cc_thread_type t ≠ "question" → endorsed = None) →
  ∃ responses total,
    select_responses t endorsed response_skip page_size = ret (responses, total).
Proof.
  intros Hq Hd. unfold select_responses.
  destruct (String.eqb_spec (cc_thread_type t) "question") as [Heq | Hneq].
  - destruct endorsed as [[|]|]; [eauto | eauto | exfalso; by apply Hq].
  - rewrite (Hd Hneq). eauto.
Qed.

(** C2. Once the thread is retrieved for the requester, listing its
    comments fails with the "required" ValidationError when the thread is a
    question and [endorsed] is None, and with the "may not be specified"
    ValidationError when the thread is not a question (a discussion) and
    [endorsed] is given; in the two remaining cases the listing raises no
    ValidationError at all. *)
Theorem comment_list_endorsed_validation (w : World) (request : Request)
    (thread_id : string) (endorsed : option bool) (page page_size : Z)
    (requested_fields : option (list string)) (cc_thread : cc_content)
    (ctx : context) :
  _get_thread_and_context w request (VStr thread_id)
    (Some (comment_list_kwargs request (page_size * (page - 1)) page_size))
  = ret (cc_thread, ctx) →
  let listing :=
    get_comment_list w request thread_id endorsed page page_size requested_fields in
  (cc_thread_type cc_thread = "question" → endorsed = None →
     listing = raise endorsed_required)
  ∧ (cc_thread_type cc_thread ≠ "question" → endorsed ≠ None →
     listing = raise endorsed_forbidden)
  ∧ ((cc_thread_type cc_thread = "question" → endorsed ≠ None) →
     (cc_thread_type cc_thread ≠ "question" → endorsed = None) →
     ∀ errors, outcome listing ≠ inl (ValidationError errors)).
Proof.
  intros Hthread listing. subst listing. unfold get_comment_list. cbv zeta.
  rewrite Hthread, bind_ret_l.
  split; [| split].
  - intros Hq ->. unfold select_responses.
    rewrite Hq. reflexivity.
  - intros Hd Hgiven. unfold select_responses.
    apply String.eqb_neq in Hd. rewrite Hd.
    destruct endorsed; [reflexivity | congruence].
  - intros Hq Hd errors.
    destruct (select_responses_accepts cc_thread endorsed
                (page_size * (page - 1)) page_size Hq Hd)
      as (responses & total & ->).
    rewrite bind_ret_l.
    intros Hout.
    assert (raises_only
              (λ e, e = page_not_found ∨ e = ZeroDivisionError ∨ is_lookup_error e)
              (if match responses with [] => true | _ :: _ => false end
                  && negb (page =? 1)
               then raise page_not_found
               else
                 num_pages_of total page_size ≫= λ num_pages,
                 _serialize_discussion_entities w request ctx responses
                   requested_fields comment ≫= λ results,
                 ret (get_paginated_response request page num_pages total
                        (CommentListData results)))) as Hfoot.
    { destruct (_ && _); [apply raises_only_raise; by left |].
      apply raises_only_bind.
      - intros e He. right. left. eapply num_pages_of_raises. exact He.
      - intros num_pages. apply raises_only_bind.
        + intros e He. right. right. eapply serialize_raises. exact He.
        + intros results. apply raises_only_ret. }
    destruct (Hfoot _ Hout) as [H | [H | H]]; try discriminate H. exact H.
Qed.

(** The question thread [th2] listed without [endorsed]; the discussion
    thread [th3] listed with it. *)
Lemma comment_list_endorsed_validation_witness :
  get_comment_list Demo.world Demo.as_alice "th2" None 1 10 None
  = raise endorsed_required
  ∧ get_comment_list Demo.world Demo.as_alice "th3" (Some true) 1 10 None
    = raise endorsed_forbidden
  ∧ ∀ errors,
      outcome (get_comment_list Demo.world Demo.as_alice "th3" None 1 10 None)
      ≠ inl (ValidationError errors).
Proof.
  split; [| split].
  - apply (comment_list_endorsed_validation Demo.world Demo.as_alice "th2" None 1 10
             None Demo.th2 (get_context Demo.world Demo.demo_course Demo.as_alice
                              (Some Demo.th2)));
      reflexivity.
  - apply (comment_list_endorsed_validation Demo.world Demo.as_alice "th3" (Some true)
             1 10 None Demo.th3 (get_context Demo.world Demo.demo_course Demo.as_alice
                                   (Some Demo.th3))).
    + reflexivity.
    + vm_compute. discriminate.
    + discriminate.
  - apply (comment_list_endorsed_validation Demo.world Demo.as_alice "th3" None
             1 10 None Demo.th3 (get_context Demo.world Demo.demo_course Demo.as_alice
                                   (Some Demo.th3))).
    + reflexivity.
    + vm_compute. discriminate.
    + reflexivity.
Defined.

(** ** Pages out of range *)

Lemma get_thread_list_accepted (w : World) (request : Request) (course_key : string)
    (page page_size : Z) (topic_id_list : option (list string))
    (text_search : option string) (following : option bool)
    (author : option string) (thread_type : option string)
    (flagged : option bool) (view : option string) (order_by : string)
    (order_direction : string) (requested_fields : option (list string))
    (count_flagged : option bool) (course : Course) (author_id : option Z) :
  thread_list_accepted w request course_key topic_id_list text_search following
    author order_by order_direction count_flagged course author_id →
  let found :=
    thread_list_found w request course page page_size topic_id_list text_search
      following author_id thread_type flagged view order_by count_flagged in
  get_thread_list w request course_key page page_size topic_id_list text_search
    following author thread_type flagged view order_by order_direction
    requested_fields count_flagged
  = if negb (pr_page found =? page)
    then raise page_not_found
    else
      _serialize_discussion_entities w request (get_context w course request None)
        (pr_collection found) requested_fields thread ≫= λ results,
      ret (get_paginated_response request (pr_page found) (pr_num_pages found)
             (pr_thread_count found)
             (ThreadListData results (pr_corrected_text found))).
Proof.
  intros (Hexcl & Horder & -> & Hcourse & Hauthor & Hflag) found.
  unfold get_thread_list.
  assert ((1 <? exclusive_param_count topic_id_list text_search following) = false)
    as -> by lia.
  rewrite Horder. cbn [negb].
  rewrite Hcourse, bind_ret_l. cbv zeta. rewrite Hauthor.
  rewrite privilege_ignores_thread.
  destruct (bool_truthy count_flagged) eqn:Hcf; cbn [andb].
  - rewrite (Hflag eq_refl). reflexivity.
  - reflexivity.
Qed.

Lemma slice_beyond {A : Type} (l : list A) (start stop : Z) :
  Z.of_nat (length l) ≤ start → slice l start stop = [].
Proof.
  intros Hlen. unfold slice, clamp.
  assert ((start <? 0) = false) as -> by lia.
  rewrite (Z.min_r start) by lia. rewrite Nat2Z.id, drop_all. by rewrite take_nil.
Qed.

Lemma slice_nil {A : Type} (start stop : Z) : slice (@nil A) start stop = [].
Proof. unfold slice. by rewrite drop_nil, take_nil. Qed.

Lemma get_response_comments_retrieved (w : World) (request : Request)
    (comment_id : string) (page page_size : Z)
    (requested_fields : option (list string)) (cc_comment cc_thread : cc_content)
    (ctx : context) :
  Comment_retrieve w comment_id = Some cc_comment →
  _get_thread_and_context w request (VStr (cc_thread_id cc_comment))
    (Some response_comments_kwargs) = ret (cc_thread, ctx) →
  let response_comments :=
    find_response_comments (thread_responses cc_thread) comment_id in
  let paged :=
    slice response_comments (page_size * (page - 1))
      (page_size * (page - 1) + page_size) in
  (paged = [] → page ≠ 1 →
   get_response_comments w request comment_id page page_size requested_fields
   = raise page_not_found)
  ∧ (response_comments = [] → page = 1 →
     get_response_comments w request comment_id page page_size requested_fields
     = ret (empty_comment_page request)).
Proof.
  intros Hcomment Hthread response_comments paged.
  unfold get_response_comments. rewrite Hcomment, Hthread, bind_ret_l. cbv zeta.
  fold response_comments. fold paged.
  split.
  - intros -> Hpage. assert ((page =? 1) = false) as -> by lia. reflexivity.
  - intros Hempty ->. subst paged. rewrite Hempty, slice_nil. simpl.
    rewrite serialize_nil, bind_ret_l. reflexivity.
Qed.

(** C3. A page out of range is PageNotFound, page 1 of nothing is an empty
    page.  For an accepted thread-list request, a page number in the
    service's answer that differs from the requested one is PageNotFound,
    and an answer for the requested page with no thread is returned as a
    page without results.  For a comment listing whose thread was
    retrieved and whose [endorsed] argument fits, no response on a page
    other than 1 is PageNotFound, and nothing at all on page 1 is the empty
    page.  For the comments of a response, an empty slice on a page other
    than 1 is PageNotFound, which is the case for every page after the
    last one; a response without comments gives the empty page for
    page 1. *)
Theorem page_out_of_range (w : World) (request : Request) :
  (∀ course_key page page_size topic_id_list text_search following author
     thread_type flagged view order_by order_direction requested_fields
     count_flagged course author_id,
     thread_list_accepted w request course_key topic_id_list text_search
       following author order_by order_direction count_flagged course author_id →
     let found :=
       thread_list_found w request course page page_size topic_id_list
         text_search following author_id thread_type flagged view order_by
         count_flagged in
     let listing :=
       get_thread_list w request course_key page page_size topic_id_list
         text_search following author thread_type flagged view order_by
         order_direction requested_fields count_flagged in
     (pr_page found ≠ page → listing = raise page_not_found)
     ∧ (pr_page found = page → pr_collection found = [] →
        ∃ response, listing = ret response
                    ∧ results_of response = []
                    ∧ pagination_page response = page))
  ∧ (∀ thread_id endorsed page page_size requested_fields cc_thread ctx
       responses total,
       _get_thread_and_context w request (VStr thread_id)
         (Some (comment_list_kwargs request (page_size * (page - 1)) page_size))
       = ret (cc_thread, ctx) →
       select_responses cc_thread endorsed (page_size * (page - 1)) page_size
       = ret (responses, total) →
       let listing :=
         get_comment_list w request thread_id endorsed page page_size
           requested_fields in
       (responses = [] → page ≠ 1 → listing = raise page_not_found)
       ∧ (responses = [] → total = 0 → page = 1 →
          listing = ret (empty_comment_page request)))
  ∧ (∀ comment_id page page_size requested_fields cc_comment cc_thread ctx,
       Comment_retrieve w comment_id = Some cc_comment →
       _get_thread_and_context w request (VStr (cc_thread_id cc_comment))
         (Some response_comments_kwargs) = ret (cc_thread, ctx) →
       let response_comments :=
         find_response_comments (thread_responses cc_thread) comment_id in
       let listing :=
         get_response_comments w request comment_id page page_size
           requested_fields in
       (slice response_comments (page_size * (page - 1))
          (page_size * (page - 1) + page_size) = [] →
        page ≠ 1 → listing = raise page_not_found)
       ∧ (0 < page_size → 1 < page →
          Z.of_nat (length response_comments) ≤ page_size * (page - 1) →
          listing = raise page_not_found)
       ∧ (response_comments = [] → page = 1 →
          listing = ret (empty_comment_page request))).
Proof.
  split; [| split].
  - intros course_key page page_size topic_id_list text_search following author
      thread_type flagged view order_by order_direction requested_fields
      count_flagged course author_id Haccepted found listing.
    subst listing.
    rewrite (get_thread_list_accepted w request course_key page page_size
               topic_id_list text_search following author thread_type flagged view
               order_by order_direction requested_fields count_flagged course
               author_id Haccepted).
    fold found. split.
    + intros Hpage. assert ((pr_page found =? page) = false) as -> by lia.
      reflexivity.
    + intros Hpage Hempty. rewrite Hpage, Z.eqb_refl, Hempty. cbn [negb].
      rewrite serialize_nil, bind_ret_l. eexists. split; [reflexivity |].
      split; reflexivity.
  - intros thread_id endorsed page page_size requested_fields cc_thread ctx
      responses total Hthread Hselect listing.
    subst listing. unfold get_comment_list. cbv zeta.
    rewrite Hthread, bind_ret_l, Hselect, bind_ret_l.
    split.
    + intros -> Hpage. assert ((page =? 1) = false) as -> by lia. reflexivity.
    + intros -> -> ->. simpl. rewrite serialize_nil, bind_ret_l. reflexivity.
  - intros comment_id page page_size requested_fields cc_comment cc_thread ctx
      Hcomment Hthread response_comments listing.
    destruct (get_response_comments_retrieved w request comment_id page page_size
                requested_fields cc_comment cc_thread ctx Hcomment Hthread)
      as [Hbeyond Hfirst].
    subst listing. split; [exact Hbeyond | split; [| exact Hfirst]].
    intros Hsize Hpage Hlen. apply Hbeyond; [| lia].
    apply slice_beyond. exact Hlen.
Qed.

(** In the small course: page 2 of the threads, pages 2 and 1 of the
    responses of the empty thread, page 3 (by one) of the two comments of
    a response, and page 1 of a response without comments. *)
Lemma page_out_of_range_witness :
  get_thread_list Demo.world Demo.as_alice Demo.demo_key 2 10 None None None None
    None None None "last_activity_at" "desc" None None
  = raise page_not_found
  ∧ get_comment_list Demo.world Demo.as_alice "th3" None 2 10 None
    = raise page_not_found
  ∧ get_comment_list Demo.world Demo.as_alice "th3" None 1 10 None
    = ret (empty_comment_page Demo.as_alice)
  ∧ get_response_comments Demo.world Demo.as_alice "c1" 3 1 None
    = raise page_not_found
  ∧ get_response_comments Demo.world Demo.as_alice "c5" 1 10 None
    = ret (empty_comment_page Demo.as_alice).
Proof.
  pose proof (page_out_of_range Demo.world Demo.as_alice)
    as (Hthreads & Hcomments & Hresponses).
  split; [| split; [| split; [| split]]].
  - apply (Hthreads Demo.demo_key 2 10 None None None None None None None
             "last_activity_at" "desc" None None Demo.demo_course None).
    + repeat split; try reflexivity; [vm_compute; discriminate | discriminate].
    + vm_compute. discriminate.
  - apply (Hcomments "th3" None 2 10 None Demo.th3
             (get_context Demo.world Demo.demo_course Demo.as_alice (Some Demo.th3))
             [] 0); [reflexivity | reflexivity | reflexivity | lia].
  - apply (Hcomments "th3" None 1 10 None Demo.th3
             (get_context Demo.world Demo.demo_course Demo.as_alice (Some Demo.th3))
             [] 0); reflexivity.
  - apply (Hresponses "c1" 3 1 None
             (Demo.a_comment "c1" "th1" "1"
                [Demo.a_comment "c2" "th1" "3" []; Demo.a_comment "c3" "th1" "1" []])
             Demo.th1
             (get_context Demo.world Demo.demo_course Demo.as_alice (Some Demo.th1)));
      [reflexivity | reflexivity | lia | lia | vm_compute; discriminate].
  - apply (Hresponses "c5" 1 10 None (Demo.a_comment "c5" "th3" "1" []) Demo.th3
             (get_context Demo.world Demo.demo_course Demo.as_alice (Some Demo.th3)));
      reflexivity.
Defined.

(** ** The filters of the thread listing *)

Lemma raises_only_weaken {A : Type} (P P' : exn → Prop) (m : M A) :
  (∀ e, P e → P' e) → raises_only P m → raises_only P' m.
Proof. intros Himpl Hm e He. apply Himpl, Hm, He. Qed.

Lemma lookup_error_not_about (field : string) (e : exn) :
  is_lookup_error e → not_about field e.
Proof. intros He errors ->. destruct He. Qed.

Lemma get_course_raises (w : World) (course_key : string) (user : User)
    (field : string) :
  raises_only (not_about field) (_get_course w course_key user).
Proof.
  unfold _get_course.
  destruct (get_course_with_access w user course_key) as [course |].
  - destruct (negb _); [| apply raises_only_ret].
    apply raises_only_raise. intros errors H. discriminate H.
  - apply raises_only_raise. intros errors H. discriminate H.
Qed.

Lemma query_params_without_view (w : World) (request : Request) (ctx : context)
    (course : Course) (page page_size : Z) (text_search : option string)
    (order_by : string) (author_id : option Z) (flagged : option bool)
    (thread_type : option string) (count_flagged : option bool) (v : string) :
  str_in v ["unread"; "unanswered"] = false →
  thread_list_query_params w request ctx course page page_size text_search order_by
    author_id flagged thread_type count_flagged (Some v)
  = thread_list_query_params w request ctx course page page_size text_search order_by
      author_id flagged thread_type count_flagged None.
Proof.
  intros Hview. unfold thread_list_query_params. rewrite Hview.
  destruct (negb (String.eqb v "")); reflexivity.
Qed.

(** C10. A [view] that is neither ['unread'] nor ['unanswered'] is dropped
    from the query: the listing is the one of the same call without a
    view, and whatever ValidationError the call raises is not about
    [view]. *)
Theorem invalid_view_is_dropped (w : World) (request : Request) (course_key : string)
    (page page_size : Z) (topic_id_list : option (list string))
    (text_search : option string) (following : option bool)
    (author : option string) (thread_type : option string)
    (flagged : option bool) (v : string) (order_by : string)
    (order_direction : string) (requested_fields : option (list string))
    (count_flagged : option bool) :
  str_in v ["unread"; "unanswered"] = false →
  get_thread_list w request course_key page page_size topic_id_list text_search
    following author thread_type flagged (Some v) order_by order_direction
    requested_fields count_flagged
  = get_thread_list w request course_key page page_size topic_id_list text_search
      following author thread_type flagged None order_by order_direction
      requested_fields count_flagged
  ∧ raises_only (not_about "view")
      (get_thread_list w request course_key page page_size topic_id_list text_search
         following author thread_type flagged (Some v) order_by order_direction
         requested_fields count_flagged).
Proof.
  intros Hview. split.
  - unfold get_thread_list.
    destruct (1 <? _); [reflexivity |].
    destruct (negb (str_in order_by _)); [reflexivity |].
    destruct (negb (String.eqb order_direction _)); [reflexivity |].
    destruct (_get_course w course_key (request_user request)) as [l [e | course]];
      [reflexivity |].
    unfold mbind, M_bind, bind. cbv zeta.
    destruct (author_lookup w author) as [author_id |]; [| reflexivity].
    rewrite (query_params_without_view w request _ course page page_size text_search
               order_by author_id flagged thread_type count_flagged v Hview).
    reflexivity.
  - unfold get_thread_list.
    destruct (1 <? _).
    { apply raises_only_raise. intros errors H. discriminate H. }
    destruct (negb (str_in order_by _)).
    { apply raises_only_raise. intros errors [= <-]. reflexivity. }
    destruct (negb (String.eqb order_direction _)).
    { apply raises_only_raise. intros errors [= <-]. reflexivity. }
    apply raises_only_bind; [apply get_course_raises | intros course]. cbv zeta.
    destruct (author_lookup w author) as [author_id |]; [| apply raises_only_ret].
    destruct (_ && _).
    { apply raises_only_raise. intros errors H. discriminate H. }
    destruct (negb (_ =? _)).
    { apply raises_only_raise. intros errors H. discriminate H. }
    apply raises_only_bind; [| intros results; apply raises_only_ret].
    eapply raises_only_weaken; [apply lookup_error_not_about | apply serialize_raises].
Qed.

(** Alice asks for the ['popular'] threads. *)
Lemma invalid_view_is_dropped_witness :
  get_thread_list Demo.world Demo.as_alice Demo.demo_key 1 10 None None None None
    None None (Some "popular") "last_activity_at" "desc" None None
  = get_thread_list Demo.world Demo.as_alice Demo.demo_key 1 10 None None None None
      None None None "last_activity_at" "desc" None None.
Proof.
  apply (invalid_view_is_dropped Demo.world Demo.as_alice Demo.demo_key 1 10 None
           None None None None None "popular" "last_activity_at" "desc" None None).
  reflexivity.
Defined.

(** C6, as stated, fails: the ordering is validated before the author is
    looked up, so a request with an author nobody has and an unknown
    [order_by] is a ValidationError, not an empty page. *)
Lemma missing_author_invalid_order_by :
  User_objects_get Demo.world "nobody" = None
  ∧ get_thread_list Demo.world Demo.as_alice Demo.demo_key 1 10 None None None
      (Some "nobody") None None None "newest" "desc" None None
    = raise (ValidationError [("order_by", [order_by_message "newest"])]).
Proof. split; reflexivity. Qed.

(** C6, amended. When the request passes the checks made before the
    author lookup (at most one of the exclusive filters, a known
    [order_by], [order_direction] ['desc'], a course the requester can
    access with discussions enabled) and the author filter names a
    username that does not exist, the listing is the empty page, with no
    error, whatever the page, the thread type, the flagged and view
    filters, the requested fields and [count_flagged]. *)
Theorem missing_author_empty_page (w : World) (request : Request) (course_key : string)
    (page page_size : Z) (topic_id_list : option (list string))
    (text_search : option string) (following : option bool)
    (name : string) (thread_type : option string)
    (flagged : option bool) (view : option string) (order_by : string)
    (order_direction : string) (requested_fields : option (list string))
    (count_flagged : option bool) (course : Course) :
  exclusive_param_count topic_id_list text_search following ≤ 1 →
  str_in order_by (keys cc_map) = true →
  order_direction = "desc" →
  _get_course w course_key (request_user request) = ret course →
  name ≠ "" →
  User_objects_get w name = None →
  get_thread_list w request course_key page page_size topic_id_list text_search
    following (Some name) thread_type flagged view order_by order_direction
    requested_fields count_flagged
  = ret (empty_thread_page request).
Proof.
  intros Hexcl Horder -> Hcourse Hname Hnobody. unfold get_thread_list.
  assert ((1 <? exclusive_param_count topic_id_list text_search following) = false)
    as -> by lia.
  rewrite Horder. cbn [negb]. rewrite Hcourse, bind_ret_l. cbv zeta.
  unfold author_lookup, str_truthy.
  change (default "" (Some name)) with name.
  apply String.eqb_neq in Hname. rewrite Hname, Hnobody. reflexivity.
Qed.

(** Alice asks for the threads of an author nobody has, on any page. *)
Lemma missing_author_empty_page_witness :
  get_thread_list Demo.world Demo.as_alice Demo.demo_key 7 10 None None None
    (Some "nobody") (Some "question") None (Some "unread") "vote_count" "desc" None
    (Some true)
  = ret (empty_thread_page Demo.as_alice).
Proof.
  apply (missing_author_empty_page Demo.world Demo.as_alice Demo.demo_key 7 10 None
           None None "nobody" (Some "question") None (Some "unread") "vote_count"
           "desc" None (Some true) Demo.demo_course).
  - vm_compute. discriminate.
  - reflexivity.
  - reflexivity.
  - reflexivity.
  - discriminate.
  - reflexivity.
Defined.

(** ** Inversion of successful computations *)

Lemma outcome_bind_inr {A B : Type} (m : M A) (f : A → M B) (b : B) :
  outcome (m ≫= f) = inr b → ∃ a, outcome m = inr a ∧ outcome (f a) = inr b.
Proof.
  rewrite outcome_bind. destruct (outcome m) as [e | a]; [discriminate | eauto].
Qed.

Lemma outcome_except_inr {A : Type} (m : M A) (e' : exn) (a : A) :
  outcome (except_request_error m e') = inr a → outcome m = inr a.
Proof. destruct m as [l [[] | a']]; simpl; congruence. Qed.

(** ** The number of pages of a comment listing *)

Lemma ceil_div_spec (a b : Z) :
  0 < b → (ceil_div a b - 1) * b < a ∧ a ≤ ceil_div a b * b.
Proof.
  intros Hb. unfold ceil_div.
  pose proof (Z.div_mod (- a) b ltac:(lia)) as Hdiv.
  pose proof (Z.mod_pos_bound (- a) b Hb) as Hmod.
  nia.
Qed.

Lemma num_pages_of_inr (total page_size n : Z) :
  0 < page_size →
  outcome (num_pages_of total page_size) = inr n →
  n = if total =? 0 then 1 else ceil_div total page_size.
Proof.
  intros Hsize. unfold num_pages_of.
  destruct (total =? 0) eqn:Htotal; simpl; [congruence |].
  assert ((page_size =? 0) = false) as -> by lia. simpl. intros [= <-].
  pose proof (ceil_div_spec total page_size Hsize) as [Hlow Hhigh].
  pose proof (Z.div_mod (total + page_size - 1) page_size ltac:(lia)) as Hdiv.
  pose proof (Z.mod_pos_bound (total + page_size - 1) page_size Hsize) as Hmod.
  nia.
Qed.

(** C9, as stated, fails: a thread without responses, or a response
    without comments, is reported with one page, while the ceiling of
    0 / 10 is 0. *)
Lemma empty_listing_has_one_page :
  get_comment_list Demo.world Demo.as_alice "th3" None 1 10 None
  = ret (empty_comment_page Demo.as_alice)
  ∧ get_response_comments Demo.world Demo.as_alice "c5" 1 10 None
    = ret (empty_comment_page Demo.as_alice)
  ∧ pagination_count (empty_comment_page Demo.as_alice) = 0
  ∧ pagination_num_pages (empty_comment_page Demo.as_alice) = 1
  ∧ ceil_div (pagination_count (empty_comment_page Demo.as_alice)) 10 = 0.
Proof. repeat split; reflexivity. Qed.

(** C9, amended. For a positive page size, a comment listing that
    succeeds reports as number of pages the ceiling of the total count
    over the page size when the total is not zero, and one page when the
    total is zero. *)
Theorem comment_listing_num_pages (w : World) (request : Request) (page page_size : Z)
    (requested_fields : option (list string)) (response : PaginatedResponse) :
  0 < page_size →
  (∀ thread_id endorsed,
     outcome (get_comment_list w request thread_id endorsed page page_size
                requested_fields) = inr response →
     pagination_num_pages response
     = if pagination_count response =? 0 then 1
       else ceil_div (pagination_count response) page_size)
  ∧ (∀ comment_id,
       outcome (get_response_comments w request comment_id page page_size
                  requested_fields) = inr response →
       pagination_num_pages response
       = if pagination_count response =? 0 then 1
         else ceil_div (pagination_count response) page_size).
Proof.
  intros Hsize. split.
  - intros thread_id endorsed Hout. unfold get_comment_list in Hout. cbv zeta in Hout.
    apply outcome_bind_inr in Hout as ([cc_thread ctx] & _ & Hout).
    apply outcome_bind_inr in Hout as ([responses total] & _ & Hout).
    destruct (_ && _); [discriminate Hout |].
    apply outcome_bind_inr in Hout as (n & Hn & Hout).
    apply outcome_bind_inr in Hout as (results & _ & Hout).
    injection Hout as <-. simpl.
    by apply num_pages_of_inr.
  - intros comment_id Hout. unfold get_response_comments in Hout.
    apply outcome_except_inr in Hout.
    destruct (Comment_retrieve w comment_id) as [cc_comment |]; [| discriminate Hout].
    apply outcome_bind_inr in Hout as ([cc_thread ctx] & _ & Hout). cbv zeta in Hout.
    destruct (_ && _); [discriminate Hout |].
    apply outcome_bind_inr in Hout as (results & _ & Hout).
    apply outcome_bind_inr in Hout as (n & Hn & Hout).
    injection Hout as <-. simpl.
    by apply num_pages_of_inr.
Qed.

(** The empty thread on pages of ten; the second of two comments on
    pages of one. *)
Lemma comment_listing_num_pages_witness :
  pagination_num_pages (empty_comment_page Demo.as_alice)
  = (if pagination_count (empty_comment_page Demo.as_alice) =? 0 then 1
     else ceil_div (pagination_count (empty_comment_page Demo.as_alice)) 10)
  ∧ let second_page :=
      get_paginated_response Demo.as_alice 2 2 2
        (CommentListData [Demo.comment_payload (Demo.a_comment "c3" "th1" "1" [])]) in
    pagination_num_pages second_page
    = (if pagination_count second_page =? 0 then 1
       else ceil_div (pagination_count second_page) 1).
Proof.
  split.
  - apply (comment_listing_num_pages Demo.world Demo.as_alice 1 10 None
             (empty_comment_page Demo.as_alice) ltac:(lia)) with "th3" None.
    reflexivity.
  - intros second_page.
    apply (comment_listing_num_pages Demo.world Demo.as_alice 2 1 None second_page
             ltac:(lia)) with "c1".
    vm_compute. reflexivity.
Defined.

(** ** The read state in the answer to an update *)

(** C5, as stated, fails for comments: the payload [update_comment]
    returns is the serialized comment as the actions left it, and it
    reports neither a read state nor an unread count. *)
Lemma update_comment_reports_no_read_state :
  match outcome (update_comment Demo.world Demo.as_alice "c1"
                   [("raw_body", VStr "edited")]) with
  | inr payload =>
      payload !! "read" = None ∧ payload !! "unread_comment_count" = None
  | inl _ => False
  end.
Proof. vm_compute. split; reflexivity. Qed.

(** C5, amended. Every successful [update_thread] reports the thread as
    read, with no unread comment, whatever its read state; a successful
    [update_comment] returns the serialized comment as the requested
    actions left it, without such an override. *)
Theorem update_thread_reports_read (w : World) (request : Request)
    (update_data : request_data) (payload : api_dict) :
  (∀ thread_id,
     outcome (update_thread w request thread_id update_data) = inr payload →
     payload !! "read" = Some (VBool true)
     ∧ payload !! "unread_comment_count" = Some (VInt 0))
  ∧ (∀ comment_id,
       outcome (update_comment w request comment_id update_data) = inr payload →
       ∃ cc_comment ctx,
         outcome (_do_extra_actions (CommentSerializer_data w ctx cc_comment)
                    cc_comment (keys update_data) (CommentActionsForm w update_data)
                    ctx request) = inr payload).
Proof.
  split.
  - intros thread_id Hout. unfold update_thread in Hout.
    apply outcome_bind_inr in Hout as ([cc_thread ctx] & _ & Hout).
    apply outcome_bind_inr in Hout as ([] & _ & Hout). cbv zeta in Hout.
    destruct (negb _); [discriminate Hout |].
    apply outcome_bind_inr in Hout as (saved & _ & Hout).
    apply outcome_bind_inr in Hout as (api_thread & _ & Hout).
    injection Hout as <-. split.
    + rewrite lookup_insert_ne by done. apply lookup_insert_eq.
    + apply lookup_insert_eq.
  - intros comment_id Hout. unfold update_comment in Hout.
    apply outcome_bind_inr in Hout as ([cc_comment ctx] & _ & Hout).
    apply outcome_bind_inr in Hout as ([] & _ & Hout). cbv zeta in Hout.
    destruct (negb _); [discriminate Hout |].
    apply outcome_bind_inr in Hout as (saved & _ & Hout).
    apply outcome_bind_inr in Hout as (api_comment & Hactions & Hout).
    injection Hout as <-. eauto.
Qed.

(** Alice edits the title of her thread, which she had not read. *)
Lemma update_thread_reports_read_witness :
  cc_read Demo.th1 = false
  ∧ ∀ payload,
      outcome (update_thread Demo.world Demo.as_alice "th1" [("title", VStr "New")])
      = inr payload →
      payload !! "read" = Some (VBool true)
      ∧ payload !! "unread_comment_count" = Some (VInt 0).
Proof.
  split; [reflexivity |]. intros payload.
  apply (update_thread_reports_read Demo.world Demo.as_alice [("title", VStr "New")]
           payload).
Defined.

(** ** Votes *)

Lemma handle_voted_field_int (v : bool) (cc : cc_content)
    (a : api_dict) (request : Request) (ctx : context) (n : Z) :
  a !! "vote_count" = Some (VInt n) →
  _handle_voted_field (VBool v) cc a request ctx
  = (voted_events cc ctx v,
     inr (<["vote_count" := VInt (n + (if v then 1 else -1))]> a)).
Proof.
  intros Hcount. unfold _handle_voted_field, add_to_vote_count, getitem.
  rewrite Hcount. destruct v; reflexivity.
Qed.

Lemma bind_ext {A B : Type} (m : M A) (f g : A → M B) :
  (∀ a, f a = g a) → (m ≫= f) = (m ≫= g).
Proof.
  intros Hfg. destruct m as [l [e | a]]; [reflexivity |].
  unfold mbind, M_bind, bind. by rewrite Hfg.
Qed.

Section OnlyVoted.

Variables (cc : cc_content) (ctx : context) (request : Request).

(** The turn of the loop of [_do_extra_actions] when only [voted] was
    sent. *)
Local Abbreviation turn := (extra_action cc ["voted"] ctx request).

Lemma extra_action_other (a : api_dict) (field : string) (v : pyval) :
  field ≠ "voted" → turn a (field, v) = ret a.
Proof.
  intros Hfield. unfold extra_action. simpl.
  apply String.eqb_neq in Hfield. rewrite Hfield. reflexivity.
Qed.

Lemma extra_action_voted (a : api_dict) (v : pyval) :
  turn a ("voted", v)
  = (getitem a "voted" ≫= λ current,
     if negb (Py.eqb v current)
     then _handle_voted_field v cc (<["voted" := v]> a) request ctx
     else ret a).
Proof. reflexivity. Qed.

Lemma for_each_skips (a : api_dict) (items : list (string * pyval)) :
  "voted" ∉ keys items → for_each turn a items = ret a.
Proof.
  induction items as [| [field v] items IH]; intros Hnot; cbn [for_each];
    [reflexivity |].
  rewrite extra_action_other, bind_ret_l.
  - apply IH. intros Hin. apply Hnot. by right.
  - intros ->. apply Hnot. by left.
Qed.

Lemma for_each_voted (a : api_dict) (items : list (string * pyval)) (v : pyval) :
  NoDup (keys items) →
  get items "voted" = Some v →
  for_each turn a items = turn a ("voted", v).
Proof.
  induction items as [| [field v'] items IH]; intros Hnodup Hget; [discriminate |].
  cbn [get] in Hget. cbn [for_each].
  apply NoDup_cons in Hnodup as [Hfresh Hnodup].
  destruct (String.eqb_spec "voted" field) as [<- | Hfield].
  - injection Hget as ->.
    rewrite <- (bind_ret_r (turn a ("voted", v))) at 2.
    apply bind_ext. intros a'. by apply for_each_skips.
  - rewrite extra_action_other by (intros ->; by apply Hfield).
    rewrite bind_ret_l. by apply IH.
Qed.

End OnlyVoted.

Lemma do_extra_actions_voted (a : api_dict) (cc : cc_content)
    (form : ActionsForm) (ctx : context) (request : Request) (v : pyval) :
  NoDup (keys (cleaned_data form)) →
  get (cleaned_data form) "voted" = Some v →
  _do_extra_actions a cc ["voted"] form ctx request
  = (getitem a "voted" ≫= λ current,
     if negb (Py.eqb v current)
     then _handle_voted_field v cc (<["voted" := v]> a) request ctx
     else ret a).
Proof.
  intros Hnodup Hget. unfold _do_extra_actions.
  rewrite (for_each_voted cc ctx request a _ v Hnodup Hget).
  apply extra_action_voted.
Qed.

(** C8. On a payload whose vote count is [n], the voted action with true
    raises the count to [n + 1] and the voted action with false on the
    result brings the payload back, count [n] included; each of the two
    sends the voted signal, the call to the service and a vote-tracking
    event.  Through [_do_extra_actions] the same holds for content the
    requester has not voted yet, when [voted] is the field sent: the
    first call marks it voted with count [n + 1], the second restores the
    payload, and each fires the tracking event. *)
Theorem vote_then_unvote_restores_count (cc : cc_content) (ctx : context)
    (request : Request) (a : api_dict) (n : Z) :
  a !! "vote_count" = Some (VInt n) →
  (_handle_voted_field (VBool true) cc a request ctx
   = (voted_events cc ctx true, inr (<["vote_count" := VInt (n + 1)]> a))
   ∧ _handle_voted_field (VBool false) cc (<["vote_count" := VInt (n + 1)]> a)
       request ctx
     = (voted_events cc ctx false, inr a))
  ∧ (a !! "voted" = Some (VBool false) →
     ∀ form_up form_down,
       NoDup (keys (cleaned_data form_up)) →
       get (cleaned_data form_up) "voted" = Some (VBool true) →
       NoDup (keys (cleaned_data form_down)) →
       get (cleaned_data form_down) "voted" = Some (VBool false) →
       let voted_up := <["vote_count" := VInt (n + 1)]> (<["voted" := VBool true]> a) in
       _do_extra_actions a cc ["voted"] form_up ctx request
       = (voted_events cc ctx true, inr voted_up)
       ∧ _do_extra_actions voted_up cc ["voted"] form_down ctx request
         = (voted_events cc ctx false, inr a)).
Proof.
  intros Hcount. split; [split |].
  - by rewrite (handle_voted_field_int true cc a request ctx n).
  - rewrite (handle_voted_field_int false cc _ request ctx (n + 1))
      by apply lookup_insert_eq.
    rewrite insert_insert_eq. replace (n + 1 + -1) with n by lia.
    by rewrite insert_id.
  - intros Hvoted form_up form_down Hnodup_up Hup Hnodup_down Hdown voted_up. split.
    + rewrite (do_extra_actions_voted a cc form_up ctx request _ Hnodup_up Hup).
      unfold getitem. rewrite Hvoted, bind_ret_l. simpl.
      rewrite (handle_voted_field_int true cc _ request ctx n)
        by (by rewrite lookup_insert_ne).
      reflexivity.
    + rewrite (do_extra_actions_voted voted_up cc form_down ctx request _
                 Hnodup_down Hdown).
      unfold getitem, voted_up.
      rewrite lookup_insert_ne, lookup_insert_eq, bind_ret_l by done. simpl.
      rewrite (handle_voted_field_int false cc _ request ctx (n + 1)).
      2: { rewrite lookup_insert_ne by done. apply lookup_insert_eq. }
      do 2 f_equal. apply map_eq. intros k.
      destruct (decide (k = "vote_count")) as [-> | Hk1].
      { rewrite lookup_insert_eq, Hcount. do 2 f_equal. lia. }
      rewrite lookup_insert_ne by done.
      destruct (decide (k = "voted")) as [-> | Hk2].
      { by rewrite lookup_insert_eq, Hvoted. }
      by rewrite !lookup_insert_ne.
Qed.

(** Alice votes for thread [th1], which has four votes, and takes her
    vote back. *)
Lemma vote_then_unvote_restores_count_witness :
  let ctx := get_context Demo.world Demo.demo_course Demo.as_alice (Some Demo.th1) in
  let payload := Demo.thread_payload Demo.th1 in
  let voted_up := <["vote_count" := VInt 5]> (<["voted" := VBool true]> payload) in
  _do_extra_actions payload Demo.th1 ["voted"]
    (Demo.actions_form Demo.thread_action_fields [("voted", VBool true)])
    ctx Demo.as_alice
  = (voted_events Demo.th1 ctx true, inr voted_up)
  ∧ _do_extra_actions voted_up Demo.th1 ["voted"]
      (Demo.actions_form Demo.thread_action_fields [("voted", VBool false)])
      ctx Demo.as_alice
    = (voted_events Demo.th1 ctx false, inr payload).
Proof.
  intros ctx payload voted_up.
  apply (vote_then_unvote_restores_count Demo.th1 ctx Demo.as_alice payload 4).
  - reflexivity.
  - reflexivity.
  - apply (bool_decide_unpack (NoDup _)). vm_compute. exact I.
  - reflexivity.
  - apply (bool_decide_unpack (NoDup _)). vm_compute. exact I.
  - reflexivity.
Defined.

(** ** Saving on update *)

Lemma str_in_spec (x : string) (l : list string) : str_in x l = true ↔ x ∈ l.
Proof.
  unfold str_in. rewrite existsb_exists, list_elem_of_In. split.
  - intros (y & Hin & Heq). apply String.eqb_eq in Heq. by subst.
  - intros Hin. exists x. split; [exact Hin | apply String.eqb_refl].
Qed.


Section Silent.

Context (Q : event → Prop) (w : World).


Lemma emits_only_except {A : Type} (m : M A) (e : exn) :
  emits_only Q m → emits_only Q (except_request_error m e).
Proof. destruct m as [l [[] | a]]; exact id. Qed.

Lemma get_course_silent (course_key : string) (user : User) :
  emits_only Q (_get_course w course_key user).
Proof. unfold _get_course. footprint. Qed.

Lemma get_thread_and_context_silent (request : Request) (thread_id : pyval)
    (kwargs : option (gmap string pyval)) :
  emits_only Q (_get_thread_and_context w request thread_id kwargs).
Proof.
  unfold _get_thread_and_context. apply emits_only_except. cbv zeta.
  destruct (Thread_retrieve _ _ _); [| apply emits_only_raise].
  apply emits_only_bind; [apply get_course_silent | intros course].
  footprint.
Qed.

Lemma get_comment_and_context_silent (request : Request) (comment_id : string) :
  emits_only Q (_get_comment_and_context w request comment_id).
Proof.
  unfold _get_comment_and_context. apply emits_only_except.
  destruct (Comment_retrieve _ _); [| apply emits_only_raise].
  apply emits_only_bind; [apply get_thread_and_context_silent | intros tc].
  apply emits_only_ret.
Qed.


End Silent.

Lemma add_to_vote_count_silent (Q : event → Prop) (a : api_dict) (delta : Z) :
  emits_only Q (add_to_vote_count a delta).
Proof.
  unfold add_to_vote_count, getitem.
  destruct (a !! "vote_count") as [[| | | |] |]; constructor.
Qed.








(** ** Topics that are not found *)

Lemma insert_by_elem {A : Type} (key : A → string) (x y : A) (l : list A) :
  y ∈ insert_by key x l ↔ y = x ∨ y ∈ l.
Proof.
  induction l as [| z l IH]; simpl.
  - set_solver.
  - destruct (String.ltb _ _); set_solver.
Qed.

Lemma sorted_by_elem {A : Type} (key : A → string) (y : A) (l : list A) :
  y ∈ sorted_by key l ↔ y ∈ l.
Proof.
  unfold sorted_by.
  assert (∀ acc, y ∈ fold_left (λ acc x, insert_by key x acc) l acc
                 ↔ y ∈ l ∨ y ∈ acc) as Hfold.
  { induction l as [| x l IH]; intros acc; simpl; [set_solver |].
    rewrite IH, insert_by_elem. set_solver. }
  rewrite Hfold. set_solver.
Qed.

Lemma get_is_Some_keys {V : Type} (d : list (string * V)) (c : string) :
  is_Some (get d c) → c ∈ keys d.
Proof.
  induction d as [| [c' v] d IH]; simpl.
  - by intros [? ?].
  - destruct (String.eqb_spec c c') as [-> | Hne]; [set_solver |].
    intros Hsome. right. by apply IH.
Qed.

Lemma get_append_to_category (d : list (string * list XBlock)) (x : XBlock)
    (c : string) :
  get (append_to_category d x) c
  = if String.eqb c (discussion_category x)
    then Some (default [] (get d c) ++ [x])
    else get d c.
Proof.
  induction d as [| [c' xs] d IH]; simpl.
  - by destruct (String.eqb c (discussion_category x)).
  - destruct (String.eqb_spec (discussion_category x) c') as [Hcat | Hcat]; simpl.
    + rewrite Hcat. by destruct (String.eqb c c').
    + rewrite IH.
      destruct (String.eqb_spec c c') as [-> | Hc]; [| reflexivity].
      destruct (String.eqb_spec c' (discussion_category x)); [congruence | reflexivity].
Qed.

Lemma get_grouped (xs : list XBlock) (d : list (string * list XBlock))
    (x : XBlock) (c : string) :
  x ∈ default [] (get (fold_left append_to_category xs d) c)
  ↔ x ∈ default [] (get d c) ∨ (x ∈ xs ∧ discussion_category x = c).
Proof.
  revert d. induction xs as [| y xs IH]; intros d; simpl.
  - set_solver.
  - rewrite IH, get_append_to_category.
    destruct (String.eqb_spec c (discussion_category y)) as [-> | Hc]; simpl.
    + rewrite elem_of_app, list_elem_of_singleton, elem_of_cons. naive_solver.
    + rewrite elem_of_cons. naive_solver.
Qed.

Lemma grouped_category_key (xs : list XBlock) (x : XBlock) :
  x ∈ xs → discussion_category x ∈ keys (fold_left append_to_category xs []).
Proof.
  intros Hin. apply get_is_Some_keys.
  assert (x ∈ default [] (get (fold_left append_to_category xs [])
                            (discussion_category x))) as Hx
    by (apply get_grouped; by right).
  destruct (get _ _) as [l |]; [by eexists | by apply elem_of_nil in Hx].
Qed.

Lemma fold_left_collects {A S : Type} (f : S → A → S) (found : S → gset string)
    (P : A → string → Prop) :
  (∀ acc x i, i ∈ found (f acc x) ↔ i ∈ found acc ∨ P x i) →
  ∀ l acc i, i ∈ found (fold_left f l acc) ↔ i ∈ found acc ∨ ∃ x, x ∈ l ∧ P x i.
Proof.
  intros Hstep l. induction l as [| y l IH]; intros acc i; simpl.
  - set_solver.
  - rewrite IH, Hstep. setoid_rewrite elem_of_cons. naive_solver.
Qed.

Section Existing.

Context (w : World) (request : Request) (course_key : string) (s : gset string)
  (thread_counts : list (string * list (string * Z))) (Hrequested : s ≠ ∅).

Lemma requested_truthy : topic_ids_truthy (Some s) = true.
Proof. unfold topic_ids_truthy. by rewrite bool_decide_eq_false_2. Qed.

Lemma add_xblock_topic_existing (acc : list DiscussionTopic * gset string)
    (x : XBlock) (i : string) :
  i ∈ snd (add_xblock_topic w request course_key (Some s) thread_counts acc x)
  ↔ i ∈ snd acc ∨ (i = discussion_id x ∧ i ∈ s).
Proof.
  destruct acc as [children existing]. unfold add_xblock_topic.
  rewrite requested_truthy. unfold in_topic_ids. simpl.
  case_bool_decide; simpl; set_solver.
Qed.

Lemma add_category_topic_existing (groups : list (string * list XBlock))
    (acc : list DiscussionTopic * gset string) (c : string) (i : string) :
  i ∈ snd (add_category_topic w request course_key (Some s) thread_counts groups acc c)
  ↔ i ∈ snd acc
    ∨ ∃ x, x ∈ get_sorted_xblocks groups c ∧ i = discussion_id x ∧ i ∈ s.
Proof.
  destruct acc as [topics existing]. unfold add_category_topic.
  pose proof (fold_left_collects _ snd _ add_xblock_topic_existing
                (get_sorted_xblocks groups c) ([], existing) i) as Hinner.
  destruct (fold_left _ (get_sorted_xblocks groups c) ([], existing))
    as [children existing'].
  simpl in Hinner. rewrite <- Hinner. by destruct (_ || _).
Qed.

Lemma courseware_existing (course : Course) (i : string) :
  i ∈ snd (get_courseware_topics w request course_key course (Some s) thread_counts)
  ↔ i ∈ s ∧ i ∈ courseware_topic_ids w course (request_user request).
Proof.
  unfold get_courseware_topics, courseware_topic_ids. cbv zeta.
  rewrite (fold_left_collects _ snd _ (add_category_topic_existing _)).
  rewrite list_elem_of_In, in_map_iff. setoid_rewrite <- list_elem_of_In.
  simpl. split.
  - intros [Hin | (c & Hc & x & Hx & -> & Hs)]; [by apply not_elem_of_empty in Hin |].
    split; [exact Hs |]. exists x. split; [reflexivity |].
    unfold get_sorted_xblocks in Hx. apply sorted_by_elem, get_grouped in Hx.
    destruct Hx as [Hx | [Hx _]]; [by apply elem_of_nil in Hx | exact Hx].
  - intros (Hs & x & <- & Hx). right.
    exists (discussion_category x). split.
    + apply sorted_by_elem. by apply grouped_category_key.
    + exists x. split; [| done].
      unfold get_sorted_xblocks. apply sorted_by_elem, get_grouped. by right.
Qed.

Lemma add_non_courseware_topic_existing (acc : list DiscussionTopic * gset string)
    (item : string * TopicEntry) (i : string) :
  i ∈ snd (add_non_courseware_topic w request course_key (Some s) thread_counts
             acc item)
  ↔ i ∈ snd acc ∨ (i = entry_id (snd item) ∧ i ∈ s).
Proof.
  destruct acc as [topics existing], item as [name entry].
  unfold add_non_courseware_topic.
  rewrite requested_truthy. unfold in_topic_ids. simpl.
  case_bool_decide; simpl; set_solver.
Qed.

Lemma non_courseware_existing (course : Course) (i : string) :
  i ∈ snd (get_non_courseware_topics w request course_key course (Some s)
             thread_counts)
  ↔ i ∈ s ∧ i ∈ freestanding_topic_ids course.
Proof.
  unfold get_non_courseware_topics, freestanding_topic_ids. cbv zeta.
  rewrite (fold_left_collects _ snd _ add_non_courseware_topic_existing).
  rewrite list_elem_of_In, in_map_iff. setoid_rewrite <- list_elem_of_In.
  setoid_rewrite sorted_by_elem. simpl. split.
  - intros [Hin | (item & Hitem & -> & Hs)]; [by apply not_elem_of_empty in Hin |].
    eauto.
  - intros (Hs & item & <- & Hitem). right. eauto.
Qed.

End Existing.

Lemma str_app_assoc (a b c : string) :
  ((a ++ b) ++ c)%string = (a ++ (b ++ c))%string.
Proof.
  induction a as [| x a IH]; [reflexivity |].
  change ((String x a ++ b) ++ c)%string with (String x ((a ++ b) ++ c)%string).
  by rewrite IH.
Qed.

Lemma occurs_in_context (i body before after : string) :
  occurs_in i body → occurs_in i (before ++ body ++ after)%string.
Proof.
  intros (b & a & ->). exists (before ++ b)%string, (a ++ after)%string.
  by rewrite !str_app_assoc.
Qed.

Lemma join_names_each (sep : string) (ids : list string) (i : string) :
  i ∈ ids → occurs_in i (join sep ids).
Proof.
  induction ids as [| j ids IH]; [by intros ?%elem_of_nil |].
  intros Hin. destruct ids as [| k ids].
  - apply list_elem_of_singleton in Hin as ->. cbn [join].
    exists "", "". change ("" ++ j ++ "")%string with (j ++ "")%string.
    clear. induction j as [| x j IH]; [reflexivity |].
    change (String x j ++ "")%string with (String x (j ++ "")%string).
    by rewrite <- IH.
  - change (join sep (j :: k :: ids))
      with (j ++ sep ++ join sep (k :: ids))%string.
    apply elem_of_cons in Hin as [-> | Hin].
    + by exists "", (sep ++ join sep (k :: ids))%string.
    + destruct (IH Hin) as (b & a & ->).
      exists (j ++ sep ++ b)%string, a. by rewrite !str_app_assoc.
Qed.

(** C7. When the course resolves and the filter asks for at least one id
    that is neither a courseware-linked topic the requester can see nor a
    freestanding topic of the course, [get_course_topics] fails with
    DiscussionNotFound, and its message is the text
    [Discussion not found for '...'.] around the missing ids, separated
    by a comma and a space: the ids it lists, each once, are exactly the
    requested ids that are in neither set, and each of them occurs in
    the message. *)
Theorem missing_topics_named_exactly (w : World) (request : Request)
    (course_key : string) (topic_ids : gset string) (course : Course) :
  _get_course w course_key (request_user request) = ret course →
  (∃ i, i ∈ topic_ids
        ∧ (i ∉ courseware_topic_ids w course (request_user request))
        ∧ i ∉ freestanding_topic_ids course) →
  ∃ ids message,
    get_course_topics w request course_key (Some topic_ids)
    = raise (DiscussionNotFoundError message)
    ∧ message = ("Discussion not found for '" ++ join ", " ids ++ "'.")%string
    ∧ NoDup ids
    ∧ (∀ i, i ∈ ids
            ↔ i ∈ topic_ids
              ∧ (i ∉ courseware_topic_ids w course (request_user request))
              ∧ i ∉ freestanding_topic_ids course)
    ∧ ∀ i, i ∈ topic_ids →
           (i ∉ courseware_topic_ids w course (request_user request)) →
           i ∉ freestanding_topic_ids course →
           occurs_in i message.
Proof.
  intros Hcourse (missing & Hrequested & Hcourseware & Hfreestanding).
  assert (topic_ids ≠ ∅) as Hnonempty by set_solver.
  unfold get_course_topics. rewrite Hcourse, bind_ret_l. cbv zeta.
  pose proof (courseware_existing w request course_key topic_ids
                (get_course_commentable_counts w (course_id course)) Hnonempty course)
    as Hcw.
  pose proof (non_courseware_existing w request course_key topic_ids
                (get_course_commentable_counts w (course_id course)) Hnonempty course)
    as Hncw.
  destruct (get_courseware_topics _ _ _ _ _ _) as [cw existing_cw].
  destruct (get_non_courseware_topics _ _ _ _ _ _) as [ncw existing_ncw].
  simpl in Hcw, Hncw.
  set (not_found := default ∅ (Some topic_ids) ∖ (existing_cw ∪ existing_ncw)).
  assert (∀ i, i ∈ not_found
               ↔ i ∈ topic_ids
                 ∧ (i ∉ courseware_topic_ids w course (request_user request))
                 ∧ i ∉ freestanding_topic_ids course) as Hnot_found.
  { intros i. unfold not_found. simpl.
    rewrite elem_of_difference, elem_of_union, Hcw, Hncw. tauto. }
  exists (elements not_found),
    ("Discussion not found for '" ++ join ", " (elements not_found) ++ "'.")%string.
  split; [| split; [| split; [| split]]].
  - rewrite (requested_truthy topic_ids Hnonempty).
    rewrite bool_decide_eq_false_2; [reflexivity |].
    intros Hempty. apply (not_elem_of_empty (C := gset string) missing).
    rewrite <- Hempty. by apply Hnot_found.
  - reflexivity.
  - apply NoDup_elements.
  - intros i. rewrite elem_of_elements. apply Hnot_found.
  - intros i Hi Hcwi Hfsi. apply occurs_in_context, join_names_each.
    apply elem_of_elements, Hnot_found. tauto.
Qed.

(** The example of the specification: topics [t1] and [t3] are asked for
    in the course with [t1] and [t2]; the message names [t3] only. *)
Lemma missing_topics_named_exactly_witness :
  get_course_topics Demo.world Demo.as_alice Demo.demo_key (Some {["t1"; "t3"]})
  = raise (DiscussionNotFoundError "Discussion not found for 't3'.").
Proof.
  destruct (missing_topics_named_exactly Demo.world Demo.as_alice Demo.demo_key
              {["t1"; "t3"]} Demo.demo_course)
    as (ids & message & Hraise & Hmessage & Hnodup & Hids & _).
  - reflexivity.
  - exists "t3". split; [| split].
    + apply (bool_decide_unpack (_ ∈ _)). vm_compute. exact I.
    + apply (bool_decide_unpack (_ ∉ _)). vm_compute. exact I.
    + apply (bool_decide_unpack (_ ∉ _)). vm_compute. exact I.
  - assert (ids = ["t3"]) as Hlisted.
    { assert ("t3" ∈ ids) as Hin.
      { apply Hids. split; [| split].
        - apply (bool_decide_unpack (_ ∈ _)). vm_compute. exact I.
        - apply (bool_decide_unpack (_ ∉ _)). vm_compute. exact I.
        - apply (bool_decide_unpack (_ ∉ _)). vm_compute. exact I. }
      assert (∀ i, i ∈ ids → i = "t3") as Honly.
      { intros i Hi. apply Hids in Hi as (Hrequested & _ & Hfreestanding).
        apply elem_of_union in Hrequested as [Hone | Hthree];
          apply elem_of_singleton in Hone || apply elem_of_singleton in Hthree;
          [| done].
        exfalso. apply Hfreestanding. subst i.
        apply (bool_decide_unpack (_ ∈ _)). vm_compute. exact I. }
      destruct ids as [| i ids]; [by apply elem_of_nil in Hin |].
      rewrite (Honly i) by (by left). f_equal.
      destruct ids as [| j ids]; [reflexivity |].
      exfalso. apply NoDup_cons in Hnodup as [Hfresh _]. apply Hfresh.
      rewrite (Honly i) by (by left). rewrite (Honly j) by (right; by left).
      by left. }
    rewrite Hraise, Hmessage, Hlisted. reflexivity.
Defined.

(** * Further properties of the module *)

(** ** Retrieval: who gets a thread, and which error otherwise *)

Lemma emits_nothing_silent {A : Type} (m : M A) :
  emits_only (λ _, False) m → silent m.
Proof.
  unfold emits_only, silent. destruct (events m) as [| ev l]; [done |].
  intros Hall. by apply Forall_cons in Hall as [[] _].
Qed.

Lemma get_thread_and_context_result (w : World) (request : Request)
    (thread_id : pyval) (kwargs : option (gmap string pyval)) :
  (∃ e, _get_thread_and_context w request thread_id kwargs = raise e)
  ∨ (∃ t ctx, _get_thread_and_context w request thread_id kwargs = ret (t, ctx)).
Proof.
  pose proof (emits_nothing_silent _
                (get_thread_and_context_silent _ w request thread_id kwargs)) as Hsilent.
  destruct (_get_thread_and_context w request thread_id kwargs)
    as [l [e | [t ctx]]]; unfold silent in Hsilent; simpl in Hsilent; subst l; eauto.
Qed.

Lemma get_comment_and_context_result (w : World) (request : Request)
    (comment_id : string) :
  (∃ e, _get_comment_and_context w request comment_id = raise e)
  ∨ (∃ c ctx, _get_comment_and_context w request comment_id = ret (c, ctx)).
Proof.
  pose proof (emits_nothing_silent _
                (get_comment_and_context_silent _ w request comment_id)) as Hsilent.
  destruct (_get_comment_and_context w request comment_id)
    as [l [e | [c ctx]]]; unfold silent in Hsilent; simpl in Hsilent; subst l; eauto.
Qed.

(** X1. Once a thread is retrieved and its course resolves for the
    requester, [_get_thread_and_context] answers ThreadNotFound exactly
    when the cohort check applies, and returns the thread with its context
    in every other case: to a privileged requester, to a requester without
    a group, to a requester of the thread's group, for a thread without a
    group and for a commentable that is not divided. *)
Theorem thread_returned_unless_outside_cohort (w : World) (request : Request)
    (thread_id : pyval) (kwargs : option (gmap string pyval)) (t : cc_content)
    (course : Course) :
  Thread_retrieve w thread_id (kwargs_sent kwargs) = Some t →
  _get_course w (cc_course_id t) (request_user request) = ret course →
  (outside_cohort w request course t →
   _get_thread_and_context w request thread_id kwargs = thread_not_found)
  ∧ (¬ outside_cohort w request course t →
     _get_thread_and_context w request thread_id kwargs
     = ret (t, get_context w course request (Some t))).
Proof.
  intros Hretrieve Hcourse. unfold _get_thread_and_context. cbv zeta.
  fold (kwargs_sent kwargs). rewrite Hretrieve, Hcourse, bind_ret_l.
  rewrite privilege_ignores_thread. unfold outside_cohort.
  destruct (requester_is_privileged w course request);
    [split; [intros (? & _); discriminate | reflexivity] |].
  destruct (group_id_truthy (cc_group_id t));
    [| split; [intros (_ & ? & _); discriminate | reflexivity]].
  destruct (is_commentable_divided _ _ _ _);
    [| split; [intros (_ & _ & ? & _); discriminate | reflexivity]].
  simpl.
  destruct (get_group_id_for_user _ _ _) as [g |];
    [| split; [intros (_ & _ & _ & g & ? & _); discriminate | reflexivity]].
  case_bool_decide as Hgroup; simpl.
  - split; [| reflexivity]. intros (_ & _ & _ & g' & [= <-] & Hne). done.
  - split; [reflexivity |]. intros Hvisible. exfalso. apply Hvisible.
    repeat split; eauto.
Qed.

(** Alice, of cohort 1, gets the thread of her cohort. *)
Lemma thread_returned_unless_outside_cohort_witness :
  _get_thread_and_context Demo.world Demo.as_alice (VStr "th1") None
  = ret (Demo.th1, get_context Demo.world Demo.demo_course Demo.as_alice (Some Demo.th1)).
Proof.
  apply (thread_returned_unless_outside_cohort Demo.world Demo.as_alice (VStr "th1")
           None Demo.th1 Demo.demo_course).
  - reflexivity.
  - reflexivity.
  - intros (_ & _ & _ & g & Hg & Hne). vm_compute in Hg. injection Hg as <-.
    by apply Hne.
Defined.

(** X2. A thread the comment service does not have is ThreadNotFound for
    every operation on it, with no effect: the request error of the
    client is translated. *)
Theorem missing_thread_not_found (w : World) (request : Request) (thread_id : string) :
  (∀ kwargs, Thread_retrieve w (VStr thread_id) kwargs = None) →
  (∀ kwargs, _get_thread_and_context w request (VStr thread_id) kwargs
             = thread_not_found)
  ∧ (∀ requested_fields,
       get_thread w request thread_id requested_fields = thread_not_found)
  ∧ (∀ endorsed page page_size requested_fields,
       get_comment_list w request thread_id endorsed page page_size requested_fields
       = thread_not_found)
  ∧ (∀ comment_data,
       get comment_data "thread_id" = Some (VStr thread_id) →
       thread_id ≠ "" →
       create_comment w request comment_data = thread_not_found)
  ∧ (∀ update_data, update_thread w request thread_id update_data = thread_not_found)
  ∧ delete_thread w request thread_id = thread_not_found.
Proof.
  intros Hmissing.
  assert (∀ kwargs, _get_thread_and_context w request (VStr thread_id) kwargs
                    = thread_not_found) as Hnot_found.
  { intros kwargs. unfold _get_thread_and_context. cbv zeta. by rewrite Hmissing. }
  repeat split.
  - exact Hnot_found.
  - intros requested_fields. unfold get_thread. by rewrite Hnot_found.
  - intros endorsed page page_size requested_fields. unfold get_comment_list.
    cbv zeta. by rewrite Hnot_found.
  - intros comment_data Hid Hnonempty. unfold create_comment. rewrite Hid. simpl.
    apply String.eqb_neq in Hnonempty. rewrite Hnonempty. simpl.
    by rewrite Hnot_found.
  - intros update_data. unfold update_thread. by rewrite Hnot_found.
  - unfold delete_thread. by rewrite Hnot_found.
Qed.

(** Nobody has thread [th9]. *)
Lemma missing_thread_not_found_witness :
  update_thread Demo.world Demo.as_bob "th9" [("title", VStr "New")] = thread_not_found.
Proof.
  apply (missing_thread_not_found Demo.world Demo.as_bob "th9").
  intros kwargs. reflexivity.
Defined.

(** X3. For the operations on a comment, a comment the service does not
    have is CommentNotFound; a comment whose thread cannot be retrieved
    for the requester (missing, or of another cohort) is ThreadNotFound,
    the error of the thread check passing through unchanged. *)
Theorem comment_operations_not_found (w : World) (request : Request)
    (comment_id : string) :
  (Comment_retrieve w comment_id = None →
   (∀ update_data,
      update_comment w request comment_id update_data
      = raise (CommentNotFoundError "Comment not found."))
   ∧ delete_comment w request comment_id
     = raise (CommentNotFoundError "Comment not found.")
   ∧ (∀ page page_size requested_fields,
        get_response_comments w request comment_id page page_size requested_fields
        = raise (CommentNotFoundError "Comment not found")))
  ∧ (∀ cc_comment,
       Comment_retrieve w comment_id = Some cc_comment →
       (∀ kwargs, _get_thread_and_context w request (VStr (cc_thread_id cc_comment))
                    kwargs = thread_not_found) →
       (∀ update_data,
          update_comment w request comment_id update_data = thread_not_found)
       ∧ delete_comment w request comment_id = thread_not_found
       ∧ (∀ page page_size requested_fields,
            get_response_comments w request comment_id page page_size
              requested_fields = thread_not_found)).
Proof.
  split.
  - intros Hmissing.
    assert (_get_comment_and_context w request comment_id
            = raise (CommentNotFoundError "Comment not found.")) as Hnot_found.
    { unfold _get_comment_and_context. by rewrite Hmissing. }
    repeat split.
    + intros update_data. unfold update_comment. by rewrite Hnot_found.
    + unfold delete_comment. by rewrite Hnot_found.
    + intros page page_size requested_fields. unfold get_response_comments.
      by rewrite Hmissing.
  - intros cc_comment Hcomment Hthread.
    assert (_get_comment_and_context w request comment_id = thread_not_found)
      as Hnot_found.
    { unfold _get_comment_and_context. by rewrite Hcomment, Hthread. }
    repeat split.
    + intros update_data. unfold update_comment. by rewrite Hnot_found.
    + unfold delete_comment. by rewrite Hnot_found.
    + intros page page_size requested_fields. unfold get_response_comments.
      by rewrite Hcomment, Hthread.
Qed.

(** Nobody has comment [c8]; Carol, of cohort 2, edits the response [c1]
    to the thread of cohort 1. *)
Lemma comment_operations_not_found_witness :
  delete_comment Demo.world Demo.as_alice "c8"
  = raise (CommentNotFoundError "Comment not found.")
  ∧ update_comment Demo.world Demo.as_carol "c1" [("raw_body", VStr "edited")]
    = thread_not_found.
Proof.
  pose proof (comment_operations_not_found Demo.world Demo.as_alice "c8")
    as [Hmissing _].
  pose proof (comment_operations_not_found Demo.world Demo.as_carol "c1")
    as [_ Hhidden].
  split.
  - apply Hmissing. reflexivity.
  - apply (Hhidden (Demo.a_comment "c1" "th1" "1"
                      [Demo.a_comment "c2" "th1" "3" [];
                       Demo.a_comment "c3" "th1" "1" []])).
    + reflexivity.
    + intros kwargs. reflexivity.
Defined.

(** ** The course check *)

(** X4. When the course check fails, with CourseNotFound for a course the
    requester cannot load or DiscussionDisabled for a disabled discussion
    tab, the topic listing, every thread listing with a valid ordering and
    every operation on a thread of that course fail with that same
    error. *)
Theorem course_check_failure_propagates (w : World) (request : Request)
    (course_key : string) (e : exn) :
  _get_course w course_key (request_user request) = raise e →
  (e = CourseNotFoundError "Course not found."
   ∨ e = DiscussionDisabledError "Discussion is disabled for the course.")
  ∧ (∀ topic_ids, get_course_topics w request course_key topic_ids = raise e)
  ∧ (∀ page page_size topic_id_list text_search following author thread_type
       flagged view order_by requested_fields count_flagged,
       exclusive_param_count topic_id_list text_search following ≤ 1 →
       str_in order_by (keys cc_map) = true →
       get_thread_list w request course_key page page_size topic_id_list
         text_search following author thread_type flagged view order_by "desc"
         requested_fields count_flagged = raise e)
  ∧ (∀ thread_id,
       (∀ kwargs, ∃ t, Thread_retrieve w (VStr thread_id) kwargs = Some t
                       ∧ cc_course_id t = course_key) →
       (∀ requested_fields, get_thread w request thread_id requested_fields = raise e)
       ∧ (∀ endorsed page page_size requested_fields,
            get_comment_list w request thread_id endorsed page page_size
              requested_fields = raise e)
       ∧ (∀ update_data, update_thread w request thread_id update_data = raise e)
       ∧ delete_thread w request thread_id = raise e).
Proof.
  intros Hcourse.
  assert (e = CourseNotFoundError "Course not found."
          ∨ e = DiscussionDisabledError "Discussion is disabled for the course.")
    as Hkind.
  { unfold _get_course in Hcourse.
    destruct (get_course_with_access _ _ _) as [course |].
    - destruct (negb _); [right | discriminate]. by injection Hcourse.
    - left. by injection Hcourse. }
  split; [exact Hkind |]. split; [| split].
  - intros topic_ids. unfold get_course_topics. by rewrite Hcourse.
  - intros page page_size topic_id_list text_search following author thread_type
      flagged view order_by requested_fields count_flagged Hexcl Horder.
    unfold get_thread_list.
    assert ((1 <? exclusive_param_count topic_id_list text_search following) = false)
      as -> by lia.
    rewrite Horder. cbn [negb]. by rewrite Hcourse.
  - intros thread_id Hstored.
    assert (∀ kwargs, _get_thread_and_context w request (VStr thread_id) kwargs
                      = raise e) as Hfails.
    { intros kwargs. unfold _get_thread_and_context. cbv zeta.
      destruct (Hstored (kwargs_sent kwargs)) as (t & Hretrieve & Hkey).
      fold (kwargs_sent kwargs). rewrite Hretrieve, Hkey, Hcourse.
      by destruct Hkind as [-> | ->]. }
    repeat split.
    + intros requested_fields. unfold get_thread. by rewrite Hfails.
    + intros endorsed page page_size requested_fields. unfold get_comment_list.
      cbv zeta. by rewrite Hfails.
    + intros update_data. unfold update_thread. by rewrite Hfails.
    + unfold delete_thread. by rewrite Hfails.
Qed.

(** With the discussion tab disabled, Alice can neither list the topics
    nor read her thread. *)
Lemma course_check_failure_propagates_witness :
  get_course_topics Scenario.disabled Demo.as_alice Demo.demo_key None
  = raise (DiscussionDisabledError "Discussion is disabled for the course.")
  ∧ get_thread Scenario.disabled Demo.as_alice "th1" None
    = raise (DiscussionDisabledError "Discussion is disabled for the course.").
Proof.
  pose proof (course_check_failure_propagates Scenario.disabled Demo.as_alice
                Demo.demo_key
                (DiscussionDisabledError "Discussion is disabled for the course.")
                eq_refl) as (_ & Htopics & _ & Hthreads).
  split.
  - apply Htopics.
  - apply (Hthreads "th1"). intros kwargs. exists Demo.th1. split; reflexivity.
Defined.

(** ** Field checks *)

Lemma get_dict_set {V : Type} (d : list (string * V)) (k k' : string) (v : V) :
  get (dict_set d k v) k' = if String.eqb k' k then Some v else get d k'.
Proof.
  induction d as [| [k0 v0] d IH]; cbn [dict_set get]; [reflexivity |].
  destruct (String.eqb_spec k k0) as [-> | Hk]; cbn [get].
  - by destruct (String.eqb k' k0).
  - rewrite IH.
    destruct (String.eqb_spec k' k0) as [-> | Hk0]; [| reflexivity].
    destruct (String.eqb_spec k0 k); [congruence | reflexivity].
Qed.

Lemma get_dict_of_constant {V : Type} (fields : list string) (c : V) (k : string) :
  get (dict_of_items (map (λ field, (field, c)) fields)) k
  = if str_in k fields then Some c else None.
Proof.
  unfold dict_of_items.
  assert (∀ d, get (fold_left (λ d kv, dict_set d (fst kv) (snd kv))
                      (map (λ field, (field, c)) fields) d) k
               = if str_in k fields then Some c else get d k) as Hfold.
  { induction fields as [| f fields IH]; intros d; cbn [map fold_left];
      [reflexivity |].
    rewrite IH, get_dict_set. cbn [str_in existsb fst snd].
    fold (str_in k fields).
    destruct (str_in k fields); [by rewrite orb_true_r |].
    by rewrite orb_false_r. }
  by rewrite Hfold.
Qed.

Lemma str_in_filter (allowed fields : list string) (k : string) :
  str_in k (filter (λ field, negb (str_in field allowed)) fields)
  = str_in k fields && negb (str_in k allowed).
Proof.
  apply Bool.eq_iff_eq_true.
  rewrite andb_true_iff, !str_in_spec, list_elem_of_filter.
  destruct (str_in k allowed); simpl; naive_solver.
Qed.

(** X5. [_check_fields] passes exactly when every key of the data is
    allowed; otherwise it raises one ValidationError that names every key
    that is not allowed, each with the message, and no other key. *)
Theorem check_fields_names_offending_keys (allowed : list string)
    (data : request_data) (message : string) :
  ((∀ k, k ∈ keys data → k ∈ allowed) →
   _check_fields allowed data message = ret tt)
  ∧ (∀ bad, bad ∈ keys data → bad ∉ allowed →
     ∃ errors,
       _check_fields allowed data message = raise (ValidationError errors)
       ∧ ∀ k, get errors k
              = if offending allowed data k then Some [message] else None).
Proof.
  unfold _check_fields. cbv zeta.
  set (errors := dict_of_items
                   (map (λ field, (field, [message]))
                      (filter (λ field, negb (str_in field allowed)) (keys data)))).
  assert (∀ k, get errors k = if offending allowed data k then Some [message] else None)
    as Hget.
  { intros k. unfold errors, offending.
    by rewrite get_dict_of_constant, str_in_filter. }
  split.
  - intros Hallowed. destruct errors as [| [k v] rest]; [reflexivity |].
    exfalso. specialize (Hget k). cbn [get] in Hget. rewrite String.eqb_refl in Hget.
    unfold offending in Hget.
    destruct (str_in k (keys data)) eqn:Hin; [| discriminate Hget].
    apply str_in_spec, Hallowed, str_in_spec in Hin. rewrite Hin in Hget.
    discriminate Hget.
  - intros bad Hin Hbad. exists errors. split; [| exact Hget].
    destruct errors as [| kv rest] eqn:Herrors; [| reflexivity].
    exfalso. specialize (Hget bad). cbn [get] in Hget. unfold offending in Hget.
    apply str_in_spec in Hin. rewrite Hin in Hget.
    destruct (str_in bad allowed) eqn:Hallowed; [| discriminate Hget].
    by apply Hbad, str_in_spec.
Qed.

(** A comment may not be created with a [secret] field, nor with an
    [endorsed] one. *)
Lemma check_fields_names_offending_keys_witness :
  ∃ errors,
    _check_fields ["thread_id"; "raw_body"]
      [("thread_id", VStr "th3"); ("secret", VInt 1); ("endorsed", VBool true)]
      "This field is not initializable."
    = raise (ValidationError errors)
    ∧ get errors "secret" = Some ["This field is not initializable."]
    ∧ get errors "endorsed" = Some ["This field is not initializable."]
    ∧ get errors "thread_id" = None.
Proof.
  destruct (proj2 (check_fields_names_offending_keys ["thread_id"; "raw_body"]
                     [("thread_id", VStr "th3"); ("secret", VInt 1);
                      ("endorsed", VBool true)]
                     "This field is not initializable.") "secret")
    as (errors & Hraise & Hget).
  - apply (bool_decide_unpack (_ ∈ _)). vm_compute. exact I.
  - apply (bool_decide_unpack (_ ∉ _)). vm_compute. exact I.
  - exists errors. split; [exact Hraise |].
    repeat split; rewrite Hget; reflexivity.
Defined.

Lemma check_fields_result (allowed : list string) (data : request_data)
    (message : string) :
  (_check_fields allowed data message = ret tt
   ∧ ∀ k, k ∈ keys data → k ∈ allowed)
  ∨ ∃ errors, _check_fields allowed data message = raise (ValidationError errors).
Proof.
  unfold _check_fields. cbv zeta.
  pose proof (λ k, get_dict_of_constant
                     (filter (λ field, negb (str_in field allowed)) (keys data))
                     [message] k) as Hget.
  destruct (dict_of_items _) as [| kv rest]; [left | right; by eexists].
  split; [reflexivity |].
  intros k Hk. specialize (Hget k). rewrite str_in_filter in Hget.
  apply str_in_spec in Hk. rewrite Hk in Hget.
  apply str_in_spec. by destruct (str_in k allowed).
Qed.

Lemma is_valid_nil (errors : list (string * list string)) :
  is_valid errors = true → errors = [].
Proof. by destruct errors. Qed.

(** X6. A request to create a comment or to update a thread or a comment
    has no effect at all (no save, no signal, no call to the service, no
    tracking event) unless it is accepted: the content is retrieved for
    the requester, every field of the data is editable (initializable for
    a new comment), the serializer and the action form are valid and, for
    a new comment, the thread is open and the requester may post now. *)
Theorem effects_only_when_accepted (w : World) (request : Request) :
  (∀ thread_id update_data,
     events (update_thread w request thread_id update_data) ≠ [] →
     ∃ t ctx,
       _get_thread_and_context w request (VStr thread_id)
         (Some (<["with_responses" := VBool true]> ∅)) = ret (t, ctx)
       ∧ (∀ k, k ∈ keys update_data → k ∈ get_editable_fields w t ctx)
       ∧ ThreadSerializer_errors w ctx (Some t) update_data = []
       ∧ form_errors (ThreadActionsForm w update_data) = [])
  ∧ (∀ comment_id update_data,
       events (update_comment w request comment_id update_data) ≠ [] →
       ∃ c ctx,
         _get_comment_and_context w request comment_id = ret (c, ctx)
         ∧ (∀ k, k ∈ keys update_data → k ∈ get_editable_fields w c ctx)
         ∧ CommentSerializer_errors w ctx (Some c) update_data = []
         ∧ form_errors (CommentActionsForm w update_data) = [])
  ∧ (∀ comment_data,
       events (create_comment w request comment_data) ≠ [] →
       ∃ thread_id t ctx,
         get comment_data "thread_id" = Some thread_id
         ∧ truthy thread_id = true
         ∧ _get_thread_and_context w request thread_id None = ret (t, ctx)
         ∧ discussion_open_for_user w (ctx_course ctx) (request_user request) = true
         ∧ cc_closed t = false
         ∧ (∀ k, k ∈ keys comment_data → k ∈ get_initializable_comment_fields w ctx)
         ∧ CommentSerializer_errors w ctx None comment_data = []
         ∧ form_errors (CommentActionsForm w comment_data) = []).
Proof.
  split; [| split].
  - intros thread_id update_data Hevents. unfold update_thread in Hevents.
    destruct (get_thread_and_context_result w request (VStr thread_id)
                (Some (<["with_responses" := VBool true]> ∅)))
      as [[e He] | (t & ctx & Hthread)]; rewrite ?He, ?Hthread in Hevents;
      [done |].
    rewrite bind_ret_l in Hevents. unfold _check_editable_fields in Hevents.
    destruct (check_fields_result (get_editable_fields w t ctx) update_data
                "This field is not editable.")
      as [[Hcheck Heditable] | [errors Hcheck]]; rewrite Hcheck in Hevents; [| done].
    rewrite bind_ret_l in Hevents. cbv zeta in Hevents.
    destruct (is_valid (ThreadSerializer_errors w ctx (Some t) update_data))
      eqn:Hserializer; [| done].
    destruct (is_valid (form_errors (ThreadActionsForm w update_data)))
      eqn:Hform; [| done].
    exists t, ctx. by repeat split; try apply is_valid_nil.
  - intros comment_id update_data Hevents. unfold update_comment in Hevents.
    destruct (get_comment_and_context_result w request comment_id)
      as [[e He] | (c & ctx & Hcomment)]; rewrite ?He, ?Hcomment in Hevents;
      [done |].
    rewrite bind_ret_l in Hevents. unfold _check_editable_fields in Hevents.
    destruct (check_fields_result (get_editable_fields w c ctx) update_data
                "This field is not editable.")
      as [[Hcheck Heditable] | [errors Hcheck]]; rewrite Hcheck in Hevents; [| done].
    rewrite bind_ret_l in Hevents. cbv zeta in Hevents.
    destruct (is_valid (CommentSerializer_errors w ctx (Some c) update_data))
      eqn:Hserializer; [| done].
    destruct (is_valid (form_errors (CommentActionsForm w update_data)))
      eqn:Hform; [| done].
    exists c, ctx. by repeat split; try apply is_valid_nil.
  - intros comment_data Hevents. unfold create_comment in Hevents.
    cbv zeta in Hevents.
    destruct (get comment_data "thread_id") as [thread_id |] eqn:Hid;
      [| done].
    change (default VNone (Some thread_id)) with thread_id in Hevents.
    destruct (truthy thread_id) eqn:Htruthy; cbn [negb] in Hevents; [| done].
    destruct (get_thread_and_context_result w request thread_id None)
      as [[e He] | (t & ctx & Hthread)]; rewrite ?He, ?Hthread in Hevents;
      [done |].
    rewrite bind_ret_l in Hevents.
    destruct (discussion_open_for_user w (ctx_course ctx) (request_user request))
      eqn:Hopen; cbn [negb] in Hevents; [| done].
    destruct (cc_closed t) eqn:Hclosed; [done |].
    unfold _check_initializable_comment_fields in Hevents.
    destruct (check_fields_result (get_initializable_comment_fields w ctx)
                comment_data "This field is not initializable.")
      as [[Hcheck Hinit] | [errors Hcheck]]; rewrite Hcheck in Hevents; [| done].
    rewrite bind_ret_l in Hevents.
    destruct (is_valid (CommentSerializer_errors w ctx None comment_data))
      eqn:Hserializer; [| done].
    destruct (is_valid (form_errors (CommentActionsForm w comment_data)))
      eqn:Hform; [| done].
    exists thread_id, t, ctx. by repeat split; try apply is_valid_nil.
Qed.

(** Alice retitles her thread: the request had effects, so it was
    accepted. *)
Lemma effects_only_when_accepted_witness :
  ∃ t ctx,
    _get_thread_and_context Demo.world Demo.as_alice (VStr "th1")
      (Some (<["with_responses" := VBool true]> ∅)) = ret (t, ctx)
    ∧ (∀ k, k ∈ keys [("title", VStr "New")] →
            k ∈ get_editable_fields Demo.world t ctx)
    ∧ ThreadSerializer_errors Demo.world ctx (Some t) [("title", VStr "New")] = []
    ∧ form_errors (ThreadActionsForm Demo.world [("title", VStr "New")]) = [].
Proof.
  apply (proj1 (effects_only_when_accepted Demo.world Demo.as_alice) "th1"
           [("title", VStr "New")]).
  vm_compute. discriminate.
Defined.

(** ** Deletion *)

(** X7. Deleting a thread or a comment sends the delete to the service
    only for content that is retrieved for the requester and that the
    requester may delete; the deleted signal then follows and nothing
    else happens.  Without the permission the answer is PermissionDenied
    and nothing is sent. *)
Theorem delete_needs_permission_to_act (w : World) (request : Request) :
  (∀ thread_id t ctx,
     _get_thread_and_context w request (VStr thread_id) None = ret (t, ctx) →
     delete_thread w request thread_id
     = if can_delete w t ctx
       then ([Delete (cc_id t);
              SignalSent thread_deleted (request_user request) (cc_id t)], inr tt)
       else raise (PermissionDenied ""))
  ∧ (∀ comment_id c ctx,
       _get_comment_and_context w request comment_id = ret (c, ctx) →
       delete_comment w request comment_id
       = if can_delete w c ctx
         then ([Delete (cc_id c);
                SignalSent comment_deleted (request_user request) (cc_id c)], inr tt)
         else raise (PermissionDenied ""))
  ∧ (∀ thread_id,
       events (delete_thread w request thread_id) ≠ [] →
       ∃ t ctx,
         _get_thread_and_context w request (VStr thread_id) None = ret (t, ctx)
         ∧ can_delete w t ctx = true)
  ∧ (∀ comment_id,
       events (delete_comment w request comment_id) ≠ [] →
       ∃ c ctx,
         _get_comment_and_context w request comment_id = ret (c, ctx)
         ∧ can_delete w c ctx = true).
Proof.
  split; [| split; [| split]].
  - intros thread_id t ctx Hthread. unfold delete_thread.
    rewrite Hthread, bind_ret_l. by destruct (can_delete w t ctx).
  - intros comment_id c ctx Hcomment. unfold delete_comment.
    rewrite Hcomment, bind_ret_l. by destruct (can_delete w c ctx).
  - intros thread_id Hevents. unfold delete_thread in Hevents.
    destruct (get_thread_and_context_result w request (VStr thread_id) None)
      as [[e He] | (t & ctx & Hthread)]; rewrite ?He, ?Hthread in Hevents;
      [done |].
    rewrite bind_ret_l in Hevents.
    destruct (can_delete w t ctx) eqn:Hcan; [eauto | done].
  - intros comment_id Hevents. unfold delete_comment in Hevents.
    destruct (get_comment_and_context_result w request comment_id)
      as [[e He] | (c & ctx & Hcomment)]; rewrite ?He, ?Hcomment in Hevents;
      [done |].
    rewrite bind_ret_l in Hevents.
    destruct (can_delete w c ctx) eqn:Hcan; [eauto | done].
Qed.

(** Carol may not delete Alice's thread; Bob, the moderator, may. *)
Lemma delete_needs_permission_to_act_witness :
  delete_thread Demo.world Demo.as_carol "th3" = raise (PermissionDenied "")
  ∧ delete_thread Demo.world Demo.as_bob "th3"
    = ([Delete "th3"; SignalSent thread_deleted Demo.bob "th3"], inr tt).
Proof.
  split.
  - apply (proj1 (delete_needs_permission_to_act Demo.world Demo.as_carol) "th3"
             Demo.th3
             (get_context Demo.world Demo.demo_course Demo.as_carol (Some Demo.th3))).
    reflexivity.
  - apply (proj1 (delete_needs_permission_to_act Demo.world Demo.as_bob) "th3"
             Demo.th3
             (get_context Demo.world Demo.demo_course Demo.as_bob (Some Demo.th3))).
    reflexivity.
Defined.

(** ** Extra actions *)

(** X8. [_do_extra_actions] acts on change only: when every field of the
    form that was sent already has, in the payload, the value the form
    gives it, nothing is sent and the payload is returned as it is; in
    particular when no action field was sent. *)
Theorem unchanged_actions_do_nothing (a : api_dict) (cc : cc_content)
    (request_fields : list string) (form : ActionsForm) (ctx : context)
    (request : Request) :
  (∀ field v, (field, v) ∈ cleaned_data form → field ∈ request_fields →
              ∃ current, a !! field = Some current ∧ Py.eqb v current = true) →
  _do_extra_actions a cc request_fields form ctx request = ret a.
Proof.
  unfold _do_extra_actions. induction (cleaned_data form) as [| [field v] items IH];
    intros Hsame; cbn [for_each]; [reflexivity |].
  assert (extra_action cc request_fields ctx request a (field, v) = ret a) as ->.
  { unfold extra_action.
    destruct (str_in field request_fields) eqn:Hsent; [| reflexivity].
    destruct (Hsame field v) as (current & Hcurrent & Heq);
      [by left | by apply str_in_spec |].
    unfold getitem. by rewrite Hcurrent, bind_ret_l, Heq. }
  rewrite bind_ret_l. apply IH. intros field' v' Hin. apply Hsame. by right.
Qed.

(** Alice sends again what her payload says: not voted, not following. *)
Lemma unchanged_actions_do_nothing_witness :
  _do_extra_actions (Demo.thread_payload Demo.th1) Demo.th1 ["voted"; "following"]
    (Demo.actions_form Demo.thread_action_fields
       [("voted", VBool false); ("following", VBool false)])
    (get_context Demo.world Demo.demo_course Demo.as_alice (Some Demo.th1))
    Demo.as_alice
  = ret (Demo.thread_payload Demo.th1).
Proof.
  apply unchanged_actions_do_nothing.
  intros field v Hin Hsent. exists (VBool false).
  vm_compute in Hin. vm_compute in Hsent.
  repeat (apply elem_of_cons in Hin as [[= -> ->] | Hin]);
    try (by apply elem_of_nil in Hin);
    repeat (apply elem_of_cons in Hsent as [Hsent | Hsent]);
    try (by apply elem_of_nil in Hsent); try discriminate Hsent;
    split; reflexivity.
Defined.

Section OnlyField.

Variables (cc : cc_content) (ctx : context) (request : Request) (field : string).

Lemma extra_action_unsent (a : api_dict) (k : string) (v : pyval) :
  k ≠ field → extra_action cc [field] ctx request a (k, v) = ret a.
Proof.
  intros Hk. unfold extra_action. cbn [str_in existsb].
  apply String.eqb_neq in Hk. by rewrite Hk.
Qed.

Lemma for_each_unsent (a : api_dict) (items : list (string * pyval)) :
  field ∉ keys items → for_each (extra_action cc [field] ctx request) a items = ret a.
Proof.
  induction items as [| [k v] items IH]; intros Hnot; cbn [for_each];
    [reflexivity |].
  rewrite extra_action_unsent, bind_ret_l.
  - apply IH. intros Hin. apply Hnot. by right.
  - intros ->. apply Hnot. by left.
Qed.

Lemma for_each_only (a : api_dict) (items : list (string * pyval)) (v : pyval) :
  NoDup (keys items) →
  get items field = Some v →
  for_each (extra_action cc [field] ctx request) a items
  = extra_action cc [field] ctx request a (field, v).
Proof.
  induction items as [| [k v'] items IH]; intros Hnodup Hget; [discriminate |].
  cbn [get] in Hget. cbn [for_each].
  apply NoDup_cons in Hnodup as [Hfresh Hnodup].
  destruct (String.eqb_spec field k) as [<- | Hk].
  - injection Hget as ->.
    rewrite <- (bind_ret_r (extra_action cc [field] ctx request a (field, v))) at 2.
    apply bind_ext. intros a'. by apply for_each_unsent.
  - rewrite extra_action_unsent by (intros ->; by apply Hk).
    rewrite bind_ret_l. by apply IH.
Qed.

End OnlyField.

(** X9. Following, abuse-flagged and pinned are toggles.  When one of
    them is the field sent, with a boolean that differs from the
    payload's, [_do_extra_actions] makes the one matching call to the
    service (follow or unfollow, flag or unflag, pin or unpin) and sets
    that key of the payload; sending the opposite value next makes the
    opposite call and gives the first payload back. *)
Theorem toggle_action_round_trip (a : api_dict) (cc : cc_content) (ctx : context)
    (request : Request) (field : string) (b : bool) (form form_back : ActionsForm) :
  field ∈ ["following"; "abuse_flagged"; "pinned"] →
  a !! field = Some (VBool (negb b)) →
  NoDup (keys (cleaned_data form)) →
  get (cleaned_data form) field = Some (VBool b) →
  NoDup (keys (cleaned_data form_back)) →
  get (cleaned_data form_back) field = Some (VBool (negb b)) →
  _do_extra_actions a cc [field] form ctx request
  = ([toggle_call field b (cc_requester ctx) cc], inr (<[field := VBool b]> a))
  ∧ _do_extra_actions (<[field := VBool b]> a) cc [field] form_back ctx request
    = ([toggle_call field (negb b) (cc_requester ctx) cc], inr a).
Proof.
  intros Hfield Hcurrent Hnodup Hget Hnodup_back Hget_back.
  unfold _do_extra_actions.
  rewrite (for_each_only cc ctx request field a _ _ Hnodup Hget).
  rewrite (for_each_only cc ctx request field _ _ _ Hnodup_back Hget_back).
  unfold extra_action. cbn [str_in existsb]. rewrite String.eqb_refl.
  cbn [orb]. unfold getitem.
  rewrite Hcurrent, lookup_insert_eq, !bind_ret_l.
  assert (<[field := VBool (negb b)]> (<[field := VBool b]> a) = a) as Hback.
  { rewrite insert_insert_eq. by apply insert_id. }
  rewrite Hback.
  repeat (apply elem_of_cons in Hfield as [-> | Hfield]);
    [| | | by apply elem_of_nil in Hfield]; destruct b; split; reflexivity.
Qed.

(** Alice follows thread [th1], then stops following it. *)
Lemma toggle_action_round_trip_witness :
  let ctx := get_context Demo.world Demo.demo_course Demo.as_alice (Some Demo.th1) in
  let payload := Demo.thread_payload Demo.th1 in
  _do_extra_actions payload Demo.th1 ["following"]
    (Demo.actions_form Demo.thread_action_fields [("following", VBool true)])
    ctx Demo.as_alice
  = ([Follow Demo.alice "th1"], inr (<["following" := VBool true]> payload))
  ∧ _do_extra_actions (<["following" := VBool true]> payload) Demo.th1 ["following"]
      (Demo.actions_form Demo.thread_action_fields [("following", VBool false)])
      ctx Demo.as_alice
    = ([Unfollow Demo.alice "th1"], inr payload).
Proof.
  intros ctx payload.
  apply (toggle_action_round_trip payload Demo.th1 ctx Demo.as_alice "following" true).
  - apply (bool_decide_unpack (_ ∈ _)). vm_compute. exact I.
  - reflexivity.
  - apply (bool_decide_unpack (NoDup _)). vm_compute. exact I.
  - reflexivity.
  - apply (bool_decide_unpack (NoDup _)). vm_compute. exact I.
  - reflexivity.
Defined.

Lemma handle_voted_field_no_read_call (v : pyval) (cc cc' : cc_content)
    (a : api_dict) (request : Request) (ctx : context) :
  emits_only (read_call_only_if_unread cc') (_handle_voted_field v cc a request ctx).
Proof.
  unfold _handle_voted_field.
  apply emits_only_bind; [by apply emits_only_emit | intros []].
  apply emits_only_bind.
  - destruct (truthy v);
      (apply emits_only_bind;
       [by apply emits_only_emit | intros []; apply add_to_vote_count_silent]).
  - intros a'. apply emits_only_bind; [by apply emits_only_emit | intros []].
    apply emits_only_ret.
Qed.

Lemma extra_action_read_call (cc : cc_content) (request_fields : list string)
    (ctx : context) (request : Request) (a : api_dict) (item : string * pyval) :
  emits_only (read_call_only_if_unread cc)
    (extra_action cc request_fields ctx request a item).
Proof.
  destruct item as [field v]. unfold extra_action.
  destruct (str_in field request_fields); [| apply emits_only_ret].
  unfold getitem. destruct (a !! field) as [current |]; [| apply emits_only_raise].
  rewrite bind_ret_l.
  destruct (negb _); [| apply emits_only_ret].
  destruct (String.eqb field "following").
  { apply emits_only_bind; [| intros []; apply emits_only_ret].
    unfold _handle_following_field. destruct (truthy v); by apply emits_only_emit. }
  destruct (String.eqb field "abuse_flagged").
  { apply emits_only_bind; [| intros []; apply emits_only_ret].
    unfold _handle_abuse_flagged_field. destruct (truthy v); by apply emits_only_emit. }
  destruct (String.eqb field "voted").
  { apply handle_voted_field_no_read_call. }
  destruct (String.eqb field "read").
  { unfold _handle_read_field.
    destruct (truthy v); cbn [andb]; [| apply emits_only_ret].
    destruct (cc_read cc) eqn:Hread; cbn [negb]; [apply emits_only_ret |].
    apply emits_only_bind; [by apply emits_only_emit | intros []].
    apply emits_only_ret. }
  destruct (String.eqb field "pinned"); [| apply emits_only_raise].
  apply emits_only_bind; [| intros []; apply emits_only_ret].
  unfold _handle_pinned_field. destruct (truthy v); by apply emits_only_emit.
Qed.

(** X10. The read action only ever marks as read.  Whatever is sent,
    [_do_extra_actions] calls the service to mark content as read only
    when the content is not read yet; and when [read] is the field sent
    with a false value that differs from the payload's, the payload takes
    the value and no call is made at all. *)
Theorem read_action_only_marks_read (a : api_dict) (cc : cc_content) (ctx : context)
    (request : Request) :
  (∀ request_fields form,
     emits_only (read_call_only_if_unread cc)
       (_do_extra_actions a cc request_fields form ctx request))
  ∧ (∀ form v current,
       NoDup (keys (cleaned_data form)) →
       get (cleaned_data form) "read" = Some v →
       truthy v = false →
       a !! "read" = Some current →
       Py.eqb v current = false →
       _do_extra_actions a cc ["read"] form ctx request
       = ret (<["read" := v]> a)).
Proof.
  split.
  - intros request_fields form. unfold _do_extra_actions.
    apply emits_only_for_each. intros s x. apply extra_action_read_call.
  - intros form v current Hnodup Hget Hfalsy Hcurrent Hdiffers.
    unfold _do_extra_actions.
    rewrite (for_each_only cc ctx request "read" a _ _ Hnodup Hget).
    unfold extra_action, getitem. cbn [str_in existsb String.eqb Ascii.eqb].
    rewrite Hcurrent, bind_ret_l, Hdiffers. cbn [negb].
    unfold _handle_read_field. by rewrite Hfalsy.
Qed.

(** Alice asks to mark as unread the thread [th3], which she has read:
    nothing is sent. *)
Lemma read_action_only_marks_read_witness :
  _do_extra_actions (Demo.thread_payload Demo.th3) Demo.th3 ["read"]
    (Demo.actions_form Demo.thread_action_fields [("read", VBool false)])
    (get_context Demo.world Demo.demo_course Demo.as_alice (Some Demo.th3))
    Demo.as_alice
  = ret (<["read" := VBool false]> (Demo.thread_payload Demo.th3)).
Proof.
  apply (proj2 (read_action_only_marks_read (Demo.thread_payload Demo.th3) Demo.th3
                  (get_context Demo.world Demo.demo_course Demo.as_alice
                     (Some Demo.th3))
                  Demo.as_alice)
           (Demo.actions_form Demo.thread_action_fields [("read", VBool false)])
           (VBool false) (VBool true)).
  - apply (bool_decide_unpack (NoDup _)). vm_compute. exact I.
  - reflexivity.
  - reflexivity.
  - reflexivity.
  - reflexivity.
Defined.

(** ** Serialization *)

Lemma for_each_ext {A S : Type} (body body' : S → A → M S) (s : S) (l : list A) :
  (∀ s x, body s x = body' s x) → for_each body s l = for_each body' s l.
Proof.
  intros Hbody. revert s. induction l as [| x l IH]; intros s; cbn [for_each];
    [reflexivity |].
  rewrite Hbody. apply bind_ext. exact IH.
Qed.

Lemma for_each_serialize_plain (w : World) (ctx : context) (kind : DiscussionEntity)
    (entities : list cc_content) (results : list api_dict) (usernames : list pyval) :
  for_each
    (λ (acc : list api_dict * list pyval) entity,
       ret (acc.1 ++ [serialized w kind ctx entity], acc.2))
    (results, usernames) entities
  = ret (results ++ map (serialized w kind ctx) entities, usernames).
Proof.
  revert results. induction entities as [| entity entities IH]; intros results;
    cbn [for_each map].
  - by rewrite app_nil_r.
  - rewrite bind_ret_l. cbn [fst snd]. rewrite IH. by rewrite <- app_assoc.
Qed.

Lemma serialize_plain (w : World) (request : Request)
    (requested_fields : option (list string)) (ctx : context)
    (entities : list cc_content) (kind : DiscussionEntity) :
  _include_profile_image requested_fields = false →
  _serialize_discussion_entities w request ctx entities requested_fields kind
  = ret (map (serialized w kind ctx) entities).
Proof.
  intros Hplain. unfold _serialize_discussion_entities. cbv zeta.
  rewrite Hplain.
  rewrite (for_each_ext _
             (λ acc entity, ret (acc.1 ++ [serialized w kind ctx entity], acc.2)))
    by (by intros [results usernames] entity).
  rewrite (for_each_serialize_plain w ctx kind entities [] []), bind_ret_l.
  reflexivity.
Qed.

(** X11. When the profile image is not among the requested fields,
    serialization cannot fail and is the serializer applied to each
    entity, in order: a thread detail is the serialized thread, and an
    accepted thread listing whose page the service confirms carries the
    serialized threads of the service's answer with the service's page,
    page count, thread count and corrected text. *)
Theorem serialization_without_profile_image (w : World) (request : Request)
    (requested_fields : option (list string)) :
  _include_profile_image requested_fields = false →
  (∀ ctx entities kind,
     _serialize_discussion_entities w request ctx entities requested_fields kind
     = ret (map (serialized w kind ctx) entities))
  ∧ (∀ thread_id t ctx,
       _get_thread_and_context w request (VStr thread_id)
         (Some (<["user_id" := VStr (str_of_int (user_pk (request_user request)))]>
               (<["with_responses" := VBool true]> ∅))) = ret (t, ctx) →
       get_thread w request thread_id requested_fields
       = ret (ThreadSerializer_data w ctx t))
  ∧ (∀ course_key page page_size topic_id_list text_search following author
       thread_type flagged view order_by order_direction count_flagged course
       author_id,
       thread_list_accepted w request course_key topic_id_list text_search
         following author order_by order_direction count_flagged course author_id →
       let found :=
         thread_list_found w request course page page_size topic_id_list
           text_search following author_id thread_type flagged view order_by
           count_flagged in
       pr_page found = page →
       get_thread_list w request course_key page page_size topic_id_list
         text_search following author thread_type flagged view order_by
         order_direction requested_fields count_flagged
       = ret (get_paginated_response request page (pr_num_pages found)
                (pr_thread_count found)
                (ThreadListData
                   (map (ThreadSerializer_data w (get_context w course request None))
                      (pr_collection found))
                   (pr_corrected_text found)))).
Proof.
  intros Hplain.
  assert (∀ ctx entities kind,
            _serialize_discussion_entities w request ctx entities requested_fields kind
            = ret (map (serialized w kind ctx) entities)) as Hserialize.
  { intros ctx entities kind. by apply serialize_plain. }
  split; [exact Hserialize | split].
  - intros thread_id t ctx Hthread. unfold get_thread.
    rewrite Hthread, bind_ret_l, Hserialize, bind_ret_l. reflexivity.
  - intros course_key page page_size topic_id_list text_search following author
      thread_type flagged view order_by order_direction count_flagged course
      author_id Haccepted found Hpage.
    rewrite (get_thread_list_accepted w request course_key page page_size
               topic_id_list text_search following author thread_type flagged view
               order_by order_direction requested_fields count_flagged course
               author_id Haccepted).
    fold found. rewrite Hpage, Z.eqb_refl. cbn [negb].
    rewrite Hserialize, bind_ret_l. reflexivity.
Qed.

(** Alice reads thread [th1] and lists the threads of the course. *)
Lemma serialization_without_profile_image_witness :
  get_thread Demo.world Demo.as_alice "th1" None = ret (Demo.thread_payload Demo.th1)
  ∧ get_thread_list Demo.world Demo.as_alice Demo.demo_key 1 10 None None None None
      None None None "last_activity_at" "desc" None None
    = ret (get_paginated_response Demo.as_alice 1 1 1
             (ThreadListData [Demo.thread_payload Demo.th3] None)).
Proof.
  pose proof (serialization_without_profile_image Demo.world Demo.as_alice None
                eq_refl) as (_ & Hdetail & Hlist).
  split.
  - apply (Hdetail "th1" Demo.th1
             (get_context Demo.world Demo.demo_course Demo.as_alice (Some Demo.th1))).
    reflexivity.
  - apply (Hlist Demo.demo_key 1 10 None None None None None None None
             "last_activity_at" "desc" None Demo.demo_course None).
    + repeat split; try reflexivity; [vm_compute; discriminate | discriminate].
    + reflexivity.
Defined.

Lemma append_nil_r (s : string) : (s ++ "")%string = s.
Proof.
  induction s as [| c s IH]; [reflexivity |].
  change (String c s ++ "")%string with (String c (s ++ "")%string). by rewrite IH.
Qed.

Lemma append_snoc (cur s : string) (c : ascii) :
  ((cur ++ String c "") ++ s)%string = (cur ++ String c s)%string.
Proof.
  induction cur as [| c' cur IH]; [reflexivity |].
  change ((String c' cur ++ String c "") ++ s)%string
    with (String c' ((cur ++ String c "") ++ s)%string).
  by rewrite IH.
Qed.

Lemma split_comma_aux_plain (s rest cur : string) :
  no_comma s = true →
  split_comma_aux (s ++ String ","%char rest) cur
  = (cur ++ s)%string :: split_comma_aux rest "".
Proof.
  revert cur. induction s as [| c s IH]; intros cur Hplain.
  - change ("" ++ String ","%char rest)%string with (String ","%char rest).
    cbn [split_comma_aux]. rewrite Ascii.eqb_refl. by rewrite append_nil_r.
  - change (String c s ++ String ","%char rest)%string
      with (String c (s ++ String ","%char rest)%string).
    cbn [split_comma_aux no_comma] in *.
    apply andb_true_iff in Hplain as [Hc Hs].
    apply negb_true_iff in Hc. rewrite Hc, IH by done.
    by rewrite append_snoc.
Qed.

Lemma split_comma_aux_last (s cur : string) :
  no_comma s = true → split_comma_aux s cur = [(cur ++ s)%string].
Proof.
  revert cur. induction s as [| c s IH]; intros cur Hplain;
    cbn [split_comma_aux no_comma] in *.
  - by rewrite append_nil_r.
  - apply andb_true_iff in Hplain as [Hc Hs].
    apply negb_true_iff in Hc. rewrite Hc, IH by done.
    by rewrite append_snoc.
Qed.

Lemma split_join (names : list string) :
  names ≠ [] →
  Forall (λ name, no_comma name = true) names →
  split_comma (join "," names) = names.
Proof.
  unfold split_comma. induction names as [| name names IH]; [done |].
  intros _ Hplain. apply Forall_cons in Hplain as [Hname Hnames].
  destruct names as [| name' names].
  - cbn [join]. by rewrite split_comma_aux_last.
  - change (join "," (name :: name' :: names))
      with (name ++ String ","%char (join "," (name' :: names)))%string.
    rewrite split_comma_aux_plain by done.
    change ("" ++ name)%string with name.
    by rewrite IH.
Qed.

Lemma join_nonempty (names : list string) (name : string) :
  name ≠ "" → join "," (name :: names) ≠ "".
Proof.
  intros Hname. destruct name as [| c name]; [done |].
  destruct names; cbn; discriminate.
Qed.

(** X12. The usernames collected from a batch reach the account API as
    they are: joined with commas and split again, a list of usernames
    that are not empty and have no comma is the list the profiles are
    asked for, and an empty list asks for nobody. *)
Theorem usernames_survive_join_and_split (w : World) (request : Request)
    (names : list string) :
  Forall (λ name, plain_username name = true) names →
  _get_user_profile_dict w request (join "," names) = profiles_of w request names.
Proof.
  intros Hplain. unfold _get_user_profile_dict, profiles_of. cbv zeta.
  destruct names as [| name names]; [reflexivity |].
  assert (Forall (λ name, no_comma name = true) (name :: names)) as Hno_comma.
  { eapply Forall_impl; [exact Hplain |]. intros n Hn.
    by apply andb_true_iff in Hn as [_ ?]. }
  apply Forall_cons in Hplain as [Hname _].
  apply andb_true_iff in Hname as [Hname _]. apply negb_true_iff in Hname.
  apply String.eqb_neq in Hname.
  pose proof (join_nonempty names name Hname) as Hjoined.
  apply String.eqb_neq in Hjoined. rewrite Hjoined. cbn [negb].
  by rewrite split_join.
Qed.

(** The profiles of Alice and Carol. *)
Lemma usernames_survive_join_and_split_witness :
  _get_user_profile_dict Demo.world Demo.as_alice (join "," ["alice"; "carol"])
  = profiles_of Demo.world Demo.as_alice ["alice"; "carol"].
Proof.
  apply usernames_survive_join_and_split.
  apply (bool_decide_unpack (Forall _ _)). vm_compute. exact I.
Defined.

Lemma profile_dict_single (w : World) (request : Request) (author : string) :
  plain_username author = true →
  _get_user_profile_dict w request (join "," [author])
  = profiles_of w request [author].
Proof.
  intros Hplain. apply andb_true_iff in Hplain as [Hname Hno_comma].
  apply negb_true_iff in Hname.
  unfold _get_user_profile_dict, profiles_of. cbv zeta. cbn [join].
  rewrite Hname. cbn [negb]. unfold split_comma.
  by rewrite split_comma_aux_last.
Qed.

(** X13. A thread detail asked with the profile image.  For a serialized
    thread without an endorsement, whose author is a plain username: when
    the account API returns the author's profile, the payload is the
    serialized thread with, under [users], the author's profile image and
    nobody else; when it does not return it, the call ends in a KeyError
    on the author's name.  For an anonymous thread (author None) the
    [users] of the payload are empty. *)
Theorem thread_detail_with_profile_image (w : World) (request : Request)
    (thread_id : string) (requested_fields : option (list string))
    (t : cc_content) (ctx : context) :
  _include_profile_image requested_fields = true →
  _get_thread_and_context w request (VStr thread_id)
    (Some (<["user_id" := VStr (str_of_int (user_pk (request_user request)))]>
          (<["with_responses" := VBool true]> ∅))) = ret (t, ctx) →
  let payload := ThreadSerializer_data w ctx t in
  payload !! "endorsed" = None →
  (∀ author,
     payload !! "author" = Some (VStr author) →
     plain_username author = true →
     get_thread w request thread_id requested_fields
     = match get (profiles_of w request [author]) author with
       | Some profile =>
           ret (<["users" := VUsers {[author := profile_image profile]}]> payload)
       | None => raise (KeyError author)
       end)
  ∧ (payload !! "author" = Some VNone →
     get_thread w request thread_id requested_fields
     = ret (<["users" := VUsers ∅]> payload)).
Proof.
  intros Hinclude Hthread payload Hendorsed.
  unfold get_thread. rewrite Hthread, bind_ret_l.
  unfold _serialize_discussion_entities. cbv zeta. rewrite Hinclude.
  cbn [for_each]. fold payload.
  unfold collect_usernames, getitem. cbv zeta. rewrite Hendorsed.
  split.
  - intros author Hauthor Hplain. rewrite Hauthor, ?bind_ret_l.
    pose proof Hplain as Hnonempty.
    apply andb_true_iff in Hnonempty as [Hnonempty _].
    cbn [truthy]. rewrite Hnonempty. cbn [andb not_in_usernames existsb negb app].
    rewrite ?bind_ret_l. unfold _add_additional_response_fields.
    cbn [join_usernames]. rewrite ?bind_ret_l.
    rewrite (profile_dict_single w request author Hplain).
    cbn [mapM]. unfold _get_users, getitem. rewrite Hauthor, ?bind_ret_l.
    cbn [truthy]. rewrite Hnonempty. unfold profile_of.
    destruct (get (profiles_of w request [author]) author) as [profile |];
      reflexivity.
  - intros Hauthor. rewrite Hauthor, ?bind_ret_l.
    cbn [truthy andb app]. rewrite ?bind_ret_l.
    unfold _add_additional_response_fields. cbn [join_usernames join].
    rewrite ?bind_ret_l. cbn [mapM]. unfold _get_users, getitem.
    rewrite Hauthor, ?bind_ret_l. reflexivity.
Qed.

(** Alice reads her thread [th1] with the profile images. *)
Lemma thread_detail_with_profile_image_witness :
  get_thread Demo.world Demo.as_alice "th1" (Some ["profile_image"])
  = ret (<["users" := VUsers {["alice" := "/images/alice"]}]>
           (Demo.thread_payload Demo.th1)).
Proof.
  apply (proj1 (thread_detail_with_profile_image Demo.world Demo.as_alice "th1"
                  (Some ["profile_image"]) Demo.th1
                  (get_context Demo.world Demo.demo_course Demo.as_alice
                     (Some Demo.th1))
                  eq_refl eq_refl eq_refl) "alice");
    reflexivity.
Defined.

(** ** Pages in range *)

Lemma slice_in_range {A : Type} (l : list A) (start size : Z) :
  0 ≤ start → 0 < size →
  slice l start (start + size) = take (Z.to_nat size) (drop (Z.to_nat start) l).
Proof.
  intros Hstart Hsize. unfold slice, clamp.
  assert ((start <? 0) = false) as -> by lia.
  assert ((start + size <? 0) = false) as -> by lia.
  destruct (Z.le_gt_cases (Z.of_nat (length l)) start) as [Hbeyond | Hwithin].
  - rewrite (Z.min_r start) by lia.
    rewrite Nat2Z.id, drop_all, (drop_ge l (Z.to_nat start)) by lia.
    by rewrite !take_nil.
  - rewrite (Z.min_l start) by lia.
    destruct (Z.le_gt_cases (start + size) (Z.of_nat (length l))) as [Hfull | Hlast].
    + rewrite Z.min_l by lia. f_equal. lia.
    + rewrite Z.min_r by lia.
      rewrite !take_ge; [reflexivity | |]; rewrite length_drop; lia.
Qed.

Lemma num_pages_of_positive (total page_size : Z) :
  0 < page_size → total ≠ 0 →
  num_pages_of total page_size = ret (ceil_div total page_size).
Proof.
  intros Hsize Htotal.
  pose proof (num_pages_of_inr total page_size) as Hinr.
  unfold num_pages_of in *.
  assert ((total =? 0) = false) as Hnonzero by lia. rewrite Hnonzero in *.
  assert ((page_size =? 0) = false) as Hpos by lia. rewrite Hpos in *.
  cbn [negb] in *. unfold ret. do 2 f_equal.
  by apply (Hinr _ Hsize).
Qed.

Lemma page_of_length {A : Type} (l : list A) (page page_size : Z) :
  0 < page_size → 1 ≤ page → page_size * (page - 1) < Z.of_nat (length l) →
  (0 < length (page_of l page page_size) ≤ Z.to_nat page_size)%nat.
Proof.
  intros Hsize Hpage Hrange.
  assert (0 ≤ page_size * (page - 1)) as Hskip by nia.
  unfold page_of. rewrite length_take, length_drop. lia.
Qed.

Lemma response_comments_page (w : World) (request : Request)
    (comment_id : string) (page page_size : Z)
    (requested_fields : option (list string)) (c t : cc_content) (ctx : context) :
  _include_profile_image requested_fields = false →
  Comment_retrieve w comment_id = Some c →
  _get_thread_and_context w request (VStr (cc_thread_id c))
    (Some response_comments_kwargs) = ret (t, ctx) →
  let comments := find_response_comments (thread_responses t) comment_id in
  let total := Z.of_nat (length comments) in
  0 < page_size → 1 ≤ page → page_size * (page - 1) < total →
  get_response_comments w request comment_id page page_size requested_fields
  = ret (get_paginated_response request page (ceil_div total page_size) total
           (CommentListData
              (map (CommentSerializer_data w ctx) (page_of comments page page_size)))).
Proof.
  intros Hplain Hcomment Hthread comments total Hsize Hpage Hrange.
  assert (0 ≤ page_size * (page - 1)) as Hskip by nia.
  pose proof (page_of_length comments page page_size Hsize Hpage Hrange) as Hlength.
  unfold get_response_comments. rewrite Hcomment, Hthread, bind_ret_l. cbv zeta.
  fold comments. rewrite slice_in_range by lia. fold (page_of comments page page_size).
  destruct (page_of comments page page_size) as [| first rest] eqn:Hpage_of;
    [simpl in Hlength; lia |].
  cbn [andb].
  rewrite (serialize_plain w request requested_fields ctx _ comment Hplain),
    bind_ret_l.
  fold total.
  rewrite num_pages_of_positive by lia. by rewrite bind_ret_l.
Qed.

(** X14. The comments of a response are served page by page.  For a
    positive page size and a page whose first comment exists (page
    [page], from 1, with [page_size * (page - 1)] less than the number of
    comments), [get_response_comments] without profile images returns,
    serialized, the comments from that one up to [page_size] of them: at
    least one and at most [page_size]; the count is the number of
    comments and the number of pages the ceiling of the count over the
    page size. *)
Theorem response_comments_page_in_range (w : World) (request : Request)
    (comment_id : string) (page page_size : Z)
    (requested_fields : option (list string)) (c t : cc_content) (ctx : context) :
  _include_profile_image requested_fields = false →
  Comment_retrieve w comment_id = Some c →
  _get_thread_and_context w request (VStr (cc_thread_id c))
    (Some response_comments_kwargs) = ret (t, ctx) →
  let comments := find_response_comments (thread_responses t) comment_id in
  let total := Z.of_nat (length comments) in
  0 < page_size → 1 ≤ page → page_size * (page - 1) < total →
  get_response_comments w request comment_id page page_size requested_fields
  = ret (get_paginated_response request page (ceil_div total page_size) total
           (CommentListData
              (map (CommentSerializer_data w ctx) (page_of comments page page_size))))
  ∧ (0 < length (page_of comments page page_size) ≤ Z.to_nat page_size)%nat.
Proof.
  intros Hplain Hcomment Hthread comments total Hsize Hpage Hrange.
  split.
  - by apply (response_comments_page w request comment_id page page_size
                requested_fields c t ctx).
  - by apply page_of_length.
Qed.

(** The two comments of response [c1], one per page: the second page. *)
Lemma response_comments_page_in_range_witness :
  get_response_comments Demo.world Demo.as_alice "c1" 2 1 None
  = ret (get_paginated_response Demo.as_alice 2 2 2
           (CommentListData
              [Demo.comment_payload (Demo.a_comment "c3" "th1" "1" [])])).
Proof.
  apply (response_comments_page_in_range Demo.world Demo.as_alice "c1" 2 1 None
           (Demo.a_comment "c1" "th1" "1"
              [Demo.a_comment "c2" "th1" "3" []; Demo.a_comment "c3" "th1" "1" []])
           Demo.th1
           (get_context Demo.world Demo.demo_course Demo.as_alice (Some Demo.th1)));
    try reflexivity; lia.
Defined.

(** ** Paging through everything *)

Lemma page_of_chunk {A : Type} (l : list A) (page_size : Z) (i : nat) :
  0 < page_size →
  page_of l (Z.of_nat i + 1) page_size
  = take (Z.to_nat page_size) (drop (Z.to_nat page_size * i) l).
Proof.
  intros Hsize. unfold page_of. do 2 f_equal.
  replace (Z.of_nat i + 1 - 1) with (Z.of_nat i) by lia.
  rewrite Z2Nat.inj_mul, Nat2Z.id by lia. reflexivity.
Qed.

Lemma concat_chunks {A : Type} (l : list A) (k m : nat) :
  concat (map (λ i : nat, take k (drop (k * i) l)) (seq 0 m)) = take (k * m) l.
Proof.
  induction m as [| m IH].
  - by rewrite Nat.mul_0_r.
  - rewrite seq_S, map_app, concat_app, IH. cbn [map concat Nat.add].
    rewrite app_nil_r, take_take_drop. f_equal. lia.
Qed.

Lemma concat_pages_of {A : Type} (l : list A) (page_size : Z) :
  0 < page_size → concat (pages_of l page_size) = l.
Proof.
  intros Hsize. unfold pages_of.
  rewrite (map_ext _ (λ i : nat, take (Z.to_nat page_size)
                                   (drop (Z.to_nat page_size * i) l)))
    by (intros i; by apply page_of_chunk).
  rewrite concat_chunks. apply take_ge.
  pose proof (ceil_div_spec (Z.of_nat (length l)) page_size Hsize) as [_ Hceil].
  nia.
Qed.

Lemma pages_of_lookup {A : Type} (l : list A) (page_size : Z) (i : nat)
    (items : list A) :
  0 < page_size →
  pages_of l page_size !! i = Some items →
  items = page_of l (Z.of_nat i + 1) page_size
  ∧ page_size * Z.of_nat i < Z.of_nat (length l).
Proof.
  intros Hsize Hlookup. unfold pages_of in Hlookup.
  apply list_lookup_fmap_Some in Hlookup as (j & Hitems & Hj).
  apply lookup_seq in Hj as [-> Hj]. cbn [Nat.add] in Hitems.
  split; [done |].
  pose proof (ceil_div_spec (Z.of_nat (length l)) page_size Hsize) as [Hceil _].
  nia.
Qed.

(** X15. Paging through the comments of a response loses nothing: for a
    positive page size, the pages [get_response_comments] serves without
    profile images, from page 1 to the last page it counts, are not
    empty and hold, one after the other, every comment of the response
    once, in order. *)
Theorem response_comment_pages_cover (w : World) (request : Request)
    (comment_id : string) (page_size : Z)
    (requested_fields : option (list string)) (c t : cc_content) (ctx : context) :
  _include_profile_image requested_fields = false →
  Comment_retrieve w comment_id = Some c →
  _get_thread_and_context w request (VStr (cc_thread_id c))
    (Some response_comments_kwargs) = ret (t, ctx) →
  0 < page_size →
  let comments := find_response_comments (thread_responses t) comment_id in
  let total := Z.of_nat (length comments) in
  Z.of_nat (length (pages_of comments page_size)) = ceil_div total page_size
  ∧ concat (pages_of comments page_size) = comments
  ∧ ∀ (i : nat) items,
      pages_of comments page_size !! i = Some items →
      items ≠ []
      ∧ get_response_comments w request comment_id (Z.of_nat i + 1) page_size
          requested_fields
        = ret (get_paginated_response request (Z.of_nat i + 1)
                 (ceil_div total page_size) total
                 (CommentListData (map (CommentSerializer_data w ctx) items))).
Proof.
  intros Hplain Hcomment Hthread Hsize comments total.
  split; [| split].
  - unfold pages_of. rewrite length_map, length_seq.
    subst total.
    pose proof (ceil_div_spec (Z.of_nat (length comments)) page_size Hsize)
      as [_ Hhigh].
    assert (0 ≤ ceil_div (Z.of_nat (length comments)) page_size) by nia.
    lia.
  - by apply concat_pages_of.
  - intros i items Hlookup.
    apply pages_of_lookup in Hlookup as [-> Hrange]; [| exact Hsize].
    split.
    + pose proof (page_of_length comments (Z.of_nat i + 1) page_size Hsize) as Hlength.
      intros Hempty. rewrite Hempty in Hlength. simpl in Hlength.
      assert (page_size * (Z.of_nat i + 1 - 1) < Z.of_nat (length comments))
        by (by replace (Z.of_nat i + 1 - 1) with (Z.of_nat i) by lia).
      lia.
    + apply (response_comments_page w request comment_id (Z.of_nat i + 1) page_size
               requested_fields c t ctx); try done; [lia |].
      by replace (Z.of_nat i + 1 - 1) with (Z.of_nat i) by lia.
Qed.

(** The two comments of response [c1], one per page. *)
Lemma response_comment_pages_cover_witness :
  let comments :=
    [Demo.a_comment "c2" "th1" "3" []; Demo.a_comment "c3" "th1" "1" []] in
  Z.of_nat (length (pages_of comments 1)) = 2
  ∧ concat (pages_of comments 1) = comments.
Proof.
  intros comments.
  destruct (response_comment_pages_cover Demo.world Demo.as_alice "c1" 1 None
              (Demo.a_comment "c1" "th1" "1"
                 [Demo.a_comment "c2" "th1" "3" []; Demo.a_comment "c3" "th1" "1" []])
              Demo.th1
              (get_context Demo.world Demo.demo_course Demo.as_alice (Some Demo.th1))
              eq_refl eq_refl eq_refl ltac:(lia))
    as (Hlength & Hconcat & _).
  split; [exact Hlength | exact Hconcat].
Defined.

Lemma comment_list_endorsed_page (w : World) (request : Request)
    (thread_id : string) (page page_size : Z)
    (requested_fields : option (list string)) (t : cc_content) (ctx : context) :
  _include_profile_image requested_fields = false →
  _get_thread_and_context w request (VStr thread_id)
    (Some (comment_list_kwargs request (page_size * (page - 1)) page_size))
  = ret (t, ctx) →
  cc_thread_type t = "question" →
  let endorsed := cc_endorsed_responses t in
  let total := Z.of_nat (length endorsed) in
  0 < page_size → 1 ≤ page → page_size * (page - 1) < total →
  get_comment_list w request thread_id (Some true) page page_size requested_fields
  = ret (get_paginated_response request page (ceil_div total page_size) total
           (CommentListData
              (map (CommentSerializer_data w ctx) (page_of endorsed page page_size)))).
Proof.
  intros Hplain Hthread Htype endorsed total Hsize Hpage Hrange.
  assert (0 ≤ page_size * (page - 1)) as Hskip by nia.
  pose proof (page_of_length endorsed page page_size Hsize Hpage Hrange) as Hlength.
  unfold get_comment_list. cbv zeta. rewrite Hthread, bind_ret_l.
  unfold select_responses. rewrite Htype. cbn [String.eqb Ascii.eqb Bool.eqb].
  rewrite bind_ret_l.
  fold endorsed. rewrite slice_in_range by lia.
  fold (page_of endorsed page page_size).
  destruct (page_of endorsed page page_size) as [| first rest] eqn:Hpage_of;
    [simpl in Hlength; lia |].
  cbn [andb]. fold total.
  rewrite num_pages_of_positive by lia. rewrite bind_ret_l.
  rewrite (serialize_plain w request requested_fields ctx _ comment Hplain),
    bind_ret_l.
  reflexivity.
Qed.

(** X16. Paging through the endorsed responses of a question loses
    nothing either.  The comment service does not page them, so
    [get_comment_list] cuts the pages itself: when the thread is served
    with the same endorsed responses whatever window is asked for, the
    pages from 1 to the last one counted are not empty and hold every
    endorsed response once, in order. *)
Theorem endorsed_response_pages_cover (w : World) (request : Request)
    (thread_id : string) (page_size : Z)
    (requested_fields : option (list string)) (t : cc_content) (ctx : context) :
  _include_profile_image requested_fields = false →
  (∀ response_skip,
     _get_thread_and_context w request (VStr thread_id)
       (Some (comment_list_kwargs request response_skip page_size)) = ret (t, ctx)) →
  cc_thread_type t = "question" →
  0 < page_size →
  let endorsed := cc_endorsed_responses t in
  let total := Z.of_nat (length endorsed) in
  concat (pages_of endorsed page_size) = endorsed
  ∧ ∀ (i : nat) items,
      pages_of endorsed page_size !! i = Some items →
      items ≠ []
      ∧ get_comment_list w request thread_id (Some true) (Z.of_nat i + 1) page_size
          requested_fields
        = ret (get_paginated_response request (Z.of_nat i + 1)
                 (ceil_div total page_size) total
                 (CommentListData (map (CommentSerializer_data w ctx) items))).
Proof.
  intros Hplain Hthread Htype Hsize endorsed total.
  split; [by apply concat_pages_of |].
  intros i items Hlookup.
  apply pages_of_lookup in Hlookup as [-> Hrange]; [| exact Hsize].
  assert (page_size * (Z.of_nat i + 1 - 1) < Z.of_nat (length endorsed)) as Hrange'
    by (by replace (Z.of_nat i + 1 - 1) with (Z.of_nat i) by lia).
  split.
  - pose proof (page_of_length endorsed (Z.of_nat i + 1) page_size Hsize) as Hlength.
    intros Hempty. rewrite Hempty in Hlength. simpl in Hlength. lia.
  - apply (comment_list_endorsed_page w request thread_id (Z.of_nat i + 1) page_size
             requested_fields t ctx); try done. lia.
Qed.

(** The endorsed response of the question [th2], for Alice. *)
Lemma endorsed_response_pages_cover_witness :
  get_comment_list Demo.world Demo.as_alice "th2" (Some true) 1 5 None
  = ret (get_paginated_response Demo.as_alice 1 1 1
           (CommentListData [Demo.comment_payload (Demo.a_comment "c4" "th2" "1" [])])).
Proof.
  destruct (endorsed_response_pages_cover Demo.world Demo.as_alice "th2" 5 None
              Demo.th2
              (get_context Demo.world Demo.demo_course Demo.as_alice (Some Demo.th2))
              eq_refl (λ _, eq_refl) eq_refl ltac:(lia))
    as (_ & Hpages).
  apply (Hpages 0%nat [Demo.a_comment "c4" "th2" "1" []]). reflexivity.
Defined.

(** ** The thread listing: refusals and the query *)

(** X17. What [get_thread_list] refuses, in this order: more than one of
    the exclusive filters is a ValueError; an [order_by] other than
    ['last_activity_at'], ['comment_count'] and ['vote_count'] is a
    ValidationError on [order_by]; an [order_direction] other than
    ['desc'] is a ValidationError on [order_direction], all three whatever
    the course and the requester; and [count_flagged] from a requester who
    is not privileged is PermissionDenied, once the course and the author
    are resolved. *)
Theorem thread_list_refusals (w : World) (request : Request) (course_key : string)
    (page page_size : Z) (topic_id_list : option (list string))
    (text_search : option string) (following : option bool)
    (author : option string) (thread_type : option string)
    (flagged : option bool) (view : option string) (order_by : string)
    (order_direction : string) (requested_fields : option (list string))
    (count_flagged : option bool) :
  let listing :=
    get_thread_list w request course_key page page_size topic_id_list text_search
      following author thread_type flagged view order_by order_direction
      requested_fields count_flagged in
  let valid_order_by :=
    order_by ∈ ["last_activity_at"; "comment_count"; "vote_count"] in
  (1 < exclusive_param_count topic_id_list text_search following →
   listing = raise (ValueError
                      "More than one mutually exclusive param passed to get_thread_list"))
  ∧ (exclusive_param_count topic_id_list text_search following ≤ 1 →
     ¬ valid_order_by →
     listing = raise (ValidationError [("order_by", [order_by_message order_by])]))
  ∧ (exclusive_param_count topic_id_list text_search following ≤ 1 →
     valid_order_by →
     order_direction ≠ "desc" →
     listing = raise (ValidationError
                        [("order_direction", [order_direction_message order_direction])]))
  ∧ (∀ course author_id,
       exclusive_param_count topic_id_list text_search following ≤ 1 →
       valid_order_by →
       order_direction = "desc" →
       _get_course w course_key (request_user request) = ret course →
       author_lookup w author = Some author_id →
       count_flagged = Some true →
       requester_is_privileged w course request = false →
       listing = raise (PermissionDenied
         "`count_flagged` can only be set by users with moderator access or higher.")).
Proof.
  intros listing valid_order_by. subst listing valid_order_by.
  unfold get_thread_list.
  change (keys cc_map) with ["last_activity_at"; "comment_count"; "vote_count"].
  split; [| split; [| split]].
  - intros Hexcl.
    by assert ((1 <? exclusive_param_count topic_id_list text_search following) = true)
      as -> by lia.
  - intros Hexcl Horder.
    assert ((1 <? exclusive_param_count topic_id_list text_search following) = false)
      as -> by lia.
    rewrite <- str_in_spec in Horder.
    by destruct (str_in order_by _).
  - intros Hexcl Horder Hdirection.
    assert ((1 <? exclusive_param_count topic_id_list text_search following) = false)
      as -> by lia.
    apply str_in_spec in Horder. rewrite Horder. cbn [negb].
    apply String.eqb_neq in Hdirection. by rewrite Hdirection.
  - intros course author_id Hexcl Horder -> Hcourse Hauthor -> Hprivileged.
    assert ((1 <? exclusive_param_count topic_id_list text_search following) = false)
      as -> by lia.
    apply str_in_spec in Horder. rewrite Horder. cbn [negb].
    rewrite Hcourse, bind_ret_l. cbv zeta. rewrite Hauthor.
    rewrite privilege_ignores_thread, Hprivileged. reflexivity.
Qed.

(** Alice, a learner, asks for the flagged counts; and for the newest
    threads. *)
Lemma thread_list_refusals_witness :
  get_thread_list Demo.world Demo.as_alice Demo.demo_key 1 10 None None None None
    None None None "vote_count" "desc" None (Some true)
  = raise (PermissionDenied
      "`count_flagged` can only be set by users with moderator access or higher.")
  ∧ get_thread_list Demo.world Demo.as_alice Demo.demo_key 1 10 None None None None
      None None None "newest" "desc" None None
    = raise (ValidationError [("order_by", [order_by_message "newest"])]).
Proof.
  split.
  - apply (thread_list_refusals Demo.world Demo.as_alice Demo.demo_key 1 10 None None
             None None None None None "vote_count" "desc" None (Some true))
      with Demo.demo_course None; try reflexivity.
    + vm_compute. discriminate.
    + apply (bool_decide_unpack (_ ∈ _)). vm_compute. exact I.
  - apply (thread_list_refusals Demo.world Demo.as_alice Demo.demo_key 1 10 None None
             None None None None None "newest" "desc" None None).
    + vm_compute. discriminate.
    + apply (bool_decide_unpack (¬ _)). vm_compute. exact I.
Defined.



(** ** The topic listing *)

Lemma fold_left_gathers {A S : Type} (f : S → A → S) (found : S → string → Prop)
    (P : A → string → Prop) :
  (∀ acc x i, found (f acc x) i ↔ found acc i ∨ P x i) →
  ∀ l acc i, found (fold_left f l acc) i ↔ found acc i ∨ ∃ x, x ∈ l ∧ P x i.
Proof.
  intros Hstep l. induction l as [| y l IH]; intros acc i; simpl.
  - set_solver.
  - rewrite IH, Hstep. setoid_rewrite elem_of_cons. naive_solver.
Qed.

Lemma fold_left_invariant {A S : Type} (f : S → A → S) (I : S → Prop) (l : list A) :
  (∀ acc x, x ∈ l → I acc → I (f acc x)) →
  ∀ acc, I acc → I (fold_left f l acc).
Proof.
  induction l as [| y l IH]; intros Hstep acc Hacc; simpl; [exact Hacc |].
  apply IH.
  - intros acc' x Hx. apply Hstep. by right.
  - apply Hstep; [by left | exact Hacc].
Qed.

Lemma listed_ids_snoc (topics : list DiscussionTopic) (t : DiscussionTopic)
    (i : string) :
  topic_id t = Some i → listed_ids (topics ++ [t]) = listed_ids topics ++ [i].
Proof.
  intros Hid. unfold listed_ids. rewrite omap_app. simpl. by rewrite Hid.
Qed.

Lemma listed_courseware_ids_snoc (categories : list DiscussionTopic)
    (t : DiscussionTopic) :
  listed_courseware_ids (categories ++ [t])
  = listed_courseware_ids categories ++ listed_ids (topic_children t).
Proof.
  unfold listed_courseware_ids. rewrite bind_app. simpl. by rewrite app_nil_r.
Qed.

Section Listed.

Context (w : World) (request : Request) (course_key : string)
  (topic_ids : option (gset string))
  (thread_counts : list (string * list (string * Z))).

Lemma add_xblock_topic_listed (acc : list DiscussionTopic * gset string)
    (x : XBlock) (i : string) :
  i ∈ listed_ids (fst (add_xblock_topic w request course_key topic_ids thread_counts
                         acc x))
  ↔ i ∈ listed_ids (fst acc)
    ∨ (i = discussion_id x ∧ passes_filter topic_ids i = true).
Proof.
  destruct acc as [children existing]. unfold add_xblock_topic, passes_filter.
  destruct (negb (topic_ids_truthy topic_ids)
            || in_topic_ids (discussion_id x) topic_ids) eqn:Hpasses; simpl.
  - rewrite (listed_ids_snoc _ _ (discussion_id x)) by reflexivity.
    rewrite elem_of_app, list_elem_of_singleton.
    split; [| naive_solver].
    intros [Hin | ->]; [by left | right]. by rewrite Hpasses.
  - split; [by left |].
    intros [Hin | [-> Hi]]; [exact Hin | congruence].
Qed.

Lemma add_category_topic_listed (groups : list (string * list XBlock))
    (acc : list DiscussionTopic * gset string) (c : string) (i : string) :
  i ∈ listed_courseware_ids
        (fst (add_category_topic w request course_key topic_ids thread_counts groups
                acc c))
  ↔ i ∈ listed_courseware_ids (fst acc)
    ∨ ∃ x, x ∈ get_sorted_xblocks groups c
           ∧ i = discussion_id x ∧ passes_filter topic_ids i = true.
Proof.
  destruct acc as [topics existing]. unfold add_category_topic.
  pose proof (fold_left_gathers _ (λ acc i, i ∈ listed_ids (fst acc)) _
                add_xblock_topic_listed
                (get_sorted_xblocks groups c) ([], existing) i) as Hinner.
  destruct (fold_left _ (get_sorted_xblocks groups c) ([], existing))
    as [children existing'].
  simpl in Hinner.
  assert (i ∈ listed_ids children
          ↔ ∃ x, x ∈ get_sorted_xblocks groups c
                 ∧ i = discussion_id x ∧ passes_filter topic_ids i = true)
    as Hchildren by (rewrite Hinner, elem_of_nil; naive_solver).
  rewrite <- Hchildren.
  destruct (negb (topic_ids_truthy topic_ids)
            || match children with [] => false | _ => true end) eqn:Hkeep; simpl.
  - unfold DiscussionTopicSerializer_data.
    by rewrite listed_courseware_ids_snoc, elem_of_app.
  - destruct children; [| by rewrite orb_true_r in Hkeep].
    change (listed_ids []) with (@nil string). rewrite elem_of_nil. tauto.
Qed.

Lemma courseware_listed (course : Course) (i : string) :
  i ∈ listed_courseware_ids
        (fst (get_courseware_topics w request course_key course topic_ids
                thread_counts))
  ↔ i ∈ courseware_topic_ids w course (request_user request)
    ∧ passes_filter topic_ids i = true.
Proof.
  unfold get_courseware_topics, courseware_topic_ids. cbv zeta.
  rewrite (fold_left_gathers _ (λ acc i, i ∈ listed_courseware_ids (fst acc)) _
             (add_category_topic_listed _)).
  rewrite list_elem_of_fmap. cbn [fst].
  change (listed_courseware_ids []) with (@nil string).
  split.
  - intros [Hin | (c & Hc & x & Hx & -> & Hpasses)]; [by apply elem_of_nil in Hin |].
    split; [| exact Hpasses]. exists x. split; [reflexivity |].
    unfold get_sorted_xblocks in Hx. apply sorted_by_elem, get_grouped in Hx.
    destruct Hx as [Hx | [Hx _]]; [by apply elem_of_nil in Hx | exact Hx].
  - intros [(x & -> & Hx) Hpasses]. right.
    exists (discussion_category x). split.
    + apply sorted_by_elem. by apply grouped_category_key.
    + exists x. split; [| done].
      unfold get_sorted_xblocks. apply sorted_by_elem, get_grouped. by right.
Qed.

Lemma add_non_courseware_topic_listed (acc : list DiscussionTopic * gset string)
    (item : string * TopicEntry) (i : string) :
  i ∈ listed_ids (fst (add_non_courseware_topic w request course_key topic_ids
                         thread_counts acc item))
  ↔ i ∈ listed_ids (fst acc)
    ∨ (i = entry_id (snd item) ∧ passes_filter topic_ids i = true).
Proof.
  destruct acc as [topics existing], item as [name entry].
  unfold add_non_courseware_topic, passes_filter.
  destruct (negb (topic_ids_truthy topic_ids)
            || in_topic_ids (entry_id entry) topic_ids) eqn:Hpasses; simpl.
  - rewrite (listed_ids_snoc _ _ (entry_id entry)) by reflexivity.
    rewrite elem_of_app, list_elem_of_singleton.
    split; [| naive_solver].
    intros [Hin | ->]; [by left | right]. by rewrite Hpasses.
  - split; [by left |].
    intros [Hin | [-> Hi]]; [exact Hin | congruence].
Qed.

Lemma non_courseware_listed (course : Course) (i : string) :
  i ∈ listed_ids (fst (get_non_courseware_topics w request course_key course
                         topic_ids thread_counts))
  ↔ i ∈ freestanding_topic_ids course ∧ passes_filter topic_ids i = true.
Proof.
  unfold get_non_courseware_topics, freestanding_topic_ids. cbv zeta.
  rewrite (fold_left_gathers _ (λ acc i, i ∈ listed_ids (fst acc)) _
             add_non_courseware_topic_listed).
  rewrite list_elem_of_fmap. setoid_rewrite sorted_by_elem. cbn [fst snd].
  change (listed_ids []) with (@nil string). split.
  - intros [Hin | (item & Hitem & -> & Hpasses)]; [by apply elem_of_nil in Hin |].
    eauto.
  - intros [(item & -> & Hitem) Hpasses]. right. eauto.
Qed.

(** The shape of the two lists: a courseware entry is a category, without
    an id, and under a filter it has a child; a freestanding entry is a
    topic of the course settings, without children. *)
Lemma courseware_categories (course : Course) (t : DiscussionTopic) :
  t ∈ fst (get_courseware_topics w request course_key course topic_ids thread_counts) →
  topic_id t = None
  ∧ (topic_ids_truthy topic_ids = true → topic_children t ≠ []).
Proof.
  unfold get_courseware_topics. cbv zeta.
  set (groups := fold_left append_to_category _ []).
  revert t. apply Forall_forall.
  apply (fold_left_invariant _ (λ acc, Forall _ (fst acc))); [| by constructor].
  intros [topics existing] c _ Htopics. unfold add_category_topic.
  destruct (fold_left _ (get_sorted_xblocks groups c) ([], existing))
    as [children existing'].
  destruct (topic_ids_truthy topic_ids) eqn:Htruthy; simpl.
  - destruct children as [| child children]; simpl; [exact Htopics |].
    simpl in Htopics. apply Forall_app. split; [exact Htopics |].
    constructor; [| constructor]. by split.
  - simpl in Htopics. apply Forall_app. split; [exact Htopics |].
    constructor; [| constructor]. by split.
Qed.

Lemma non_courseware_entries (course : Course) (t : DiscussionTopic) :
  t ∈ fst (get_non_courseware_topics w request course_key course topic_ids
             thread_counts) →
  topic_children t = []
  ∧ ∃ item, item ∈ discussion_topics course
            ∧ topic_id t = Some (entry_id (snd item))
            ∧ topic_name t = fst item.
Proof.
  unfold get_non_courseware_topics. cbv zeta.
  revert t. apply Forall_forall.
  apply (fold_left_invariant _ (λ acc, Forall _ (fst acc))); [| by constructor].
  intros [topics existing] [name entry] Hitem Htopics.
  apply sorted_by_elem in Hitem.
  unfold add_non_courseware_topic.
  destruct (negb (topic_ids_truthy topic_ids) || _); simpl; [| exact Htopics].
  simpl in Htopics. apply Forall_app. split; [exact Htopics |].
  constructor; [| constructor].
  split; [reflexivity |]. by exists (name, entry).
Qed.

End Listed.

(** X19. For a course that resolves, [get_course_topics] returns a
    listing exactly when every requested id is a courseware topic the
    requester can see or a freestanding topic of the course; without a
    filter, or with an empty one, it always does. *)
Theorem topic_listing_succeeds_iff_all_exist (w : World) (request : Request)
    (course_key : string) (topic_ids : option (gset string)) (course : Course) :
  _get_course w course_key (request_user request) = ret course →
  (∃ listing, get_course_topics w request course_key topic_ids = ret listing)
  ↔ ∀ i, i ∈ default ∅ topic_ids →
         i ∈ courseware_topic_ids w course (request_user request)
         ∨ i ∈ freestanding_topic_ids course.
Proof.
  intros Hcourse.
  unfold get_course_topics. rewrite Hcourse, bind_ret_l. cbv zeta.
  destruct (topic_ids_truthy topic_ids) eqn:Htruthy.
  - destruct topic_ids as [s |]; [| discriminate].
    assert (s ≠ ∅) as Hnonempty.
    { unfold topic_ids_truthy in Htruthy. by case_bool_decide. }
    pose proof (courseware_existing w request course_key s
                  (get_course_commentable_counts w (course_id course)) Hnonempty course)
      as Hcw.
    pose proof (non_courseware_existing w request course_key s
                  (get_course_commentable_counts w (course_id course)) Hnonempty course)
      as Hncw.
    destruct (get_courseware_topics _ _ _ _ _ _) as [cw existing_cw].
    destruct (get_non_courseware_topics _ _ _ _ _ _) as [ncw existing_ncw].
    simpl in Hcw, Hncw. simpl.
    case_bool_decide as Hnot_found; simpl.
    + split; [| by eexists].
      intros _ i Hi.
      destruct (decide (i ∈ existing_cw ∪ existing_ncw)) as [Hin | Hout].
      * apply elem_of_union in Hin as [Hin | Hin];
          [left; by apply Hcw | right; by apply Hncw].
      * exfalso. apply (not_elem_of_empty (C := gset string) i).
        rewrite <- Hnot_found. by apply elem_of_difference.
    + split; [by intros [listing Hlisting] |].
      intros Hall. exfalso. apply Hnot_found.
      apply set_eq. intros i. rewrite elem_of_difference, elem_of_union, Hcw, Hncw.
      split; [| by intros Hin%not_elem_of_empty].
      intros [Hi Hmissing]. destruct (Hall i Hi); tauto.
  - destruct (get_courseware_topics _ _ _ _ _ _) as [cw existing_cw].
    destruct (get_non_courseware_topics _ _ _ _ _ _) as [ncw existing_ncw].
    simpl. split; [| by eexists].
    intros _ i Hi. exfalso.
    destruct topic_ids as [s |]; simpl in Hi; [| by apply not_elem_of_empty in Hi].
    unfold topic_ids_truthy in Htruthy. case_bool_decide; [| discriminate].
    subst s. by apply not_elem_of_empty in Hi.
Qed.

(** Alice asks for [t1] and [t2], which both exist. *)
Lemma topic_listing_succeeds_iff_all_exist_witness :
  ∃ listing,
    get_course_topics Demo.world Demo.as_alice Demo.demo_key (Some {["t1"; "t2"]})
    = ret listing.
Proof.
  apply (topic_listing_succeeds_iff_all_exist Demo.world Demo.as_alice Demo.demo_key
           (Some {["t1"; "t2"]}) Demo.demo_course); [reflexivity |].
  intros i Hi. simpl in Hi.
  apply elem_of_union in Hi as [Hi | Hi]; apply elem_of_singleton in Hi; subst i.
  - apply (bool_decide_unpack (_ ∨ _)). vm_compute. exact I.
  - apply (bool_decide_unpack (_ ∨ _)). vm_compute. exact I.
Defined.

(** X20. What a topic listing holds.  The topics under its courseware
    categories are the discussion xblocks the requester can see, and its
    freestanding topics are those of the course settings, in both cases
    cut down to the requested ids when there is a filter.  A courseware
    entry is a category without an id, and no category is listed empty
    under a filter; a freestanding entry has the id and the name of a
    topic of the course settings and no children. *)
Theorem topic_listing_contents (w : World) (request : Request)
    (course_key : string) (topic_ids : option (gset string)) (course : Course)
    (listing : CourseTopics) :
  _get_course w course_key (request_user request) = ret course →
  get_course_topics w request course_key topic_ids = ret listing →
  (∀ i, i ∈ listed_courseware_ids (courseware_topics listing)
        ↔ i ∈ courseware_topic_ids w course (request_user request)
          ∧ passes_filter topic_ids i = true)
  ∧ (∀ i, i ∈ listed_ids (non_courseware_topics listing)
          ↔ i ∈ freestanding_topic_ids course ∧ passes_filter topic_ids i = true)
  ∧ (∀ t, t ∈ courseware_topics listing →
          topic_id t = None
          ∧ (topic_ids_truthy topic_ids = true → topic_children t ≠ []))
  ∧ (∀ t, t ∈ non_courseware_topics listing →
          topic_children t = []
          ∧ ∃ item, item ∈ discussion_topics course
                    ∧ topic_id t = Some (entry_id (snd item))
                    ∧ topic_name t = fst item).
Proof.
  intros Hcourse Hlisting.
  unfold get_course_topics in Hlisting.
  rewrite Hcourse, bind_ret_l in Hlisting. cbv zeta in Hlisting.
  pose proof (courseware_listed w request course_key topic_ids
                (get_course_commentable_counts w (course_id course)) course) as Hcw.
  pose proof (non_courseware_listed w request course_key topic_ids
                (get_course_commentable_counts w (course_id course)) course) as Hncw.
  pose proof (courseware_categories w request course_key topic_ids
                (get_course_commentable_counts w (course_id course)) course)
    as Hcategories.
  pose proof (non_courseware_entries w request course_key topic_ids
                (get_course_commentable_counts w (course_id course)) course)
    as Hentries.
  destruct (get_courseware_topics _ _ _ _ _ _) as [cw existing_cw].
  destruct (get_non_courseware_topics _ _ _ _ _ _) as [ncw existing_ncw].
  destruct (topic_ids_truthy topic_ids && _); [discriminate |].
  injection Hlisting as <-. simpl in *.
  split; [exact Hcw |]. split; [exact Hncw |].
  split; [exact Hcategories | exact Hentries].
Qed.

(** Alice asks for [t1] alone. *)
Lemma topic_listing_contents_witness :
  ∃ listing,
    get_course_topics Demo.world Demo.as_alice Demo.demo_key (Some {["t1"]})
    = ret listing
    ∧ ∀ t, t ∈ courseware_topics listing →
           topic_id t = None
           ∧ (topic_ids_truthy (Some {["t1"]}) = true → topic_children t ≠ []).
Proof.
  eexists. split; [vm_compute; reflexivity |].
  apply (topic_listing_contents Demo.world Demo.as_alice Demo.demo_key
           (Some {["t1"]}) Demo.demo_course); [reflexivity |].
  vm_compute. reflexivity.
Defined.

(** *** The order of the categories *)

Lemma str_lt_le (a b : string) : str_lt a b → String.le a b.
Proof.
  unfold str_lt, String.le, String.ltb, String.leb.
  by destruct (String.compare a b).
Qed.

Lemma str_lt_ne (a b : string) : str_lt a b → a ≠ b.
Proof.
  unfold str_lt, String.ltb. intros Hlt ->.
  pose proof (String.compare_antisym b b) as Hanti.
  by destruct (String.compare b b).
Qed.

Lemma str_le_ne_lt (a b : string) : String.le a b → a ≠ b → str_lt a b.
Proof.
  unfold str_lt, String.le, String.ltb, String.leb. intros Hle Hne.
  destruct (String.compare a b) eqn:Hcompare; [| reflexivity | done].
  by apply String.compare_eq_iff in Hcompare.
Qed.

Lemma str_lt_trans (a b c : string) : str_lt a b → str_lt b c → str_lt a c.
Proof.
  intros Hab Hbc. apply str_le_ne_lt.
  - trans b; by apply str_lt_le.
  - intros ->. apply (str_lt_ne _ _ Hab).
    apply (anti_symm String.le); by apply str_lt_le.
Qed.

Lemma str_not_lt (a b : string) : String.ltb a b = false → a ≠ b → str_lt b a.
Proof.
  intros Hnot Hne.
  destruct (total String.le a b) as [Hle | Hle].
  - pose proof (str_le_ne_lt _ _ Hle Hne) as Hlt. unfold str_lt in Hlt. congruence.
  - by apply str_le_ne_lt.
Qed.

Lemma insert_by_increasing (x : string) (l : list string) :
  x ∉ l → StronglySorted str_lt l → StronglySorted str_lt (insert_by id x l).
Proof.
  induction l as [| y l IH]; intros Hfresh Hsorted; simpl.
  - repeat constructor.
  - apply StronglySorted_cons in Hsorted as [Hhead Hsorted].
    apply not_elem_of_cons in Hfresh as [Hne Hfresh].
    change (id x) with x. change (id y) with y.
    destruct (String.ltb x y) eqn:Hlt.
    + apply StronglySorted_cons. split.
      * constructor; [exact Hlt |].
        eapply Forall_impl; [exact Hhead |].
        intros z Hz. by apply (str_lt_trans x y z).
      * by apply StronglySorted_cons.
    + apply StronglySorted_cons. split; [| by apply IH].
      apply Forall_forall. intros z Hz.
      apply insert_by_elem in Hz as [-> | Hz].
      * by apply str_not_lt.
      * by apply (proj1 (Forall_forall _ _) Hhead).
Qed.

Lemma sorted_by_increasing (l : list string) :
  NoDup l → StronglySorted str_lt (sorted_by id l).
Proof.
  unfold sorted_by.
  assert (∀ acc, NoDup l → (∀ x, x ∈ l → x ∉ acc) → StronglySorted str_lt acc →
                 StronglySorted str_lt (fold_left (λ acc x, insert_by id x acc) l acc))
    as Hfold.
  { induction l as [| x l IH]; intros acc Hnodup Hfresh Hsorted; simpl;
      [exact Hsorted |].
    apply NoDup_cons in Hnodup as [Hx Hnodup].
    apply IH; [exact Hnodup | |].
    - intros y Hy Hin. apply insert_by_elem in Hin as [-> | Hin]; [done |].
      apply (Hfresh y); [by right | exact Hin].
    - apply insert_by_increasing; [| exact Hsorted].
      apply Hfresh. by left. }
  intros Hnodup. apply Hfold; [exact Hnodup | | constructor].
  intros x _. apply not_elem_of_nil.
Qed.

Lemma keys_append_to_category (d : list (string * list XBlock)) (x : XBlock)
    (c : string) :
  c ∈ keys (append_to_category d x) → c ∈ keys d ∨ c = discussion_category x.
Proof.
  unfold keys. induction d as [| [c' xs] d IH]; simpl.
  - intros Hin%list_elem_of_singleton. by right.
  - destruct (String.eqb (discussion_category x) c'); simpl; [by left |].
    intros [-> | Hin]%elem_of_cons; [left; by left |].
    destruct (IH Hin) as [Hd | ->]; [left; by right | by right].
Qed.

Lemma NoDup_keys_append_to_category (d : list (string * list XBlock)) (x : XBlock) :
  NoDup (keys d) → NoDup (keys (append_to_category d x)).
Proof.
  induction d as [| [c xs] d IH]; simpl.
  - intros _. apply NoDup_singleton.
  - intros [Hc Hnodup]%NoDup_cons.
    destruct (String.eqb_spec (discussion_category x) c) as [Hcat | Hcat]; simpl.
    + by apply NoDup_cons.
    + apply NoDup_cons. split; [| by apply IH].
      intros [Hin | Heq]%keys_append_to_category; [by apply Hc | congruence].
Qed.

Lemma NoDup_keys_grouped (xs : list XBlock) (d : list (string * list XBlock)) :
  NoDup (keys d) → NoDup (keys (fold_left append_to_category xs d)).
Proof.
  revert d. induction xs as [| x xs IH]; intros d Hnodup; simpl; [exact Hnodup |].
  by apply IH, NoDup_keys_append_to_category.
Qed.

Lemma StronglySorted_sublist {A : Type} (R : relation A) (l1 l2 : list A) :
  l1 `sublist_of` l2 → StronglySorted R l2 → StronglySorted R l1.
Proof.
  induction 1 as [| x l1 l2 Hsub IH | x l1 l2 Hsub IH]; intros Hsorted.
  - constructor.
  - apply StronglySorted_cons in Hsorted as [Hhead Hsorted].
    apply StronglySorted_cons. split; [| by apply IH].
    apply Forall_forall. intros y Hy.
    apply (proj1 (Forall_forall _ _) Hhead).
    by apply (elem_of_sublist l1 l2 y).
  - apply StronglySorted_cons in Hsorted as [_ Hsorted]. by apply IH.
Qed.

Lemma category_names (w : World) (request : Request) (course_key : string)
    (topic_ids : option (gset string))
    (thread_counts : list (string * list (string * Z)))
    (groups : list (string * list XBlock)) (categories : list string)
    (acc : list DiscussionTopic * gset string) :
  ∃ kept,
    map topic_name
      (fst (fold_left
              (add_category_topic w request course_key topic_ids thread_counts groups)
              categories acc))
    = map topic_name (fst acc) ++ kept
    ∧ kept `sublist_of` categories.
Proof.
  revert acc. induction categories as [| c categories IH]; intros acc; simpl.
  - exists []. by rewrite app_nil_r.
  - destruct (IH (add_category_topic w request course_key topic_ids thread_counts
                    groups acc c)) as (kept & -> & Hkept).
    destruct acc as [topics existing]. unfold add_category_topic.
    destruct (fold_left _ (get_sorted_xblocks groups c) ([], existing))
      as [children existing'].
    destruct (negb (topic_ids_truthy topic_ids) || _); simpl.
    + exists (c :: kept). split; [| by constructor].
      by rewrite map_app, <- app_assoc.
    + exists kept. split; [reflexivity | by constructor].
Qed.

(** X21. The courseware categories of a topic listing are in strictly
    increasing alphabetical order of their names: each category is listed
    once, whatever the order in which the course yields its xblocks. *)
Theorem topic_listing_categories_increasing (w : World) (request : Request)
    (course_key : string) (topic_ids : option (gset string))
    (listing : CourseTopics) :
  get_course_topics w request course_key topic_ids = ret listing →
  StronglySorted str_lt (map topic_name (courseware_topics listing)).
Proof.
  intros Hlisting.
  unfold get_course_topics in Hlisting.
  destruct (_get_course w course_key (request_user request))
    as [l [e | course]] eqn:Hcourse; [discriminate |].
  assert (l = []) as ->.
  { unfold _get_course in Hcourse.
    destruct (get_course_with_access _ _ _); [| by injection Hcourse].
    destruct (negb _); by injection Hcourse. }
  change (([] : list event), inr course) with (ret (A := Course) course) in Hlisting.
  rewrite bind_ret_l in Hlisting. cbv zeta in Hlisting.
  assert (StronglySorted str_lt
            (map topic_name
               (fst (get_courseware_topics w request course_key course topic_ids
                       (get_course_commentable_counts w (course_id course))))))
    as Hsorted.
  { unfold get_courseware_topics. cbv zeta.
    set (groups := fold_left append_to_category _ []).
    destruct (category_names w request course_key topic_ids
                (get_course_commentable_counts w (course_id course)) groups
                (sorted_by id (keys groups)) ([], ∅)) as (kept & -> & Hkept).
    simpl. apply (StronglySorted_sublist _ _ _ Hkept).
    apply sorted_by_increasing, NoDup_keys_grouped. constructor. }
  destruct (get_courseware_topics _ _ _ _ _ _) as [cw existing_cw].
  destruct (get_non_courseware_topics _ _ _ _ _ _) as [ncw existing_ncw].
  destruct (topic_ids_truthy topic_ids && _); [discriminate |].
  by injection Hlisting as <-.
Qed.

(** The whole listing of the small course, for Alice. *)
Lemma topic_listing_categories_increasing_witness :
  ∃ listing,
    get_course_topics Demo.world Demo.as_alice Demo.demo_key None = ret listing
    ∧ StronglySorted str_lt (map topic_name (courseware_topics listing)).
Proof.
  eexists. split; [vm_compute; reflexivity |].
  apply (topic_listing_categories_increasing Demo.world Demo.as_alice Demo.demo_key
           None).
  vm_compute. reflexivity.
Defined.

(** ** Creating a thread *)

Lemma get_None_keys {V : Type} (d : list (string * V)) (k : string) :
  get d k = None ↔ str_in k (keys d) = false.
Proof.
  unfold str_in, keys. induction d as [| [k' v] d IH]; simpl; [done |].
  destruct (String.eqb k k'); simpl; [done | exact IH].
Qed.

Lemma bind_emit {A : Type} (ev : event) (m : M A) :
  (emit ev ;; m) = (ev :: events m, outcome m).
Proof. by destruct m as [l r]. Qed.

(** X22. [create_thread] changes nothing unless the request is accepted:
    the course key of the data parses, the course resolves for the
    requester, who may post now, every field of the data is
    initializable, and the serializer and the action form are valid.
    Then the first two events are the save of the new thread and the
    [thread_created] signal, and the data that is validated and saved is
    the data of the request, except for [group_id]: a request that gives
    no [group_id] for a divided topic gets the group of the requester,
    and a [group_id] of the request is never replaced. *)
Theorem thread_created_only_when_accepted (w : World) (tc : ThreadCreation)
    (request : Request) (thread_data : request_data) :
  thread_events (create_thread w tc request thread_data) ≠ [] →
  ∃ course_key course saved id rest,
    let user := request_user request in
    let context := get_context w course request None in
    let settings := CourseDiscussionSettings_get w course_key in
    CourseKey_from_string tc (default VNone (get thread_data "course_id"))
    = Some course_key
    ∧ _get_course w course_key user = ret course
    ∧ discussion_open_for_user w course user = true
    ∧ (∀ k, k ∈ keys thread_data → k ∈ get_initializable_thread_fields tc context)
    ∧ ThreadSerializer_errors w context None saved = []
    ∧ form_errors (ThreadActionsForm w saved) = []
    ∧ thread_events (create_thread w tc request thread_data)
      = Logged (SerializerSave thread id saved)
        :: Logged (SignalSent thread_created user id) :: rest
    ∧ (∀ k, k ≠ "group_id" → get saved k = get thread_data k)
    ∧ get saved "group_id"
      = match get thread_data "group_id" with
        | Some group => Some group
        | None =>
            if is_commentable_divided_for tc course_key (get thread_data "topic_id")
                 settings
            then Some (of_option VInt (get_group_id_for_user w user settings))
            else None
        end.
Proof.
  intros Hevents. unfold create_thread in *. cbv zeta in *.
  destruct (truthy (default VNone (get thread_data "course_id"))) eqn:Htruthy;
    cbn [negb] in *; [| done].
  destruct (CourseKey_from_string tc _) as [course_key |] eqn:Hkey; [| done].
  destruct (_get_course w course_key (request_user request))
    as [l [e | course]] eqn:Hcourse.
  { exfalso. apply Hevents.
    pose proof (get_course_silent (λ _, False) w course_key (request_user request))
      as Hsilent.
    apply emits_nothing_silent in Hsilent. rewrite Hcourse in Hsilent.
    unfold silent in Hsilent. simpl in Hsilent. by subst l. }
  assert (l = []) as ->.
  { pose proof (get_course_silent (λ _, False) w course_key (request_user request))
      as Hsilent.
    apply emits_nothing_silent in Hsilent. by rewrite Hcourse in Hsilent. }
  change (([] : list event), inr course) with (ret (A := Course) course) in *.
  rewrite bind_ret_l in *.
  destruct (discussion_open_for_user w course (request_user request)) eqn:Hopen;
    cbn [negb] in *; [| done].
  unfold _check_initializable_thread_fields in *.
  destruct (check_fields_result
              (get_initializable_thread_fields tc (get_context w course request None))
              thread_data "This field is not initializable.")
    as [[Hcheck Hfields] | [errors Hcheck]]; rewrite Hcheck in *; [| done].
  rewrite bind_ret_l in *.
  set (settings := CourseDiscussionSettings_get w course_key) in *.
  set (saved := if negb (str_in "group_id" (keys thread_data)) && _
                then _ else thread_data) in *.
  destruct (is_valid (ThreadSerializer_errors w _ None saved)) eqn:Hserializer;
    [| done].
  destruct (is_valid (form_errors (ThreadActionsForm w saved))) eqn:Hform; [| done].
  cbn [andb negb] in *.
  assert (∀ k, k ≠ "group_id" → get saved k = get thread_data k) as Hkept.
  { intros k Hk. subst saved.
    destruct (negb _ && _); [| reflexivity].
    rewrite get_dict_set. by apply String.eqb_neq in Hk as ->. }
  assert (get saved "group_id"
          = match get thread_data "group_id" with
            | Some group => Some group
            | None =>
                if is_commentable_divided_for tc course_key
                     (get thread_data "topic_id") settings
                then Some (of_option VInt
                             (get_group_id_for_user w (request_user request) settings))
                else None
            end) as Hgroup.
  { subst saved.
    destruct (str_in "group_id" (keys thread_data)) eqn:Hgiven; cbn [negb andb].
    - destruct (get thread_data "group_id") eqn:Hget; [reflexivity |].
      apply get_None_keys in Hget. congruence.
    - apply get_None_keys in Hgiven. rewrite Hgiven.
      destruct (is_commentable_divided_for tc _ _ _); [| exact Hgiven].
      by rewrite get_dict_set. }
  exists course_key, course, saved,
    (cc_id (ThreadSerializer_save w (get_context w course request None) None saved)).
  rewrite !bind_emit.
  match goal with
  | |- context [events ?m] => destruct m as [l [e | [api_thread [cc followed]]]]
  end; cbn [events outcome fst snd fmap list_fmap thread_events app];
    eexists; repeat split; try done; by apply is_valid_nil.
Qed.

(** Carol starts a thread in the divided topic without naming a group:
    it is saved for her cohort. *)
Lemma thread_created_only_when_accepted_witness :
  ∃ saved id rest,
    thread_events (create_thread Demo.world ThreadScenario.creation Demo.as_carol
                     ThreadScenario.carol_thread)
    = Logged (SerializerSave thread id saved)
      :: Logged (SignalSent thread_created Demo.carol id) :: rest
    ∧ get saved "group_id" = Some (VInt 2).
Proof.
  destruct (thread_created_only_when_accepted Demo.world ThreadScenario.creation
              Demo.as_carol ThreadScenario.carol_thread)
    as (course_key & course & saved & id & rest & Hkey & _ & _ & _ & _ & _
        & Hevents & _ & Hgroup).
  - vm_compute. discriminate.
  - exists saved, id, rest. split; [exact Hevents |].
    rewrite Hgroup. vm_compute in Hkey. injection Hkey as <-. reflexivity.
Defined.

(** X23. What [create_thread] refuses before it looks at the fields of
    the data, in this order and without any effect: data without a
    [course_id] (ValidationError, the field is required), a [course_id]
    that is no course key (ValidationError, invalid value), a course
    that does not resolve for the requester (the error of [_get_course],
    as it is), and a requester who may not post now
    (DiscussionBlackOutException), whatever else the data holds. *)
Theorem create_thread_refusals (w : World) (tc : ThreadCreation)
    (request : Request) (thread_data : request_data) :
  let course_id := default VNone (get thread_data "course_id") in
  let result := create_thread w tc request thread_data in
  (truthy course_id = false →
   result = ([], inl (ValidationError [("course_id", ["This field is required."])])))
  ∧ (truthy course_id = true →
     CourseKey_from_string tc course_id = None →
     result = ([], inl (ValidationError [("course_id", ["Invalid value."])])))
  ∧ (∀ course_key e,
       truthy course_id = true →
       CourseKey_from_string tc course_id = Some course_key →
       _get_course w course_key (request_user request) = raise e →
       result = ([], inl e))
  ∧ (∀ course_key course,
       truthy course_id = true →
       CourseKey_from_string tc course_id = Some course_key →
       _get_course w course_key (request_user request) = ret course →
       discussion_open_for_user w course (request_user request) = false →
       result = ([], inl DiscussionBlackOutException)).
Proof.
  intros course_id result. subst course_id result.
  unfold create_thread. cbv zeta.
  split; [| split; [| split]].
  - by intros ->.
  - by intros -> ->.
  - by intros course_key e -> -> ->.
  - intros course_key course -> -> -> Hopen. rewrite bind_ret_l, Hopen. reflexivity.
Qed.

(** During the blackout Carol cannot start her thread. *)
Lemma create_thread_refusals_witness :
  create_thread Scenario.blackout ThreadScenario.creation Demo.as_carol
    ThreadScenario.carol_thread
  = ([], inl DiscussionBlackOutException).
Proof.
  apply (create_thread_refusals Scenario.blackout ThreadScenario.creation
           Demo.as_carol ThreadScenario.carol_thread)
    with Demo.demo_key Demo.demo_course; reflexivity.
Defined.
